(** * Production-manual backend: a Rocq model of [app.py] and [generador_blend.py]

    The backend receives a render and overall dimensions, asks an external
    model for a bill of materials, and emits per-piece SVG cut plans, PNG
    previews, a DOCX manual and a ZIP with everything.  This file embeds
    the decision logic of that pipeline and states its properties.

    Conventions of the embedding:
    - a Python [str] is a list of Unicode code points ([list N]), so that
      [len] is [length];
    - a JSON object is a finite map from keys to values ([gmap string _]);
    - Python numbers (int and float, with [*], [+], [/], [str]) are an
      interface, [PyNum]; nothing below depends on how they round, and an
      operator may raise, as [/] does on an int beyond the float range;
    - an f-string is the list of its literal pieces and formatted values;
    - a function that can raise returns a [result]. *)

From Stdlib Require Import ZArith NArith QArith Qcanon List String Ascii Bool Lia.
From stdpp Require Import base gmap strings list fin_maps.

Local Open Scope string_scope.
Local Open Scope list_scope.
Local Open Scope Z_scope.

(** ** Strings *)

Abbreviation pystr := (list N).

(** Code points of a UTF-8 encoded literal. *)
Fixpoint utf8_decode (fuel : nat) (bs : list N) : list N :=
  match fuel with
  | O => []
  | S fuel' =>
    match bs with
    | [] => []
    | b0 :: r0 =>
      if (b0 <? 128)%N then b0 :: utf8_decode fuel' r0
      else if (b0 <? 224)%N then
        match r0 with
        | b1 :: r1 => ((b0 - 192) * 64 + (b1 - 128))%N :: utf8_decode fuel' r1
        | _ => []
        end
      else if (b0 <? 240)%N then
        match r0 with
        | b1 :: b2 :: r2 =>
          ((b0 - 224) * 4096 + (b1 - 128) * 64 + (b2 - 128))%N :: utf8_decode fuel' r2
        | _ => []
        end
      else
        match r0 with
        | b1 :: b2 :: b3 :: r3 =>
          ((b0 - 240) * 262144 + (b1 - 128) * 4096 + (b2 - 128) * 64 + (b3 - 128))%N
            :: utf8_decode fuel' r3
        | _ => []
        end
    end
  end.

Fixpoint bytes_of_string (s : string) : list N :=
  match s with
  | EmptyString => []
  | String a s' => N_of_ascii a :: bytes_of_string s'
  end.

(** A Python string literal. *)
Definition lit (s : string) : pystr :=
  let bs := bytes_of_string s in utf8_decode (length bs) bs.
Arguments lit : simpl never.
Strategy 1000 [lit].

Definition in_range (lo hi c : N) : bool := ((lo <=? c) && (c <=? hi))%N.

(** [str.isspace] on one code point (CPython's whitespace table). *)
Definition py_isspace (c : N) : bool :=
  in_range 9 13 c || in_range 28 32 c || (c =? 133)%N || (c =? 160)%N
  || (c =? 5760)%N || in_range 8192 8202 c || (c =? 8232)%N || (c =? 8233)%N
  || (c =? 8239)%N || (c =? 8287)%N || (c =? 12288)%N.

Fixpoint lstrip (s : pystr) : pystr :=
  match s with
  | c :: s' => if py_isspace c then lstrip s' else s
  | [] => []
  end.

Definition rstrip (s : pystr) : pystr := rev (lstrip (rev s)).

(** [s.strip()] *)
Definition strip (s : pystr) : pystr := rstrip (lstrip s).

(** [sep.join(parts)] *)
Fixpoint py_join (sep : pystr) (parts : list pystr) : pystr :=
  match parts with
  | [] => []
  | [p] => p
  | p :: rest => p ++ sep ++ py_join sep rest
  end.

(** Decimal digits of a natural number, as [str(int)] prints them. *)
Fixpoint digits_pos (fuel : nat) (n : N) (acc : pystr) : pystr :=
  match fuel with
  | O => acc
  | S fuel' =>
    let acc' := (48 + n mod 10)%N :: acc in
    if (n <? 10)%N then acc' else digits_pos fuel' (n / 10)%N acc'
  end.

Definition str_N (n : N) : pystr := digits_pos (S (N.to_nat (N.log2 n))) n [].

Definition str_Z (z : Z) : pystr :=
  if z <? 0 then 45%N :: str_N (Z.to_N (- z)) else str_N (Z.to_N z).

(** [s.startswith(pre)] *)
Fixpoint starts_with (pre s : pystr) : bool :=
  match pre, s with
  | [], _ => true
  | c :: pre', d :: s' => (c =? d)%N && starts_with pre' s'
  | _ :: _, [] => false
  end.

(** [s.replace(old, new)] for a non-empty [old]. *)
Fixpoint py_replace (fuel : nat) (old new s : pystr) : pystr :=
  match fuel with
  | O => s
  | S fuel' =>
    match s with
    | [] => []
    | c :: s' =>
      if starts_with old s
      then new ++ py_replace fuel' old new (drop (length old) s)
      else c :: py_replace fuel' old new s'
    end
  end.

(** ** Paths ([posixpath]) *)

Definition slash : N := 47.

Definition ends_with_slash (p : pystr) : bool :=
  match rev p with
  | c :: _ => (c =? slash)%N
  | [] => false
  end.

(** [os.path.join(a, b)] *)
Definition os_path_join (a b : pystr) : pystr :=
  if starts_with [slash] b then b
  else if Nat.eqb (length a) 0 || ends_with_slash a then a ++ b
  else a ++ [slash] ++ b.

(** The part of [p] after its last slash, and the part up to and including it. *)
Fixpoint split_last_slash (p : pystr) : pystr * pystr :=
  match p with
  | [] => ([], [])
  | c :: p' =>
    let '(hd, tl) := split_last_slash p' in
    if existsb (N.eqb slash) p' then (c :: hd, tl)
    else if (c =? slash)%N then ([c], p')
    else ([], p)
  end.

(** [os.path.basename(p)] *)
Definition os_path_basename (p : pystr) : pystr := snd (split_last_slash p).

Fixpoint rstrip_slashes_rev (r : pystr) : pystr :=
  match r with
  | c :: r' => if (c =? slash)%N then rstrip_slashes_rev r' else r
  | [] => []
  end.

(** [os.path.dirname(p)] *)
Definition os_path_dirname (p : pystr) : pystr :=
  let hd := fst (split_last_slash p) in
  if forallb (N.eqb slash) hd then hd else rev (rstrip_slashes_rev (rev hd)).

Definition dot : N := 46.

Fixpoint lstrip_dots (s : pystr) : pystr :=
  match s with
  | c :: s' => if (c =? dot)%N then lstrip_dots s' else s
  | [] => []
  end.

(** [s.rstrip('.')] *)
Definition rstrip_dots (s : pystr) : pystr := rev (lstrip_dots (rev s)).

(** The part of [s] from its last dot on; empty when it has none. *)
Fixpoint from_last_dot (s : pystr) : pystr :=
  match s with
  | [] => []
  | c :: s' =>
    if existsb (N.eqb dot) s' then from_last_dot s'
    else if (c =? dot)%N then s
    else []
  end.

(** [os.path.splitext(p)[1]]: the extension starts at the last dot of the
    base name; the dots the base name begins with start no extension. *)
Definition splitext_ext (p : pystr) : pystr :=
  from_last_dot (lstrip_dots (os_path_basename p)).

(** [s.lower()] on ASCII letters. *)
Definition ascii_lower (s : pystr) : pystr :=
  map (fun c => if in_range 65 90 c then (c + 32)%N else c) s.

(** The ancestors [os.makedirs] creates on the way to [p]. *)
Fixpoint ancestors_from (seen rest : pystr) : list pystr :=
  match rest with
  | [] => []
  | c :: rest' =>
    if (c =? slash)%N && negb (Nat.eqb (length seen) 0)
    then rev seen :: ancestors_from (c :: seen) rest'
    else ancestors_from (c :: seen) rest'
  end.

Definition ancestors (p : pystr) : list pystr := ancestors_from [] p.

(** ** Values, exceptions and the runtime interface *)

(** Exceptions the modelled code can raise. *)
Inductive pyexc :=
| KeyError
| TypeError
| ValueError
| IndexError
| OSError
| OverflowError
| ZeroDivisionError
| LibraryError.

Inductive result (A : Type) :=
| Ok (a : A)
| Raise (e : pyexc).
Arguments Ok {A} a.
Arguments Raise {A} e.

#[global] Instance result_ret : MRet result := fun A a => Ok a.
#[global] Instance result_bind : MBind result := fun A B k r =>
  match r with
  | Ok a => k a
  | Raise e => Raise e
  end.

(** [d[k]] on a dict. *)
Definition subscript {V} (d : gmap string V) (k : string) : result V :=
  match d !! k with
  | Some v => Ok v
  | None => Raise KeyError
  end.

(** Python's numbers (int and float), as far as the program uses them.
    The binary operators can raise: an int operand beyond the float range
    meeting a float, or the quotient of two ints beyond it, is an
    [OverflowError]; a zero divisor is a [ZeroDivisionError]. *)
Class PyNum (num : Type) := {
  num_int : Z -> num;                 (* an int literal or a JSON int *)
  num_float : Q -> num;               (* a float literal, by its decimal value *)
  num_add : num -> num -> result num;
  num_sub : num -> num -> result num;
  num_mul : num -> num -> result num;
  num_div : num -> num -> result num; (* true division, [/] *)
  num_neg : num -> num;
  num_max : num -> num -> num;
  num_isfinite : num -> bool;         (* neither an infinity nor a NaN *)
  num_truthy : num -> bool;           (* [bool(x)]: false on zeros only *)
  num_str : num -> pystr;             (* [str(x)] *)
  num_zero_str : forall x, num_truthy x = false -> (length (strip (num_str x)) <= 10)%nat
}.

(** Library functions whose tables are not reproduced: [repr] of a [str]
    (quoting and escapes) and werkzeug's [secure_filename], whose result
    holds only ASCII letters, digits, [_], [.] and [-], hence no slash, and
    is stripped of dots and underscores at both ends, hence starts with
    no dot. *)
Class PyLib := {
  repr_str : pystr -> pystr;
  secure_filename : pystr -> pystr;
  secure_filename_flat : forall s, existsb (N.eqb slash) (secure_filename s) = false;
  secure_filename_stripped : forall s, starts_with [dot] (secure_filename s) = false
}.

Section Model.
Context {num : Type} `{PyNum num} `{PyLib}.

(** JSON values as [json.loads] returns them.  JSON objects occur as the
    components themselves, not nested inside a field. *)
#[warnings="-register-all"]
Inductive pyval :=
| PNone
| PBool (b : bool)
| PNum (x : num)
| PStr (s : pystr)
| PList (l : list pyval).

(** [repr(v)] *)
Fixpoint py_repr (v : pyval) : pystr :=
  match v with
  | PNone => lit "None"
  | PBool true => lit "True"
  | PBool false => lit "False"
  | PNum x => num_str x
  | PStr s => repr_str s
  | PList l => lit "[" ++ py_join (lit ", ") (map py_repr l) ++ lit "]"
  end.

(** [str(v)] *)
Definition py_str (v : pyval) : pystr :=
  match v with
  | PStr s => s
  | _ => py_repr v
  end.

(** [bool(v)] *)
Definition truthy (v : pyval) : bool :=
  match v with
  | PNone => false
  | PBool b => b
  | PNum x => num_truthy x
  | PStr s => negb (Nat.eqb (length s) 0)
  | PList l => negb (Nat.eqb (length l) 0)
  end.

(** The operand of an arithmetic operator: a number, or a bool read as 0 or 1. *)
Definition as_num (v : pyval) : result num :=
  match v with
  | PNum x => Ok x
  | PBool b => Ok (num_int (Z.b2z b))
  | _ => Raise TypeError
  end.

(** [x, y, z = v]: unpacking into exactly three targets. *)
Definition unpack3 (v : pyval) : result (pyval * pyval * pyval) :=
  match v with
  | PList [x; y; z] => Ok (x, y, z)
  | PList _ => Raise ValueError
  | PStr [x; y; z] => Ok (PStr [x], PStr [y], PStr [z])
  | PStr _ => Raise ValueError
  | _ => Raise TypeError
  end.

(** [v[i]] on a sequence. *)
Definition index (v : pyval) (i : nat) : result pyval :=
  match v with
  | PList l => match l !! i with Some x => Ok x | None => Raise IndexError end
  | PStr s => match s !! i with Some c => Ok (PStr [c]) | None => Raise IndexError end
  | _ => Raise TypeError
  end.

(** An f-string: literal text and formatted values, in order. *)
Inductive frag :=
| FLit (s : pystr)
| FVal (v : pyval).

(** *** Drawings ([drawsvg]) *)

Inductive svg_elem :=
| DwPath (d fill stroke : pystr) (stroke_width : Z) (transform : list frag)
| DwRectangle (x y : Z) (width height : num) (fill stroke : pystr) (stroke_width : Z)
| DwText (text : list frag) (font_size : Z) (x : Z) (y : num).

Record drawing := {
  dwg_width : num;
  dwg_height : num;
  dwg_elements : list svg_elem
}.

(** *** Figures ([matplotlib]) *)

Record mpl_rectangle := {
  rect_xy : Z * Z;
  rect_width : num;
  rect_height : num;
  rect_fill : bool;
  rect_edgecolor : pystr;
  rect_linewidth : Z;
  rect_linestyle : option pystr       (* [None]: the default, a solid line *)
}.

Record mpl_text := {
  text_x : num;
  text_y : num;
  text_s : pystr;
  text_ha : pystr;
  text_va : pystr;
  text_fontsize : Z;
  text_color : pystr
}.

Record figure := {
  fig_size : Z;
  fig_xlim : num * num;
  fig_ylim : num * num;
  fig_patches : list mpl_rectangle;
  fig_texts : list mpl_text
}.

(** *** The outline rule, in the words of the specification

    A descriptor is irregular when it is present (the key is there and its
    value is not null) and its trimmed text is longer than 10 characters.
    The source does not call this: it writes its own test, twice, in
    [guardar_path_como_png] and in [generar_planos_vectoriales_svg]. *)
Definition spec_irregular (descriptor : option pyval) : bool :=
  match descriptor with
  | None | Some PNone => false
  | Some v => (10 <? length (strip (py_str v)))%nat
  end.

(** [ax.set_xlim(lo, hi)]: matplotlib refuses a limit that is not finite. *)
Definition set_lim (lo hi : num) : result (num * num) :=
  if num_isfinite lo && num_isfinite hi then Ok (lo, hi) else Raise ValueError.

(** [guardar_path_como_png], up to [plt.savefig]: the figure that is saved.
    Both branches place their text at [(w_draw / 2, h_draw / 2)]. *)
Definition figura_png (path_data : pyval) (w_draw h_draw : num) : result figure :=
  margin ← num_mul (num_float (1 # 10)) (num_max w_draw h_draw);
  x_max ← num_add w_draw margin;
  xlim ← set_lim (num_neg margin) x_max;
  y_max ← num_add h_draw margin;
  ylim ← set_lim (num_neg margin) y_max;
  cx ← num_div w_draw (num_int 2);
  cy ← num_div h_draw (num_int 2);
  mret (if truthy path_data && (10 <? length (strip (py_str path_data)))%nat then
          {| fig_size := 4; fig_xlim := xlim; fig_ylim := ylim;
             fig_patches := [ {| rect_xy := (0, 0); rect_width := w_draw; rect_height := h_draw;
                                 rect_fill := false; rect_edgecolor := lit "red";
                                 rect_linewidth := 2; rect_linestyle := Some (lit "--") |} ];
             fig_texts := [ {| text_x := cx; text_y := cy;
                               text_s := lit "FORMA IRREGULAR (Ver SVG)";
                               text_ha := lit "center"; text_va := lit "center";
                               text_fontsize := 8; text_color := lit "red" |} ] |}
        else
          {| fig_size := 4; fig_xlim := xlim; fig_ylim := ylim;
             fig_patches := [ {| rect_xy := (0, 0); rect_width := w_draw; rect_height := h_draw;
                                 rect_fill := false; rect_edgecolor := lit "black";
                                 rect_linewidth := 2; rect_linestyle := None |} ];
             fig_texts := [ {| text_x := cx; text_y := cy;
                               text_s := lit "RECTANGULAR";
                               text_ha := lit "center"; text_va := lit "center";
                               text_fontsize := 10; text_color := lit "black" |} ] |}).

(** Part 2A of one turn of the loop of [generar_planos_vectoriales_svg]:
    what it has computed when it calls [dwg.save_svg]. *)
Record trazo := {
  trazo_svg_fname : pystr;
  trazo_dwg : drawing;
  trazo_w_draw : num;
  trazo_h_draw : num;
  trazo_path_data : pyval
}.

Definition trazar_svg (comp : gmap string pyval) : result trazo :=
  dims ← subscript comp "dimensiones_cm";
  '(l, a, _) ← unpack3 dims;
  l' ← as_num l;
  w_draw ← num_mul l' (num_int 10);            (* l * 10 *)
  a' ← as_num a;
  h_draw ← num_mul a' (num_int 10);            (* a * 10 *)
  let path_data := default PNone (comp !! "svg_path_d") in
  canvas_width ← num_add w_draw (num_int 100);
  canvas_height ← num_add h_draw (num_int 100);
  shape ←
    (if truthy path_data && (10 <? length (strip (py_str path_data)))%nat then
       scale_x ← num_div w_draw (num_int 100);
       scale_y ← num_div h_draw (num_int 100);
       nombre ← subscript comp "nombre";
       mret [ DwPath (py_str path_data) (lit "none") (lit "#E50000") 4
                [ FLit (lit "translate(50,50) scale("); FVal (PNum scale_x);
                  FLit (lit ", "); FVal (PNum scale_y); FLit (lit ")") ];
              DwText [ FVal nombre; FLit (lit " (IRREGULAR)") ] 16 50 (num_int 30) ]
     else
       nombre ← subscript comp "nombre";
       mret [ DwRectangle 50 50 w_draw h_draw (lit "none") (lit "black") 2;
              DwText [ FVal nombre; FLit (lit " (RECTANGULAR)") ] 16 50 (num_int 30) ]);
  material ← subscript comp "material";
  dims' ← subscript comp "dimensiones_cm";
  e ← index dims' 2;
  y_caption ← num_sub canvas_height (num_int 20);
  let caption :=
    DwText [ FLit (lit "Mat: "); FVal material; FLit (lit " | "); FVal l; FLit (lit "x");
             FVal a; FLit (lit "x"); FVal e; FLit (lit "cm") ]
           12 50 y_caption in
  nombre ← subscript comp "nombre";
  nombre ← (match nombre with PStr s => Ok s | _ => Raise TypeError end);
  mret {| trazo_svg_fname := secure_filename nombre ++ lit ".svg";
          trazo_dwg := {| dwg_width := canvas_width; dwg_height := canvas_height;
                          dwg_elements := shape ++ [caption] |};
          trazo_w_draw := w_draw;
          trazo_h_draw := h_draw;
          trazo_path_data := path_data |}.

(** [svg_fname.replace('.svg', '.png')] *)
Definition png_fname_of (svg_fname : pystr) : pystr :=
  py_replace (length svg_fname) (lit ".svg") (lit ".png") svg_fname.

(** What one turn of the loop draws when neither part raises: the drawing
    it saves as SVG and the figure it saves as PNG, with the two file names
    it computes. *)
Record plano := {
  plano_svg_fname : pystr;
  plano_dwg : drawing;
  plano_png_fname : pystr;
  plano_fig : figure
}.

Definition dibujar_componente (comp : gmap string pyval) : result plano :=
  t ← trazar_svg comp;
  fig ← figura_png (trazo_path_data t) (trazo_w_draw t) (trazo_h_draw t);
  mret {| plano_svg_fname := trazo_svg_fname t;
          plano_dwg := trazo_dwg t;
          plano_png_fname := png_fname_of (trazo_svg_fname t);
          plano_fig := fig |}.

(** *** The manual ([python-docx]) *)

Record seccion_pieza := {
  pieza_titulo : list frag;             (* "Pieza {i+1}: {nombre}" *)
  pieza_imagen : option pystr;          (* the embedded PNG, or the placeholder text *)
  pieza_material : pyval;
  pieza_medidas : list frag;            (* "{l} x {a} x {e}" *)
  pieza_cantidad : pystr;
  pieza_nota : option (list frag);      (* "Nota: {notas_fabricacion}" *)
  pieza_archivo : list frag             (* "Archivo SVG: {svg_fname}" *)
}.

Record document := {
  doc_proyecto : list frag;             (* "Proyecto: {prompt[:50]}..." *)
  doc_render : option pystr;            (* the render embedded in section 1 *)
  doc_frente : pyval;
  doc_fondo : pyval;
  doc_altura : pyval;
  doc_piezas : list seccion_pieza
}.

(** *** The world outside the process: the disk and the AI service *)

Inductive content :=
| CUpload (is_image : bool)             (* an uploaded file, a readable image or not *)
| CSvg (d : drawing)
| CPng (f : figure)
| CDocx (doc : document).

Inductive ai_call :=
| CallClient                            (* genai.Client(api_key=...) *)
| CallUpload (path : pystr)             (* client.files.upload *)
| CallGenerate (user_prompt : list frag)(* client.models.generate_content *)
| CallDelete.                           (* client.files.delete *)

Record world := {
  w_dirs : gset pystr;
  w_files : gmap pystr content;
  w_calls : list ai_call                (* calls made so far, oldest first *)
}.

(** A computation that reads and changes the world and may raise; what it
    did before raising stays done. *)
Definition io (A : Type) : Type := world -> result A * world.

Definition io_ret {A} (a : A) : io A := fun w => (Ok a, w).

Definition io_bind {A B} (m : io A) (k : A -> io B) : io B := fun w =>
  match m w with
  | (Ok a, w') => k a w'
  | (Raise e, w') => (Raise e, w')
  end.

Definition io_lift {A} (r : result A) : io A := fun w => (r, w).

(** [try: m  except Exception: handler] *)
Definition io_catch {A} (m : io A) (handler : pyexc -> io A) : io A := fun w =>
  match m w with
  | (Ok a, w') => (Ok a, w')
  | (Raise e, w') => handler e w'
  end.

(** [try: m  finally: cleanup]; an exception of [cleanup] replaces the outcome of [m]. *)
Definition io_finally {A} (m : io A) (cleanup : io unit) : io A := fun w =>
  let '(r, w') := m w in
  match cleanup w' with
  | (Ok _, w'') => (r, w'')
  | (Raise e, w'') => (Raise e, w'')
  end.

Fixpoint io_foreach {A} (f : A -> io unit) (l : list A) : io unit :=
  match l with
  | [] => io_ret tt
  | x :: l' => io_bind (f x) (fun _ => io_foreach f l')
  end.

Definition is_dir (p : pystr) (w : world) : bool := bool_decide (p ∈ w_dirs w).

Definition is_file (p : pystr) (w : world) : bool :=
  match w_files w !! p with Some _ => true | None => false end.

(** [os.path.exists(p)] *)
Definition os_path_exists (p : pystr) : io bool := fun w =>
  (Ok (is_file p w || is_dir p w), w).

(** [p] is [d] or lies below it. *)
Definition path_within (d p : pystr) : bool :=
  bool_decide (p = d) || starts_with (d ++ [slash]) p.

(** [shutil.rmtree(d)] *)
Definition shutil_rmtree (d : pystr) : io unit := fun w =>
  if is_dir d w then
    (Ok tt, {| w_dirs := filter (fun p => path_within d p = false) (w_dirs w);
               w_files := filter (fun kv => path_within d kv.1 = false) (w_files w);
               w_calls := w_calls w |})
  else (Raise OSError, w).

(** [os.makedirs(d, exist_ok=True)] *)
Definition os_makedirs (d : pystr) : io unit := fun w =>
  if existsb (fun p => is_file p w) (ancestors d ++ [d]) then (Raise OSError, w)
  else (Ok tt, {| w_dirs := list_to_set (ancestors d ++ [d]) ∪ w_dirs w;
                  w_files := w_files w; w_calls := w_calls w |}).

(** Opening [p] for writing and storing [c]: the directory must exist and
    [p] must name a file in it. *)
Definition write_file (p : pystr) (c : content) : io unit := fun w =>
  let parent := os_path_dirname p in
  if Nat.eqb (length (os_path_basename p)) 0 || is_dir p w then (Raise OSError, w)
  else if Nat.eqb (length parent) 0 || is_dir parent w then
    (Ok tt, {| w_dirs := w_dirs w; w_files := <[p := c]> (w_files w); w_calls := w_calls w |})
  else (Raise OSError, w).

(** [os.remove(p)] *)
Definition os_remove (p : pystr) : io unit := fun w =>
  if is_file p w then
    (Ok tt, {| w_dirs := w_dirs w; w_files := delete p (w_files w); w_calls := w_calls w |})
  else (Raise OSError, w).

Definition log_call (c : ai_call) : io unit := fun w =>
  (Ok tt, {| w_dirs := w_dirs w; w_files := w_files w; w_calls := w_calls w ++ [c] |}).

#[global] Instance io_mret : MRet io := @io_ret.
#[global] Instance io_mbind : MBind io := fun A B k m => io_bind m k.

Definition io_raise {A} (e : pyexc) : io A := io_lift (Raise e).

(** *** Configuration (module level of [app.py]) *)

Record app_config := {
  BASE_DIR : pystr;
  GEMINI_API_KEY : option pystr         (* [os.environ.get("GEMINI_API_KEY")] *)
}.

Definition UPLOAD_FOLDER (cfg : app_config) : pystr := os_path_join (BASE_DIR cfg) (lit "uploads").
Definition OUTPUT_FOLDER (cfg : app_config) : pystr := os_path_join (BASE_DIR cfg) (lit "outputs").
Definition TEMP_FOLDER (cfg : app_config) : pystr := os_path_join (OUTPUT_FOLDER cfg) (lit "temp_images").
Definition SVG_FOLDER (cfg : app_config) : pystr := os_path_join (OUTPUT_FOLDER cfg) (lit "planos_svg").

(** *** 1. [analizar_y_generar_desglose] *)

(** How the AI service answers during one request. *)
Record ai_service := {
  svc_client : bool;                    (* [genai.Client] returns, or raises *)
  svc_upload : option pystr;            (* name of the uploaded file; [None]: raises *)
  svc_generate : option (option (list (gmap string pyval)));
    (* [None]: [generate_content] raises; [Some None]: its text is not JSON;
       [Some (Some l)]: what [json.loads(response.text)] returns *)
  svc_delete : bool                     (* [files.delete] returns, or raises *)
}.

(** The record returned when no API key is configured (line 109). *)
Definition error_config : gmap string pyval :=
  list_to_map
    [ ("nombre", PStr (lit "Error Config"));
      ("material", PStr (lit "N/A"));
      ("dimensiones_cm", PList [PNum (num_int 10); PNum (num_int 10); PNum (num_int 10)]);
      ("cantidad_unidades", PNum (num_int 0));
      ("notas_fabricacion", PStr (lit "Configure la API KEY"));
      ("svg_path_d", PNone) ].

(** The record returned when the call to the service fails (line 142). *)
Definition muro_base_fallback : gmap string pyval :=
  list_to_map
    [ ("nombre", PStr (lit "Muro Base (Fallback)"));
      ("material", PStr (lit "MDF"));
      ("dimensiones_cm", PList [PNum (num_int 100); PNum (num_int 200); PNum (num_int 5)]);
      ("cantidad_unidades", PNum (num_int 1));
      ("notas_fabricacion", PStr (lit "Generado por error de conexión IA"));
      ("svg_path_d", PNone) ].

(** [not GEMINI_API_KEY] *)
Definition api_key_missing (key : option pystr) : bool :=
  match key with
  | None => true
  | Some k => Nat.eqb (length k) 0
  end.

Definition user_prompt (data : gmap string pyval) : result (list frag) :=
  frente ← subscript data "frente";
  fondo ← subscript data "fondo";
  altura ← subscript data "altura";
  prompt ← subscript data "prompt";
  mret [ FLit (lit "Analiza este render. Dimensiones totales: "); FVal frente; FLit (lit "x");
         FVal fondo; FLit (lit "x"); FVal altura; FLit (lit " cm. Contexto: "); FVal prompt;
         FLit (lit ". Genera el desglose y el código de trazado 'svg_path_d' si es necesario.") ].

(** The [try] block after the upload has returned [uploaded_file]. *)
Definition consultar_modelo (svc : ai_service) (data : gmap string pyval)
    : io (list (gmap string pyval)) :=
  prompt ← io_lift (user_prompt data);
  _ ← log_call (CallGenerate prompt);
  match svc_generate svc with
  | None => io_raise LibraryError
  | Some None => io_raise ValueError
  | Some (Some componentes) => mret componentes
  end.

(** The [finally] block, entered with [uploaded_file] set. *)
Definition borrar_remoto (svc : ai_service) : io unit :=
  io_catch
    (_ ← log_call CallClient;
     if svc_client svc then
       _ ← log_call CallDelete;
       if svc_delete svc then mret tt else io_raise LibraryError
     else io_raise LibraryError)
    (fun _ => mret tt).

Definition analizar_y_generar_desglose (cfg : app_config) (svc : ai_service)
    (data : gmap string pyval) (path_render : pystr) : io (list (gmap string pyval)) :=
  if api_key_missing (GEMINI_API_KEY cfg) then mret [error_config]
  else
    _ ← log_call CallClient;
    if svc_client svc then
      _ ← log_call (CallUpload path_render);
      match svc_upload svc with
      | Some uploaded_file =>
        io_finally
          (io_catch (consultar_modelo svc data) (fun _ => mret [muro_base_fallback]))
          (borrar_remoto svc)
      | None => mret [muro_base_fallback]         (* except; [uploaded_file] is None *)
      end
    else mret [muro_base_fallback].               (* except; [uploaded_file] is None *)

(** *** 2. [generar_planos_vectoriales_svg] *)

(** The file [plt.savefig(fname)] writes: matplotlib reads the format off
    the extension, and when there is none it appends [.png], its default,
    to the name stripped of trailing dots. *)
Definition savefig_path (fname : pystr) : result pystr :=
  let format := drop 1 (splitext_ext fname) in
  if Nat.eqb (length format) 0 then Ok (rstrip_dots fname ++ lit ".png")
  else if bool_decide (ascii_lower format = lit "png") then Ok fname
  else Raise LibraryError.     (* another writer, or a ValueError; see [savefig_path_png] *)

Definition savefig (fname : pystr) (fig : figure) : io unit :=
  target ← io_lift (savefig_path fname);
  write_file target (CPng fig).

Definition guardar_path_como_png (path_data : pyval) (w_draw h_draw : num)
    (output_path : pystr) : io pystr :=
  fig ← io_lift (figura_png path_data w_draw h_draw);
  _ ← savefig output_path fig;
  mret output_path.

Fixpoint planos_loop (svg_folder png_folder : pystr) (componentes : list (gmap string pyval))
    : io (list (gmap string pyval) * list pystr * list pystr) :=
  match componentes with
  | [] => mret ([], [], [])
  | comp :: rest =>
    t ← io_lift (trazar_svg comp);
    let svg_path := os_path_join svg_folder (trazo_svg_fname t) in
    _ ← write_file svg_path (CSvg (trazo_dwg t));                (* dwg.save_svg *)
    let png_path := os_path_join png_folder (png_fname_of (trazo_svg_fname t)) in
    _ ← guardar_path_como_png (trazo_path_data t) (trazo_w_draw t) (trazo_h_draw t) png_path;
    let comp' := <["png_path" := PStr png_path]> comp in
    '(rest', svg_files, temp_png_files) ← planos_loop svg_folder png_folder rest;
    mret (comp' :: rest', svg_path :: svg_files, png_path :: temp_png_files)
  end.

(** Returns the components as the loop leaves them (each with its
    ['png_path']) besides the three values the source returns. *)
Definition generar_planos_vectoriales_svg (cfg : app_config)
    (componentes : list (gmap string pyval))
    : io (list (gmap string pyval) * (pystr * list pystr * list pystr)) :=
  let svg_folder := SVG_FOLDER cfg in
  ex ← os_path_exists svg_folder;
  _ ← (if ex : bool then shutil_rmtree svg_folder else mret tt);
  _ ← os_makedirs svg_folder;
  '(componentes', svg_files, temp_png_files) ← planos_loop svg_folder (TEMP_FOLDER cfg) componentes;
  mret (componentes', (svg_folder, svg_files, temp_png_files)).

(** *** 3. [generar_manual_word] *)

(** [run.add_picture(path)]: python-docx reads the file and needs an image. *)
Definition add_picture (path : pystr) : io unit := fun w =>
  match w_files w !! path with
  | Some (CUpload true) | Some (CPng _) => (Ok tt, w)
  | Some _ => (Raise LibraryError, w)
  | None => (Raise OSError, w)
  end.

(** [v[:50]] *)
Definition slice50 (v : pyval) : result pyval :=
  match v with
  | PStr s => Ok (PStr (take 50 s))
  | PList l => Ok (PList (take 50 l))
  | _ => Raise TypeError
  end.

(** The picture cell of one piece: the path embedded, if any.  ['png_path']
    holds the [str] the emitter stored; another truthy value is not modelled. *)
Definition celda_imagen (comp : gmap string pyval) : io (option pystr) :=
  match default PNone (comp !! "png_path") with
  | PStr png_path =>
    if truthy (PStr png_path) then
      ex ← os_path_exists png_path;
      if ex : bool then _ ← add_picture png_path; mret (Some png_path)
      else mret None
    else mret None
  | v => if truthy v then io_raise TypeError else mret None
  end.

(** One turn of the loop over [enumerate(componentes)]. *)
Definition seccion_de (i : nat) (comp : gmap string pyval) : io seccion_pieza :=
  nombre ← io_lift (subscript comp "nombre");
  imagen ← celda_imagen comp;
  dims ← io_lift (subscript comp "dimensiones_cm");
  '(l, a, e) ← io_lift (unpack3 dims);
  material ← io_lift (subscript comp "material");
  cantidad ← io_lift (subscript comp "cantidad_unidades");
  let notas := default PNone (comp !! "notas_fabricacion") in
  nombre' ← io_lift (match nombre with PStr s => Ok s | _ => Raise TypeError end);
  let svg_fname := secure_filename nombre' ++ lit ".svg" in
  mret {| pieza_titulo := [ FLit (lit "Pieza "); FVal (PNum (num_int (Z.of_nat i + 1)));
                            FLit (lit ": "); FVal nombre ];
          pieza_imagen := imagen;
          pieza_material := material;
          pieza_medidas := [ FVal l; FLit (lit " x "); FVal a; FLit (lit " x "); FVal e ];
          pieza_cantidad := py_str cantidad;
          pieza_nota := if truthy notas then Some [ FLit (lit "Nota: "); FVal notas ] else None;
          pieza_archivo := [ FLit (lit "Archivo SVG: "); FVal (PStr svg_fname) ] |}.

Fixpoint secciones_loop (i : nat) (componentes : list (gmap string pyval))
    : io (list seccion_pieza) :=
  match componentes with
  | [] => mret []
  | comp :: rest =>
    s ← seccion_de i comp;
    ss ← secciones_loop (S i) rest;
    mret (s :: ss)
  end.

(** The paths appended to [temp_png_files]: the pictures embedded, in order. *)
Definition imagenes (piezas : list seccion_pieza) : list pystr :=
  omap pieza_imagen piezas.

Definition generar_manual_word (cfg : app_config) (componentes : list (gmap string pyval))
    (path_render : pystr) (data : gmap string pyval) : io (pystr * list pystr) :=
  let doc_path := os_path_join (OUTPUT_FOLDER cfg) (lit "Manual_Produccion.docx") in
  proyecto ← io_lift (slice50 (default (PStr (lit "Stand Custom")) (data !! "prompt")));
  ex ← os_path_exists path_render;
  render ← (if ex : bool then _ ← add_picture path_render; mret (Some path_render)
            else mret None);
  frente ← io_lift (subscript data "frente");
  fondo ← io_lift (subscript data "fondo");
  altura ← io_lift (subscript data "altura");
  piezas ← secciones_loop 0 componentes;
  _ ← write_file doc_path
        (CDocx {| doc_proyecto := [ FLit (lit "Proyecto: "); FVal proyecto; FLit (lit "...") ];
                  doc_render := render;
                  doc_frente := frente; doc_fondo := fondo; doc_altura := altura;
                  doc_piezas := piezas |});
  mret (doc_path, imagenes piezas).

(** *** 4. The endpoint [POST /generar] *)

Record upload := {
  up_filename : pystr;                  (* [file.filename] *)
  up_is_image : bool                    (* whether the bytes are a readable image *)
}.

Record request := {
  req_render : option upload;           (* [request.files['render']] *)
  req_data : option (option (gmap string pyval))
    (* [request.form['data']]: absent; not JSON; or the object [json.loads] returns *)
}.

Inductive zip_member :=
| ZFile (c : content)
| ZDir.

Inductive response :=
| SendFile (mimetype : pystr) (as_attachment : bool) (download_name : pystr)
           (zip : list (pystr * zip_member))
| JsonError (status : Z) (message : pyexc).    (* "Error interno: {e}" *)

(** [zf.write(path, arcname)] *)
Definition zf_write (path arcname : pystr) : io (pystr * zip_member) := fun w =>
  match w_files w !! path with
  | Some c => (Ok (arcname, ZFile c), w)
  | None =>
    if is_dir path w then (Ok (arcname ++ [slash], ZDir), w) else (Raise OSError, w)
  end.

Fixpoint zf_write_all (svg_files : list pystr) : io (list (pystr * zip_member)) :=
  match svg_files with
  | [] => mret []
  | svg :: rest =>
    m ← zf_write svg (lit "Planos_Corte/" ++ os_path_basename svg);
    ms ← zf_write_all rest;
    mret (m :: ms)
  end.

(** The [try] block; it yields the response and the value of [temp_files]. *)
Definition generar_manual_try (cfg : app_config) (svc : ai_service) (req : request)
    : io (response * list pystr) :=
  file ← io_lift (match req_render req with Some f => Ok f | None => Raise KeyError end);
  let filename := secure_filename (up_filename file) in
  let path_render := os_path_join (UPLOAD_FOLDER cfg) filename in
  _ ← write_file path_render (CUpload (up_is_image file));           (* file.save *)
  data ← io_lift (match req_data req with
                  | Some (Some d) => Ok d
                  | Some None => Raise ValueError
                  | None => Raise KeyError
                  end);
  componentes ← analizar_y_generar_desglose cfg svc data path_render;
  '(componentes, (svg_folder, svg_files, temp_png_files)) ←
      generar_planos_vectoriales_svg cfg componentes;
  '(doc_path, docx_png_files) ← generar_manual_word cfg componentes path_render data;
  m_doc ← zf_write doc_path (lit "Manual_Produccion.docx");
  m_render ← zf_write path_render (lit "Render_Original.jpg");
  m_svgs ← zf_write_all svg_files;
  let temp_files := [path_render; doc_path] ++ svg_files ++ temp_png_files ++ docx_png_files in
  mret (SendFile (lit "application/zip") true (lit "Proyecto_Produccion.zip")
                 (m_doc :: m_render :: m_svgs),
        temp_files).

(** [if os.path.exists(f): try: os.remove(f)  except: pass] *)
Definition borrar_temporal (f : pystr) : io unit :=
  ex ← os_path_exists f;
  if ex : bool then io_catch (os_remove f) (fun _ => mret tt) else mret tt.

Definition rmtree_si_existe (d : pystr) : io unit :=
  ex ← os_path_exists d;
  if ex : bool then shutil_rmtree d else mret tt.

(** The [finally] block. *)
Definition limpieza (cfg : app_config) (temp_files : list pystr) : io unit :=
  _ ← io_foreach borrar_temporal temp_files;
  _ ← rmtree_si_existe (SVG_FOLDER cfg);
  rmtree_si_existe (TEMP_FOLDER cfg).

(** The whole handler.  [temp_files] is the empty list unless the [try]
    block reached its assignment (line 346). *)
Definition generar_manual (cfg : app_config) (svc : ai_service) (req : request)
    : io response := fun w =>
  match generar_manual_try cfg svc req w with
  | (Ok (resp, temp_files), w') =>
    let '(r, w'') := limpieza cfg temp_files w' in
    (_ ← r; Ok resp, w'')
  | (Raise e, w') =>
    let '(r, w'') := limpieza cfg [] w' in
    (_ ← r; Ok (JsonError 500 e), w'')
  end.

(** The value of [temp_files] when the [finally] block runs. *)
Definition temp_files_al_final (cfg : app_config) (svc : ai_service) (req : request)
    (w : world) : list pystr :=
  match generar_manual_try cfg svc req w with
  | (Ok (_, temp_files), _) => temp_files
  | (Raise _, _) => []
  end.

(** *** [generador_blend.py]: the scene built by [generate_3d_model] *)

Record blender_object := {
  obj_name : pyval;
  obj_scale : num * num * num;
  obj_location : num * num * num;
  obj_material_name : list frag;        (* "Material_{material}" *)
  obj_diffuse_color : num * num * num * num
}.

(** One turn of the loop: the new cube (edge 1, at the origin of the cleared
    scene), scaled, lifted and named; and the next [z_offset].  The source
    writes [e / 100] three times; it is computed once here. *)
Definition cubo (i : nat) (z_offset : num) (comp : gmap string pyval)
    : result (blender_object * num) :=
  dims ← subscript comp "dimensiones_cm";
  '(l, a, e) ← unpack3 dims;
  l' ← as_num l;
  sx ← num_div l' (num_int 100);
  a' ← as_num a;
  sy ← num_div a' (num_int 100);
  e' ← as_num e;
  sz ← num_div e' (num_int 100);
  half ← num_div sz (num_int 2);
  z ← num_add z_offset half;
  z_offset' ← num_add z_offset sz;
  nombre ← subscript comp "nombre";
  material ← subscript comp "material";
  let k := num_int (Z.of_nat i) in
  red ← num_mul k (num_float (2 # 10));
  green ← num_sub (num_int 1) red;
  mret ({| obj_name := nombre;
           obj_scale := (sx, sy, sz);
           obj_location := (num_int 0, num_int 0, z);
           obj_material_name := [ FLit (lit "Material_"); FVal material ];
           obj_diffuse_color := (red, green, num_float (5 # 10), num_int 1) |},
        z_offset').

Fixpoint cubos (i : nat) (z_offset : num) (componentes : list (gmap string pyval))
    : result (list blender_object) :=
  match componentes with
  | [] => mret []
  | comp :: rest =>
    '(obj, z_offset') ← cubo i z_offset comp;
    objs ← cubos (S i) z_offset' rest;
    mret (obj :: objs)
  end.

(** The objects of the saved scene, in creation order, for the components
    read from the JSON file. *)
Definition generate_3d_model (componentes : list (gmap string pyval))
    : result (list blender_object) :=
  cubos 0 (num_int 0) componentes.

(** The three dimensions of a component in metres, as the loop computes
    them for [obj.scale]. *)
Definition escala_m (comp : gmap string pyval) : result (num * num * num) :=
  dims ← subscript comp "dimensiones_cm";
  '(l, a, e) ← unpack3 dims;
  l' ← as_num l;
  sx ← num_div l' (num_int 100);
  a' ← as_num a;
  sy ← num_div a' (num_int 100);
  e' ← as_num e;
  sz ← num_div e' (num_int 100);
  mret (sx, sy, sz).

(** Thickness of a component in metres, as the loop computes it. *)
Definition espesor_m (comp : gmap string pyval) : result num :=
  dims ← subscript comp "dimensiones_cm";
  '(_, _, e) ← unpack3 dims;
  e' ← as_num e;
  num_div e' (num_int 100).

(** The thicknesses of the given components added to [z_offset] one by
    one, left to right, as the loop accumulates them. *)
Fixpoint apilar (z_offset : num) (componentes : list (gmap string pyval)) : result num :=
  match componentes with
  | [] => mret z_offset
  | comp :: rest =>
    e ← espesor_m comp;
    z_offset' ← num_add z_offset e;
    apilar z_offset' rest
  end.

(** The sum of the thicknesses of the given components, starting from the
    int 0. *)
Definition suma_espesores (componentes : list (gmap string pyval)) : result num :=
  apilar (num_int 0) componentes.

(** A unit cube scaled by [s] along z and centred at height [z] has its
    lower face at [b] when [z] is [b] plus half of [s]. *)
Definition base_en (obj : blender_object) (b : num) : Prop :=
  exists half,
    num_div (obj_scale obj).2 (num_int 2) = Ok half /\
    num_add b half = Ok (obj_location obj).2.

(** *** What the emitted files show *)

Inductive outline :=
| Irregular
| Rectangular.

Definition outline_of (irregular : bool) : outline :=
  if irregular then Irregular else Rectangular.

(** The shapes of a drawing: a path is an irregular outline, a rectangle a
    rectangular one; text is no shape. *)
Definition svg_outlines (d : drawing) : list outline :=
  omap (fun e => match e with
                 | DwPath _ _ _ _ _ => Some Irregular
                 | DwRectangle _ _ _ _ _ _ _ => Some Rectangular
                 | DwText _ _ _ _ => None
                 end) (dwg_elements d).

(** The boxes of a preview: a dashed box stands for an irregular outline, a
    box drawn with the default solid line is the rectangle itself. *)
Definition png_outlines (f : figure) : list outline :=
  map (fun r => match rect_linestyle r with
                | Some _ => Irregular
                | None => Rectangular
                end) (fig_patches f).

(** The transform of the paths of a drawing. *)
Definition svg_transforms (d : drawing) : list (list frag) :=
  omap (fun e => match e with
                 | DwPath _ _ _ _ t => Some t
                 | _ => None
                 end) (dwg_elements d).

(** Position and size of the rectangles of a drawing. *)
Definition svg_rectangles (d : drawing) : list (Z * Z * num * num) :=
  omap (fun e => match e with
                 | DwRectangle x y w h _ _ _ => Some (x, y, w, h)
                 | _ => None
                 end) (dwg_elements d).

(** *** Invariants of the disk *)

(** No path is a file and a directory at once. *)
Definition world_wf (w : world) : Prop :=
  forall p, is_file p w = true -> is_dir p w = false.

(** Whatever [m] does and however it ends, the file [q] survives it. *)
Definition keeps {A} (q : pystr) (m : io A) : Prop :=
  forall w r w', m w = (r, w') -> is_file q w = true -> is_file q w' = true.

(** However [m] ends, it leaves a well-formed disk well-formed. *)
Definition keeps_wf {A} (m : io A) : Prop :=
  forall w r w', m w = (r, w') -> world_wf w -> world_wf w'.

(** [p] is neither a file nor a directory. *)
Definition absent (p : pystr) (w : world) : Prop :=
  is_file p w = false /\ is_dir p w = false.

(** A record lacks the fabrication-notes field. *)
Definition sin_notas (comp : gmap string pyval) : Prop :=
  comp !! "notas_fabricacion" = None.

(** Names of the members of the archive a response carries. *)
Definition zip_names (r : response) : list pystr :=
  match r with
  | SendFile _ _ _ zip => map fst zip
  | JsonError _ _ => []
  end.

(** *** Records the stages accept *)

(** What the emitter needs of a component: three dimensions of which the
    first two are numbers, a text name and a material. *)
Definition componente_dibujable (comp : gmap string pyval) : Prop :=
  exists dims vl va ve l a nombre material,
    comp !! "dimensiones_cm" = Some dims /\ unpack3 dims = Ok (vl, va, ve) /\
    as_num vl = Ok l /\ as_num va = Ok a /\
    comp !! "nombre" = Some (PStr nombre) /\
    comp !! "material" = Some material.

(** The calls a computation added to the log of the AI service. *)
Definition llamadas_nuevas (w w' : world) (nuevas : list ai_call) : Prop :=
  w_calls w' = w_calls w ++ nuevas.


(** Whether a run returned rather than raised. *)
Definition returned {A} (r : result A * world) : bool :=
  match r with
  | (Ok _, _) => true
  | (Raise _, _) => false
  end.

(** What section [i] (counted from 0) of the manual shows of a component:
    the title numbered from 1, the material, the three measures and the
    quantity. *)
Definition seccion_muestra (i : nat) (comp : gmap string pyval) (s : seccion_pieza) : Prop :=
  exists nombre material cantidad dims vl va ve,
    comp !! "nombre" = Some nombre /\ comp !! "material" = Some material /\
    comp !! "cantidad_unidades" = Some cantidad /\
    comp !! "dimensiones_cm" = Some dims /\ unpack3 dims = Ok (vl, va, ve) /\
    pieza_titulo s = [ FLit (lit "Pieza "); FVal (PNum (num_int (Z.of_nat i + 1)));
                       FLit (lit ": "); FVal nombre ] /\
    pieza_material s = material /\
    pieza_medidas s = [ FVal vl; FLit (lit " x "); FVal va; FLit (lit " x "); FVal ve ] /\
    pieza_cantidad s = py_str cantidad.


End Model.

Arguments pyval : clear implicits.
Arguments frag : clear implicits.
Arguments svg_elem : clear implicits.
Arguments drawing : clear implicits.
Arguments figure : clear implicits.
Arguments plano : clear implicits.
Arguments content : clear implicits.
Arguments world : clear implicits.
Arguments io : clear implicits.
Arguments response : clear implicits.
Arguments request : clear implicits.
Arguments ai_service : clear implicits.
Arguments blender_object : clear implicits.
Arguments seccion_pieza : clear implicits.
Arguments document : clear implicits.

(** ** A concrete runtime, to run the model on examples *)

(** Exact rational arithmetic with the range of a double: a rational in
    lowest terms stands for an int when its denominator is 1 and for a
    float otherwise, and is printed as [n] or [n/d].  Nothing is rounded;
    an operation that has to turn an int of magnitude [2^1024] or more
    into a float raises, as does a quotient of that magnitude. *)
Definition exact_str (q : Q) : pystr :=
  if Qnum q =? 0 then lit "0"
  else if (Qden q =? 1)%positive then str_Z (Qnum q)
  else str_Z (Qnum q) ++ lit "/" ++ str_N (Npos (Qden q)).

Definition exact_truthy (q : Q) : bool := negb (Qnum q =? 0).

Lemma exact_zero_str (q : Q) :
  exact_truthy q = false -> (length (strip (exact_str q)) <= 10)%nat.
Proof.
  unfold exact_truthy, exact_str. destruct (Qnum q =? 0); [|discriminate].
  intros _. vm_compute. lia.
Qed.

Definition is_int (q : Q) : bool := (Qden q =? 1)%positive.

(** [q] is beyond the largest double. *)
Definition too_large (q : Q) : bool :=
  Qle_bool (inject_Z (2 ^ 1024)) (Z.abs (Qnum q) # Qden q).

(** [+], [-] and [*]: exact on two ints; otherwise both operands become
    floats first. *)
Definition exact_op (op : Q -> Q -> Q) (x y : Q) : result Q :=
  if is_int x && is_int y then Ok (Qred (op x y))
  else if too_large x || too_large y then Raise OverflowError
  else Ok (Qred (op x y)).

Definition exact_div (x y : Q) : result Q :=
  if Qnum y =? 0 then Raise ZeroDivisionError
  else if too_large (Qdiv x y) then Raise OverflowError
  else Ok (Qred (Qdiv x y)).

#[global] Instance exact_num : PyNum Q := {|
  num_int := inject_Z;
  num_float := Qred;
  num_add := exact_op Qplus;
  num_sub := exact_op Qminus;
  num_mul := exact_op Qmult;
  num_div := exact_div;
  num_neg x := Qred (Qopp x);
  num_max x y := if Qle_bool y x then x else y;
  num_isfinite _ := true;
  num_truthy := exact_truthy;
  num_str := exact_str;
  num_zero_str := exact_zero_str
|}.

(** werkzeug's [secure_filename] on text that NFKD normalisation leaves
    unchanged: drop what is not ASCII, turn slashes into spaces, join the
    words with [_], keep [A-Za-z0-9_.-], strip dots and underscores at
    both ends. *)
Definition is_filename_char (c : N) : bool :=
  in_range 65 90 c || in_range 97 122 c || in_range 48 57 c
  || (c =? 95)%N || (c =? 46)%N || (c =? 45)%N.

Fixpoint py_split (word : pystr) (s : pystr) : list pystr :=
  match s with
  | [] => match word with [] => [] | _ => [rev word] end
  | c :: s' =>
    if py_isspace c then
      match word with [] => py_split [] s' | _ => rev word :: py_split [] s' end
    else py_split (c :: word) s'
  end.

Fixpoint lstrip_chars (drop : N -> bool) (s : pystr) : pystr :=
  match s with
  | c :: s' => if drop c then lstrip_chars drop s' else s
  | [] => []
  end.

Definition strip_chars (drop : N -> bool) (s : pystr) : pystr :=
  rev (lstrip_chars drop (rev (lstrip_chars drop s))).

Definition ascii_secure_filename (filename : pystr) : pystr :=
  let ascii_only := List.filter (fun c => (c <? 128)%N) filename in
  let spaced := map (fun c => if (c =? slash)%N then 32%N else c) ascii_only in
  let joined := py_join [95%N] (py_split [] spaced) in
  strip_chars (fun c => (c =? 46)%N || (c =? 95)%N) (List.filter is_filename_char joined).

Lemma lstrip_chars_Forall (P : N -> Prop) drop s :
  Forall P s -> Forall P (lstrip_chars drop s).
Proof.
  induction 1 as [|c s Hc Hs IH]; simpl; [constructor|].
  destruct (drop c); [exact IH | constructor; assumption].
Qed.

Lemma strip_chars_Forall (P : N -> Prop) drop s :
  Forall P s -> Forall P (strip_chars drop s).
Proof.
  intros Hs. unfold strip_chars.
  apply Forall_rev, lstrip_chars_Forall, Forall_rev, lstrip_chars_Forall, Hs.
Qed.

Lemma ascii_secure_filename_flat (s : pystr) :
  existsb (N.eqb slash) (ascii_secure_filename s) = false.
Proof.
  assert (Hall : Forall (fun c => is_filename_char c = true) (ascii_secure_filename s)).
  { unfold ascii_secure_filename. apply strip_chars_Forall.
    apply List.Forall_forall. intros c Hc. apply List.filter_In in Hc. tauto. }
  induction Hall as [|c l Hc _ IH]; [reflexivity|].
  cbn [existsb]. rewrite IH, orb_false_r.
  destruct (N.eqb_spec slash c) as [<-|]; [discriminate Hc | reflexivity].
Qed.

Lemma lstrip_chars_head (drop : N -> bool) (s : pystr) :
  match lstrip_chars drop s with
  | c :: _ => drop c = false
  | [] => True
  end.
Proof.
  induction s as [|d s IH]; [exact I|]. cbn [lstrip_chars].
  destruct (drop d) eqn:Hd; [exact IH | exact Hd].
Qed.

Lemma lstrip_chars_suffix (drop : N -> bool) (s : pystr) :
  exists pre, s = pre ++ lstrip_chars drop s.
Proof.
  induction s as [|d s [pre IH]]; [exists []; reflexivity|]. cbn [lstrip_chars].
  destruct (drop d); [|exists []; reflexivity].
  exists (d :: pre). cbn [app]. rewrite <- IH. reflexivity.
Qed.

Lemma strip_chars_head (drop : N -> bool) (s : pystr) (c : N) :
  drop c = true -> starts_with [c] (strip_chars drop s) = false.
Proof.
  intros Hc. unfold strip_chars.
  pose proof (lstrip_chars_head drop s) as Hhead.
  destruct (lstrip_chars_suffix drop (rev (lstrip_chars drop s))) as [pre Hpre].
  apply (f_equal (@rev N)) in Hpre. rewrite rev_involutive, rev_app_distr in Hpre.
  destruct (rev (lstrip_chars drop (rev (lstrip_chars drop s)))) as [|d t]; [reflexivity|].
  rewrite Hpre in Hhead. cbn [app] in Hhead. cbn [starts_with].
  destruct (N.eqb_spec c d) as [->|]; [congruence|reflexivity].
Qed.

Lemma ascii_secure_filename_stripped (s : pystr) :
  starts_with [dot] (ascii_secure_filename s) = false.
Proof. apply strip_chars_head. reflexivity. Qed.

(** [repr] of a [str] without quotes or backslashes in it. *)
Definition plain_repr (s : pystr) : pystr := [39%N] ++ s ++ [39%N].

#[global] Instance ascii_lib : PyLib := {|
  repr_str := plain_repr;
  secure_filename := ascii_secure_filename;
  secure_filename_flat := ascii_secure_filename_flat;
  secure_filename_stripped := ascii_secure_filename_stripped
|}.

(** ** Sample data: the two-panel job of the specification's round trip *)

Definition panel_a : gmap string (pyval Q) :=
  list_to_map
    [ ("nombre", PStr (lit "Panel A")); ("material", PStr (lit "MDF"));
      ("dimensiones_cm", PList [PNum (100 # 1); PNum (50 # 1); PNum (2 # 1)]);
      ("cantidad_unidades", PNum (1 # 1)); ("svg_path_d", PNone) ].

Definition panel_b : gmap string (pyval Q) :=
  list_to_map
    [ ("nombre", PStr (lit "Panel B")); ("material", PStr (lit "MDF"));
      ("dimensiones_cm", PList [PNum (60 # 1); PNum (40 # 1); PNum (2 # 1)]);
      ("cantidad_unidades", PNum (2 # 1));
      ("svg_path_d", PStr (lit "M 0 0 L 100 0 L 100 100 L 0 50 Z")) ].

Definition cfg_sin_clave : app_config :=
  {| BASE_DIR := lit "/app"; GEMINI_API_KEY := None |}.

Definition cfg_con_clave : app_config :=
  {| BASE_DIR := lit "/app"; GEMINI_API_KEY := Some (lit "clave") |}.

(** The disk as the module leaves it at import: the three folders, empty. *)
Definition disco_inicial : world Q :=
  {| w_dirs := list_to_set [ lit "/app"; lit "/app/uploads"; lit "/app/outputs";
                             lit "/app/outputs/temp_images" ];
     w_files := ∅;
     w_calls := [] |}.

Definition svc_ok : ai_service Q :=
  {| svc_client := true; svc_upload := Some (lit "files/abc");
     svc_generate := Some (Some [panel_a; panel_b]); svc_delete := true |}.

Definition svc_caido : ai_service Q :=
  {| svc_client := true; svc_upload := Some (lit "files/abc");
     svc_generate := None; svc_delete := true |}.

Definition datos : gmap string (pyval Q) :=
  list_to_map
    [ ("frente", PNum (300 # 1)); ("fondo", PNum (200 # 1)); ("altura", PNum (250 # 1));
      ("prompt", PStr (lit "Stand ferial")) ].

(** A PNG render, uploaded as [render.png]. *)
Definition req_png : request Q :=
  {| req_render := Some {| up_filename := lit "render.png"; up_is_image := true |};
     req_data := Some (Some datos) |}.

(** The same upload with bytes that are no image. *)
Definition req_corrupto : request Q :=
  {| req_render := Some {| up_filename := lit "render.png"; up_is_image := false |};
     req_data := Some (Some datos) |}.

(** A service whose model finds no component in the render. *)
Definition svc_vacio : ai_service Q :=
  {| svc_client := true; svc_upload := Some (lit "files/abc");
     svc_generate := Some (Some []); svc_delete := true |}.

(** A service on which deleting the uploaded file fails. *)
Definition svc_sin_borrado : ai_service Q :=
  {| svc_client := true; svc_upload := Some (lit "files/abc");
     svc_generate := Some (Some [panel_a; panel_b]); svc_delete := false |}.

(** The disk as a finished request leaves it: the previews folder is gone. *)
Definition disco_sin_previas : world Q :=
  {| w_dirs := list_to_set [ lit "/app"; lit "/app/uploads"; lit "/app/outputs" ];
     w_files := ∅;
     w_calls := [] |}.

(** Form data without the free-text description. *)
Definition datos_sin_prompt : gmap string (pyval Q) :=
  list_to_map
    [ ("frente", PNum (300 # 1)); ("fondo", PNum (200 # 1)); ("altura", PNum (250 # 1)) ].

(** A request that carries the form data but no render. *)
Definition req_sin_render : request Q :=
  {| req_render := None; req_data := Some (Some datos) |}.

(** Two pieces whose names differ but whose PNG names coincide:
    [replace('.svg', '.png')] also rewrites the [.svg] inside the first
    name.  The first is irregular, the second a rectangle. *)
Definition pieza_x_svg_y : gmap string (pyval Q) :=
  list_to_map
    [ ("nombre", PStr (lit "x.svg.y")); ("material", PStr (lit "MDF"));
      ("dimensiones_cm", PList [PNum (60 # 1); PNum (40 # 1); PNum (2 # 1)]);
      ("cantidad_unidades", PNum (1 # 1));
      ("svg_path_d", PStr (lit "M 0 0 L 100 0 L 100 100 L 0 50 Z")) ].

Definition pieza_x_png_y : gmap string (pyval Q) :=
  list_to_map
    [ ("nombre", PStr (lit "x.png.y")); ("material", PStr (lit "MDF"));
      ("dimensiones_cm", PList [PNum (100 # 1); PNum (50 # 1); PNum (2 # 1)]);
      ("cantidad_unidades", PNum (1 # 1)); ("svg_path_d", PNone) ].

(** ** Properties *)

Section Properties.
Context {num : Type} `{PyNum num} `{PyLib}.

Implicit Types (comp : gmap string (pyval num)) (v : pyval num) (w : world num).

(** *** Reasoning about [result] and [io] *)

Lemma bind_Ok {A B} (r : result A) (k : A -> result B) (b : B) :
  (r ≫= k) = Ok b -> exists a, r = Ok a /\ k a = Ok b.
Proof. destruct r as [a|e]; [eauto | discriminate]. Qed.

Lemma subscript_Ok {V} (d : gmap string V) k (x : V) :
  subscript d k = Ok x -> d !! k = Some x.
Proof. unfold subscript. destruct (d !! k); congruence. Qed.

Lemma io_bind_Ok {A B} (m : io num A) (k : A -> io num B) w b w' :
  (m ≫= k) w = (Ok b, w') -> exists a w1, m w = (Ok a, w1) /\ k a w1 = (Ok b, w').
Proof.
  unfold mbind, io_mbind, io_bind. destruct (m w) as [[a|e] w1]; [eauto | discriminate].
Qed.

Lemma io_lift_Ok {A} (r : result A) w a w' :
  io_lift r w = (Ok a, w') -> r = Ok a /\ w' = w.
Proof. unfold io_lift. intros [= -> ->]. auto. Qed.

Lemma io_bind_run {A B} (m : io num A) (k : A -> io num B) w :
  (m ≫= k) w = match m w with
               | (Ok a, w1) => k a w1
               | (Raise e, w1) => (Raise e, w1)
               end.
Proof. reflexivity. Qed.

(** *** The outline test of the source against the rule of the specification *)

Lemma test_irregular v :
  truthy v && (10 <? length (strip (py_str v)))%nat = spec_irregular (Some v).
Proof.
  destruct v as [|[|]|x|s|l]; simpl; try reflexivity.
  - destruct (num_truthy x) eqn:Hx; [reflexivity|].
    symmetry. apply Nat.ltb_ge. apply num_zero_str, Hx.
  - destruct s; reflexivity.
  - destruct l; reflexivity.
Qed.

Lemma test_irregular_get comp :
  let path_data := default PNone (comp !! "svg_path_d") in
  truthy path_data && (10 <? length (strip (py_str path_data)))%nat
  = spec_irregular (comp !! "svg_path_d").
Proof.
  simpl. rewrite test_irregular. destruct (comp !! "svg_path_d"); reflexivity.
Qed.

(** *** What one turn of the emitter loop returns *)

Lemma unpack3_index v x y z :
  unpack3 v = Ok (x, y, z) -> index v 2 = Ok z.
Proof.
  destruct v as [| | |s|l]; try discriminate.
  - destruct s as [|c1 [|c2 [|c3 [|]]]]; try discriminate. intros [= <- <- <-]. reflexivity.
  - destruct l as [|c1 [|c2 [|c3 [|]]]]; try discriminate. intros [= <- <- <-]. reflexivity.
Qed.

Lemma spec_irregular_get comp :
  spec_irregular (Some (default PNone (comp !! "svg_path_d")))
  = spec_irregular (comp !! "svg_path_d").
Proof. destruct (comp !! "svg_path_d"); reflexivity. Qed.

(** The rule, in full: present, and more than 10 characters once trimmed. *)
Lemma spec_irregular_true (d : option (pyval num)) :
  spec_irregular d = true <->
  exists v, d = Some v /\ v <> PNone /\ (10 < length (strip (py_str v)))%nat.
Proof.
  split.
  - destruct d as [v|]; [|discriminate]. intros Hd. exists v.
    split; [reflexivity|]. split; [intros ->; discriminate Hd|].
    apply Nat.ltb_lt. destruct v; (exact Hd || discriminate Hd).
  - intros (v & -> & Hv & Hlen). apply Nat.ltb_lt in Hlen.
    destruct v; [contradiction|exact Hlen..].
Qed.

(** Part 2A, when it reaches [dwg.save_svg]: it read a three-element
    dimension value with numeric length and height, a [str] name and a
    material, none of its operations overflowed, and it built the drawing
    from them as follows. *)
Lemma trazar_svg_inv comp t :
  trazar_svg comp = Ok t ->
  exists dims vl va ve l a nombre material caption w_draw h_draw y_caption,
    comp !! "dimensiones_cm" = Some dims /\ unpack3 dims = Ok (vl, va, ve) /\
    as_num vl = Ok l /\ as_num va = Ok a /\
    comp !! "nombre" = Some (PStr nombre) /\
    comp !! "material" = Some material /\
    num_mul l (num_int 10) = Ok w_draw /\ num_mul a (num_int 10) = Ok h_draw /\
    num_add w_draw (num_int 100) = Ok (dwg_width (trazo_dwg t)) /\
    num_add h_draw (num_int 100) = Ok (dwg_height (trazo_dwg t)) /\
    num_sub (dwg_height (trazo_dwg t)) (num_int 20) = Ok y_caption /\
    trazo_svg_fname t = secure_filename nombre ++ lit ".svg" /\
    trazo_w_draw t = w_draw /\ trazo_h_draw t = h_draw /\
    trazo_path_data t = default PNone (comp !! "svg_path_d") /\
    exists shape,
      dwg_elements (trazo_dwg t) = shape ++ [ DwText caption 12 50 y_caption ] /\
      if spec_irregular (comp !! "svg_path_d") then
        exists scale_x scale_y,
          num_div w_draw (num_int 100) = Ok scale_x /\
          num_div h_draw (num_int 100) = Ok scale_y /\
          shape =
            [ DwPath (py_str (default PNone (comp !! "svg_path_d")))
                (lit "none") (lit "#E50000") 4
                [ FLit (lit "translate(50,50) scale("); FVal (PNum scale_x);
                  FLit (lit ", "); FVal (PNum scale_y); FLit (lit ")") ];
              DwText [ FVal (PStr nombre); FLit (lit " (IRREGULAR)") ] 16 50 (num_int 30) ]
      else
        shape =
          [ DwRectangle 50 50 w_draw h_draw (lit "none") (lit "black") 2;
            DwText [ FVal (PStr nombre); FLit (lit " (RECTANGULAR)") ] 16 50 (num_int 30) ].
Proof.
  unfold trazar_svg. intros Ht.
  apply bind_Ok in Ht as (dims & Hdims & Ht). apply subscript_Ok in Hdims.
  apply bind_Ok in Ht as ([[vl va] ve] & Hun & Ht).
  apply bind_Ok in Ht as (l & Hl & Ht).
  apply bind_Ok in Ht as (w_draw & Hw & Ht).
  apply bind_Ok in Ht as (a & Ha & Ht).
  apply bind_Ok in Ht as (h_draw & Hh & Ht).
  apply bind_Ok in Ht as (canvas_width & Hcw & Ht).
  apply bind_Ok in Ht as (canvas_height & Hch & Ht).
  rewrite test_irregular_get in Ht.
  apply bind_Ok in Ht as (shape & Hshape & Ht).
  apply bind_Ok in Ht as (material & Hmat & Ht). apply subscript_Ok in Hmat.
  apply bind_Ok in Ht as (dims' & _ & Ht).
  apply bind_Ok in Ht as (e & _ & Ht).
  apply bind_Ok in Ht as (y_caption & Hy & Ht).
  apply bind_Ok in Ht as (nombre & Hnom & Ht). apply subscript_Ok in Hnom.
  apply bind_Ok in Ht as (s & Hs & Ht).
  destruct nombre as [| | |nombre|]; try discriminate Hs.
  injection Hs as <-. injection Ht as <-. cbn [trazo_dwg trazo_svg_fname trazo_w_draw
    trazo_h_draw trazo_path_data dwg_width dwg_height dwg_elements].
  eexists dims, vl, va, ve, l, a, nombre, material, _, w_draw, h_draw, y_caption.
  do 15 (split; [eassumption || reflexivity|]).
  exists shape. split; [reflexivity|].
  unfold subscript in Hshape. rewrite Hnom in Hshape.
  destruct (spec_irregular (comp !! "svg_path_d")).
  - apply bind_Ok in Hshape as (scale_x & Hsx & Hshape).
    apply bind_Ok in Hshape as (scale_y & Hsy & Hshape).
    injection Hshape as <-. eauto.
  - injection Hshape as <-. reflexivity.
Qed.

(** The figure [guardar_path_como_png] saves has one box, of the drawn
    size, dashed exactly when the source's test holds. *)
Lemma figura_png_inv v (w_draw h_draw : num) fig :
  figura_png v w_draw h_draw = Ok fig ->
  png_outlines fig = [outline_of (spec_irregular (Some v))] /\
  map (fun r => (rect_width r, rect_height r)) (fig_patches fig) = [ (w_draw, h_draw) ].
Proof.
  unfold figura_png. intros Hfig.
  apply bind_Ok in Hfig as (margin & _ & Hfig).
  apply bind_Ok in Hfig as (x_max & _ & Hfig).
  apply bind_Ok in Hfig as (xlim & _ & Hfig).
  apply bind_Ok in Hfig as (y_max & _ & Hfig).
  apply bind_Ok in Hfig as (ylim & _ & Hfig).
  apply bind_Ok in Hfig as (cx & _ & Hfig).
  apply bind_Ok in Hfig as (cy & _ & Hfig).
  rewrite test_irregular in Hfig.
  destruct (spec_irregular (Some v)); injection Hfig as <-; split; reflexivity.
Qed.

(** A turn that draws both files is part 2A followed by the figure. *)
Lemma dibujar_componente_inv comp p :
  dibujar_componente comp = Ok p ->
  exists t,
    trazar_svg comp = Ok t /\
    figura_png (trazo_path_data t) (trazo_w_draw t) (trazo_h_draw t) = Ok (plano_fig p) /\
    plano_svg_fname p = trazo_svg_fname t /\
    plano_dwg p = trazo_dwg t /\
    plano_png_fname p = png_fname_of (trazo_svg_fname t).
Proof.
  unfold dibujar_componente. intros Hp.
  apply bind_Ok in Hp as (t & Ht & Hp).
  apply bind_Ok in Hp as (fig & Hfig & Hp).
  injection Hp as <-. exists t. auto.
Qed.

Lemma dibujar_componente_nombre comp p :
  dibujar_componente comp = Ok p ->
  exists nombre,
    comp !! "nombre" = Some (PStr nombre) /\
    plano_svg_fname p = secure_filename nombre ++ lit ".svg" /\
    plano_png_fname p = png_fname_of (secure_filename nombre ++ lit ".svg").
Proof.
  intros Hp. apply dibujar_componente_inv in Hp as (t & Ht & _ & Hsvg & _ & Hpng).
  apply trazar_svg_inv in Ht
    as (dims & vl & va & ve & l & a & nombre & material & caption & w_draw & h_draw & y_caption
        & _ & _ & _ & _ & Hnom & _ & _ & _ & _ & _ & _ & Hfname & _).
  exists nombre. rewrite Hsvg, Hpng, Hfname. auto.
Qed.

(** What the two emitters draw in one turn, by the rule. *)
Lemma turno_outlines comp p :
  dibujar_componente comp = Ok p ->
  let irregular := spec_irregular (comp !! "svg_path_d") in
  svg_outlines (plano_dwg p) = [outline_of irregular] /\
  png_outlines (plano_fig p) = [outline_of irregular] /\
  length (svg_transforms (plano_dwg p)) = (if irregular then 1 else 0)%nat /\
  length (svg_rectangles (plano_dwg p)) = (if irregular then 0 else 1)%nat.
Proof.
  intros Hp. apply dibujar_componente_inv in Hp as (t & Ht & Hfig & _ & Hdwg & _).
  apply figura_png_inv in Hfig as [Hfig _].
  apply trazar_svg_inv in Ht
    as (dims & vl & va & ve & l & a & nombre & material & caption & w_draw & h_draw & y_caption
        & _ & _ & _ & _ & _ & _ & _ & _ & _ & _ & _ & _ & _ & _ & Hdata & shape & Hel & Hshape).
  cbv zeta. rewrite Hfig, Hdata, spec_irregular_get, Hdwg.
  unfold svg_outlines, svg_transforms, svg_rectangles. rewrite Hel.
  destruct (spec_irregular (comp !! "svg_path_d")).
  - destruct Hshape as (scale_x & scale_y & _ & _ & ->). repeat split; reflexivity.
  - rewrite Hshape. repeat split; reflexivity.
Qed.

(** *** Paths *)

Lemma split_last_slash_flat (b : pystr) :
  existsb (N.eqb slash) b = false -> split_last_slash b = ([], b).
Proof.
  destruct b as [|c b]; [reflexivity|]. cbn [existsb split_last_slash].
  intros Hb. apply orb_false_elim in Hb as [Hc Hb]. rewrite Hb.
  destruct (split_last_slash b). rewrite N.eqb_sym, Hc. reflexivity.
Qed.

Lemma split_last_slash_app (x b : pystr) :
  existsb (N.eqb slash) b = false ->
  split_last_slash (x ++ slash :: b) = (x ++ [slash], b).
Proof.
  intros Hb. induction x as [|c x IH].
  - cbn [app split_last_slash]. rewrite Hb. destruct (split_last_slash b). reflexivity.
  - cbn [app split_last_slash]. rewrite IH.
    rewrite existsb_app. cbn [existsb]. rewrite N.eqb_refl, orb_true_r. reflexivity.
Qed.

Lemma ends_with_slash_app (a : pystr) :
  ends_with_slash a = true -> exists x, a = x ++ [slash].
Proof.
  unfold ends_with_slash. destruct (rev a) as [|c r] eqn:Hr; [discriminate|].
  intros Hc. apply N.eqb_eq in Hc as ->. exists (rev r).
  rewrite <- (rev_involutive a), Hr. reflexivity.
Qed.

Lemma starts_with_slash_flat (b : pystr) :
  existsb (N.eqb slash) b = false -> starts_with [slash] b = false.
Proof.
  destruct b as [|c b]; [reflexivity|]. cbn [existsb starts_with].
  intros Hb. apply orb_false_elim in Hb as [-> _]. reflexivity.
Qed.

(** The file name given to [os.path.join] is what [os.path.basename] gives back. *)
Lemma basename_join (a b : pystr) :
  existsb (N.eqb slash) b = false -> os_path_basename (os_path_join a b) = b.
Proof.
  intros Hb. unfold os_path_basename, os_path_join.
  rewrite (starts_with_slash_flat _ Hb).
  destruct (Nat.eqb (length a) 0) eqn:Ha.
  - apply Nat.eqb_eq in Ha. destruct a; [|discriminate]. cbn [orb app].
    rewrite (split_last_slash_flat _ Hb). reflexivity.
  - cbn [orb]. destruct (ends_with_slash a) eqn:He.
    + apply ends_with_slash_app in He as [x ->]. rewrite <- app_assoc. cbn [app].
      rewrite (split_last_slash_app _ _ Hb). reflexivity.
    + cbn [app]. rewrite (split_last_slash_app _ _ Hb). reflexivity.
Qed.

Lemma svg_fname_flat (nombre : pystr) :
  existsb (N.eqb slash) (secure_filename nombre ++ lit ".svg") = false.
Proof. rewrite existsb_app, secure_filename_flat. reflexivity. Qed.

(** *** The upload lies outside the folder of the plans *)

Lemma os_path_join_split (a b : pystr) :
  starts_with [slash] b = false -> os_path_join a b = os_path_join a [] ++ b.
Proof.
  intros Hb. unfold os_path_join. rewrite Hb. cbn [starts_with].
  destruct (_ || _); rewrite ?app_nil_r, <- ?app_assoc; reflexivity.
Qed.

Lemma os_path_join_nil_snoc (x : pystr) (c : N) :
  (c =? slash)%N = false -> os_path_join (x ++ [c]) [] = x ++ [c] ++ [slash].
Proof.
  intros Hc. unfold os_path_join, ends_with_slash. cbn [starts_with].
  rewrite rev_unit, Hc, length_app. cbn [length].
  replace (length x + 1)%nat with (S (length x)) by lia.
  cbn [Nat.eqb orb]. rewrite <- !app_assoc. reflexivity.
Qed.

Lemma starts_with_app_same (pre x y : pystr) :
  starts_with (pre ++ x) (pre ++ y) = starts_with x y.
Proof.
  induction pre as [|c pre IH]; [reflexivity|].
  cbn [app starts_with]. rewrite N.eqb_refl. exact IH.
Qed.

Lemma upload_outside_outputs cfg (name filename : pystr) :
  starts_with [slash] name = false ->
  existsb (N.eqb slash) filename = false ->
  path_within (os_path_join (OUTPUT_FOLDER cfg) name)
              (os_path_join (UPLOAD_FOLDER cfg) filename) = false.
Proof.
  intros Hname Hflat. unfold OUTPUT_FOLDER, UPLOAD_FOLDER.
  set (pre := os_path_join (BASE_DIR cfg) []).
  rewrite (os_path_join_split (BASE_DIR cfg) (lit "uploads")) by reflexivity.
  rewrite (os_path_join_split (BASE_DIR cfg) (lit "outputs")) by reflexivity.
  fold pre.
  rewrite (os_path_join_split _ name) by exact Hname.
  rewrite (os_path_join_split _ filename) by (apply starts_with_slash_flat, Hflat).
  change (lit "uploads") with (lit "upload" ++ [115%N]).
  change (lit "outputs") with (lit "output" ++ [115%N]).
  rewrite !app_assoc, !os_path_join_nil_snoc by reflexivity.
  rewrite <- !app_assoc. unfold path_within. apply orb_false_intro.
  - apply bool_decide_eq_false_2. intros Heq. apply app_inv_head in Heq. discriminate Heq.
  - rewrite <- app_assoc, starts_with_app_same. reflexivity.
Qed.

Lemma render_fuera_de_planos cfg (filename : pystr) :
  existsb (N.eqb slash) filename = false ->
  path_within (SVG_FOLDER cfg) (os_path_join (UPLOAD_FOLDER cfg) filename) = false.
Proof. apply upload_outside_outputs. reflexivity. Qed.

Lemma render_fuera_de_temp cfg (filename : pystr) :
  existsb (N.eqb slash) filename = false ->
  path_within (TEMP_FOLDER cfg) (os_path_join (UPLOAD_FOLDER cfg) filename) = false.
Proof. apply upload_outside_outputs. reflexivity. Qed.

(** *** The shape of the configured folders *)

(** All four folders hang off one prefix: [BASE_DIR], with a slash if it
    needs one. *)
Lemma folders_shape cfg :
  exists pre,
    UPLOAD_FOLDER cfg = pre ++ lit "uploads" /\
    OUTPUT_FOLDER cfg = pre ++ lit "outputs" /\
    TEMP_FOLDER cfg = pre ++ lit "outputs/temp_images" /\
    SVG_FOLDER cfg = pre ++ lit "outputs/planos_svg".
Proof.
  exists (os_path_join (BASE_DIR cfg) []).
  unfold TEMP_FOLDER, SVG_FOLDER, OUTPUT_FOLDER, UPLOAD_FOLDER.
  rewrite (os_path_join_split (BASE_DIR cfg) (lit "uploads")) by reflexivity.
  rewrite (os_path_join_split (BASE_DIR cfg) (lit "outputs")) by reflexivity.
  rewrite (os_path_join_split _ (lit "temp_images")) by reflexivity.
  rewrite (os_path_join_split _ (lit "planos_svg")) by reflexivity.
  change (lit "outputs") with (lit "output" ++ [115%N]).
  rewrite !app_assoc, !os_path_join_nil_snoc by reflexivity.
  rewrite <- !app_assoc. auto.
Qed.

Lemma os_path_join_snoc (x : pystr) (c : N) (b : pystr) :
  (c =? slash)%N = false -> existsb (N.eqb slash) b = false ->
  os_path_join (x ++ [c]) b = x ++ [c] ++ [slash] ++ b.
Proof.
  intros Hc Hb. rewrite os_path_join_split by (apply starts_with_slash_flat, Hb).
  rewrite os_path_join_nil_snoc by exact Hc. rewrite <- !app_assoc. reflexivity.
Qed.

(** [os.path.dirname] gives back the folder a flat file name was joined to. *)
Lemma dirname_join_snoc (x : pystr) (c : N) (b : pystr) :
  (c =? slash)%N = false -> existsb (N.eqb slash) b = false ->
  os_path_dirname (os_path_join (x ++ [c]) b) = x ++ [c].
Proof.
  intros Hc Hb. rewrite (os_path_join_snoc _ _ _ Hc Hb). unfold os_path_dirname.
  replace (x ++ [c] ++ [slash] ++ b) with ((x ++ [c]) ++ slash :: b)
    by (rewrite <- !app_assoc; reflexivity).
  rewrite (split_last_slash_app _ _ Hb). cbn [fst].
  assert (Hnot : forallb (N.eqb slash) ((x ++ [c]) ++ [slash]) = false).
  { rewrite !forallb_app. cbn [forallb]. rewrite N.eqb_sym, Hc.
    rewrite andb_false_r. reflexivity. }
  rewrite Hnot, !rev_unit. cbn [rstrip_slashes_rev].
  rewrite N.eqb_refl, Hc, <- (rev_unit x c), rev_involutive. reflexivity.
Qed.

Lemma ancestors_from_prefix (seen rest a : pystr) :
  In a (ancestors_from seen rest) -> exists r1 r2, rest = r1 ++ r2 /\ a = rev seen ++ r1.
Proof.
  revert seen. induction rest as [|c rest IH]; intros seen; cbn [ancestors_from]; [intros []|].
  assert (Hrec : In a (ancestors_from (c :: seen) rest) ->
                 exists r1 r2, c :: rest = r1 ++ r2 /\ a = rev seen ++ r1).
  { intros Hin. apply IH in Hin as (r1 & r2 & -> & ->). exists (c :: r1), r2.
    cbn [rev app]. rewrite <- app_assoc. auto. }
  destruct (_ && _); [|exact Hrec].
  intros [<-|Hin]; [|exact (Hrec Hin)].
  exists [], (c :: rest). rewrite app_nil_r. auto.
Qed.

Lemma starts_with_app (a r : pystr) : starts_with a (a ++ r) = true.
Proof. induction a as [|c a IH]; [reflexivity|]. cbn. rewrite N.eqb_refl. exact IH. Qed.

(** What [os.makedirs(d)] creates is [d] and beginnings of [d]. *)
Lemma makedirs_created_prefix (d a : pystr) :
  In a (ancestors d ++ [d]) -> starts_with a d = true.
Proof.
  intros Hin. apply in_app_or in Hin as [Hin|[<-|[]]].
  - apply ancestors_from_prefix in Hin as (r1 & r2 & -> & ->). apply starts_with_app.
  - rewrite <- (app_nil_r d) at 2. apply starts_with_app.
Qed.

Lemma py_replace_flat fuel (old new s : pystr) :
  existsb (N.eqb slash) new = false -> existsb (N.eqb slash) s = false ->
  existsb (N.eqb slash) (py_replace fuel old new s) = false.
Proof.
  intros Hnew. revert s. induction fuel as [|fuel IH]; intros s Hs; [exact Hs|].
  cbn [py_replace]. destruct s as [|c s]; [reflexivity|].
  assert (Hdrop : forall n (t : pystr), existsb (N.eqb slash) t = false ->
                    existsb (N.eqb slash) (drop n t) = false).
  { intros n. induction n as [|n IHn]; intros [|d t] Ht; try exact Ht; try reflexivity.
    cbn [drop]. apply IHn. cbn [existsb] in Ht. apply orb_false_elim in Ht as [_ Ht]. exact Ht. }
  destruct (starts_with old (c :: s)).
  - rewrite existsb_app, Hnew. cbn [orb]. apply IH, Hdrop, Hs.
  - cbn [existsb] in *. apply orb_false_elim in Hs as [Hc Hs]. rewrite Hc. cbn [orb].
    apply IH, Hs.
Qed.


Lemma temp_folder_snoc cfg :
  exists x, TEMP_FOLDER cfg = x ++ [115%N].
Proof.
  destruct (folders_shape cfg) as (pre & _ & _ & -> & _).
  exists (pre ++ lit "outputs/temp_image"). rewrite <- app_assoc. reflexivity.
Qed.

Lemma svg_folder_snoc cfg :
  exists x, SVG_FOLDER cfg = x ++ [103%N].
Proof.
  destruct (folders_shape cfg) as (pre & _ & _ & _ & ->).
  exists (pre ++ lit "outputs/planos_sv"). rewrite <- app_assoc. reflexivity.
Qed.

(** *** File names of the previews *)

Lemma from_last_dot_app (x y : pystr) :
  existsb (N.eqb dot) y = false -> from_last_dot (x ++ dot :: y) = dot :: y.
Proof.
  intros Hy. induction x as [|c x IH].
  - cbn [app from_last_dot]. rewrite Hy. reflexivity.
  - cbn [app from_last_dot]. rewrite existsb_app. cbn [existsb].
    rewrite N.eqb_refl, orb_true_r. exact IH.
Qed.

Lemma from_last_dot_none (y : pystr) :
  existsb (N.eqb dot) y = false -> from_last_dot y = [].
Proof.
  induction y as [|c y IH]; [reflexivity|]. cbn [existsb from_last_dot].
  intros Hy. apply orb_false_elim in Hy as [Hc Hy]. rewrite Hy, N.eqb_sym, Hc. reflexivity.
Qed.

Lemma rstrip_dots_snoc (x : pystr) (c : N) :
  (c =? dot)%N = false -> rstrip_dots (x ++ [c]) = x ++ [c].
Proof.
  intros Hc. unfold rstrip_dots. rewrite rev_unit. cbn [lstrip_dots]. rewrite Hc.
  rewrite <- (rev_unit x c), rev_involutive. reflexivity.
Qed.

Lemma os_path_join_app (a b c : pystr) :
  existsb (N.eqb slash) b = false -> b <> [] ->
  os_path_join a (b ++ c) = os_path_join a b ++ c.
Proof.
  intros Hb Hne. destruct b as [|d b]; [contradiction|].
  cbn [existsb] in Hb. apply orb_false_elim in Hb as [Hd _].
  unfold os_path_join. cbn [app starts_with]. rewrite N.eqb_sym in Hd. rewrite N.eqb_sym, Hd.
  cbn [andb]. destruct (_ || _); rewrite <- ?app_assoc; reflexivity.
Qed.

Lemma os_path_join_inj (a b b' : pystr) :
  existsb (N.eqb slash) b = false -> existsb (N.eqb slash) b' = false ->
  os_path_join a b = os_path_join a b' -> b = b'.
Proof.
  intros Hb Hb'.
  rewrite (os_path_join_split a b), (os_path_join_split a b')
    by (apply starts_with_slash_flat; assumption).
  apply app_inv_head.
Qed.

(** [x.replace('.svg', '.png')] on a name that ends in [.svg]: the result
    ends in [.png], is as long, and keeps a first character that is no dot. *)
Lemma py_replace_svg_png (fuel : nat) (x : pystr) :
  (length x + 4 <= fuel)%nat ->
  exists x',
    py_replace fuel (lit ".svg") (lit ".png") (x ++ lit ".svg") = x' ++ lit ".png" /\
    length x' = length x /\
    forall c r, x = c :: r -> (c =? dot)%N = false -> exists r', x' = c :: r'.
Proof.
  change (lit ".svg") with [46; 115; 118; 103]%N.
  change (lit ".png") with [46; 112; 110; 103]%N.
  revert x. induction fuel as [|fuel IH]; intros x Hlen; [lia|].
  destruct x as [|a [|b [|c [|d x]]]].
  - exists []. cbn [app py_replace starts_with]. rewrite !N.eqb_refl. cbn [andb length drop].
    destruct fuel; repeat split; (reflexivity || discriminate).
  - destruct (IH [] ltac:(cbn [length] in *; lia)) as (x' & Hx' & Hl & _).
    destruct x' as [|? ?]; [|discriminate Hl].
    exists [a]. cbn [app py_replace starts_with].
    change (115 =? 46)%N with false. rewrite andb_false_r, andb_false_l || rewrite ?andb_false_r.
    cbn [app] in Hx'. rewrite Hx'. repeat split. intros c r [= <- <-] _. eauto.
  - destruct (IH [b] ltac:(cbn [length] in *; lia)) as (x' & Hx' & Hl & Hhd).
    exists (a :: x'). cbn [app py_replace starts_with].
    change (118 =? 46)%N with false. rewrite ?andb_false_r.
    cbn [app] in Hx'. rewrite Hx'. cbn [length]. rewrite Hl. repeat split.
    intros c r [= <- <-] _. eauto.
  - destruct (IH [b; c] ltac:(cbn [length] in *; lia)) as (x' & Hx' & Hl & Hhd).
    exists (a :: x'). cbn [app py_replace starts_with].
    change (103 =? 46)%N with false. rewrite ?andb_false_r.
    cbn [app] in Hx'. rewrite Hx'. cbn [length]. rewrite Hl. repeat split.
    intros c' r [= <- <-] _. eauto.
  - cbn [app py_replace].
    destruct (starts_with [46; 115; 118; 103]%N (a :: b :: c :: d :: x ++ [46; 115; 118; 103]%N))
      eqn:Hstart.
    + cbn [length drop]. rewrite drop_0.
      destruct (IH x ltac:(cbn [length] in *; lia)) as (x' & Hx' & Hl & _).
      rewrite Hx'. exists ([46; 112; 110; 103]%N ++ x'). cbn [app length]. rewrite Hl.
      repeat split. intros c' r [= <- <-] Hdot.
      unfold dot in Hdot. cbn [starts_with] in Hstart.
      rewrite N.eqb_sym, Hdot in Hstart. discriminate Hstart.
    + destruct (IH (b :: c :: d :: x) ltac:(cbn [length] in *; lia)) as (x' & Hx' & Hl & _).
      cbn [app] in Hx'. rewrite Hx'. exists (a :: x'). cbn [length]. rewrite Hl.
      repeat split. intros c' r [= <- <-] _. eauto.
Qed.

(** The PNG name of a turn is [x ++ ".png"] for an [x] without slash that
    starts with no dot, and is empty exactly when [secure_filename] gave
    the empty name. *)
Lemma png_fname_shape (nombre : pystr) :
  exists x,
    png_fname_of (secure_filename nombre ++ lit ".svg") = x ++ lit ".png" /\
    existsb (N.eqb slash) x = false /\
    starts_with [dot] x = false /\
    length x = length (secure_filename nombre).
Proof.
  unfold png_fname_of.
  destruct (py_replace_svg_png (length (secure_filename nombre ++ lit ".svg"))
              (secure_filename nombre)) as (x & Hx & Hlen & Hhd).
  { rewrite length_app. reflexivity. }
  exists x. split; [exact Hx|]. split; [|split; [|exact Hlen]].
  - pose proof (py_replace_flat (length (secure_filename nombre ++ lit ".svg"))
                  (lit ".svg") (lit ".png") _ eq_refl (svg_fname_flat nombre)) as Hflat.
    rewrite Hx, existsb_app in Hflat. apply orb_false_elim in Hflat as [Hflat _]. exact Hflat.
  - pose proof (secure_filename_stripped nombre) as Hs.
    destruct (secure_filename nombre) as [|c r] eqn:Hname.
    + destruct x; [reflexivity|discriminate Hlen].
    + cbn [starts_with] in Hs. rewrite andb_true_r in Hs.
      destruct (Hhd c r eq_refl) as [r' ->]; [rewrite N.eqb_sym; exact Hs|].
      cbn [starts_with]. rewrite Hs. reflexivity.
Qed.

(** Where [plt.savefig] writes such a name: at the path itself, unless the
    name is the bare [.png], which matplotlib takes to have no extension. *)
Lemma savefig_path_png (folder x : pystr) :
  existsb (N.eqb slash) x = false -> starts_with [dot] x = false ->
  savefig_path (os_path_join folder (x ++ lit ".png"))
  = Ok (os_path_join folder ((if Nat.eqb (length x) 0 then lit ".png" else x) ++ lit ".png")).
Proof.
  intros Hflat Hdot. unfold savefig_path, splitext_ext.
  assert (Hflat' : existsb (N.eqb slash) (x ++ lit ".png") = false).
  { rewrite existsb_app, Hflat. reflexivity. }
  rewrite (basename_join _ _ Hflat').
  destruct x as [|c x].
  - cbn [app length Nat.eqb].
    change (drop 1 (from_last_dot (lstrip_dots (lit ".png")))) with (@nil N).
    cbn [length Nat.eqb].
    rewrite (os_path_join_app folder (lit ".png") (lit ".png")) by (reflexivity || discriminate).
    f_equal. f_equal.
    rewrite (os_path_join_split folder (lit ".png")) by reflexivity.
    change (lit ".png") with ([46; 112; 110]%N ++ [103%N]).
    rewrite app_assoc. apply rstrip_dots_snoc. reflexivity.
  - cbn [starts_with] in Hdot. rewrite andb_true_r, N.eqb_sym in Hdot.
    cbn [app lstrip_dots length Nat.eqb]. rewrite Hdot.
    change (lit ".png") with (dot :: [112; 110; 103]%N).
    pose proof (from_last_dot_app (c :: x) [112; 110; 103]%N eq_refl) as Hext.
    cbn [app] in Hext. rewrite Hext. reflexivity.
Qed.

Lemma plano_svg_fname_flat comp p :
  dibujar_componente comp = Ok p -> existsb (N.eqb slash) (plano_svg_fname p) = false.
Proof.
  intros Hp. apply dibujar_componente_nombre in Hp as (nombre & _ & -> & _).
  apply svg_fname_flat.
Qed.

Lemma plano_png_fname_flat comp p :
  dibujar_componente comp = Ok p -> existsb (N.eqb slash) (plano_png_fname p) = false.
Proof.
  intros Hp. apply dibujar_componente_nombre in Hp as (nombre & _ & _ & ->).
  apply py_replace_flat; [reflexivity|apply svg_fname_flat].
Qed.

(** The file [savefig] writes in a turn lies in the previews folder, under
    a name without slash: the PNG name of the turn, or [.png.png] when
    [secure_filename] gave the empty name. *)
Lemma savefig_path_plano (folder : pystr) comp p :
  dibujar_componente comp = Ok p ->
  exists nombre name,
    comp !! "nombre" = Some (PStr nombre) /\
    savefig_path (os_path_join folder (plano_png_fname p)) = Ok (os_path_join folder name) /\
    existsb (N.eqb slash) name = false /\
    name = (if Nat.eqb (length (secure_filename nombre)) 0 then lit ".png.png"
            else plano_png_fname p).
Proof.
  intros Hp. apply dibujar_componente_nombre in Hp as (nombre & Hnom & _ & Hpng).
  destruct (png_fname_shape nombre) as (x & Hx & Hflat & Hdot & Hlen).
  rewrite Hpng, Hx. exists nombre. eexists. split; [exact Hnom|].
  split; [apply savefig_path_png; assumption|]. rewrite <- Hlen.
  destruct x as [|c x]; cbn [length Nat.eqb].
  - split; reflexivity.
  - split; [|reflexivity]. rewrite existsb_app, Hflat. reflexivity.
Qed.

(** Two turns whose previews [savefig] writes to the same file computed
    the same PNG name. *)
Lemma savefig_path_plano_inj (folder : pystr) comp1 p1 comp2 p2 target :
  dibujar_componente comp1 = Ok p1 -> dibujar_componente comp2 = Ok p2 ->
  savefig_path (os_path_join folder (plano_png_fname p1)) = Ok target ->
  savefig_path (os_path_join folder (plano_png_fname p2)) = Ok target ->
  plano_png_fname p1 = plano_png_fname p2.
Proof.
  intros Hp1 Hp2.
  apply dibujar_componente_nombre in Hp1 as (nombre1 & _ & _ & ->).
  apply dibujar_componente_nombre in Hp2 as (nombre2 & _ & _ & ->).
  destruct (png_fname_shape nombre1) as (x1 & -> & Hflat1 & Hdot1 & _).
  destruct (png_fname_shape nombre2) as (x2 & -> & Hflat2 & Hdot2 & _).
  rewrite !savefig_path_png by assumption. intros [= <-] [= Heq].
  apply os_path_join_inj in Heq.
  - destruct x1 as [|c1 x1], x2 as [|c2 x2]; cbn [length Nat.eqb] in Heq;
      try reflexivity; try exact (eq_sym Heq).
    + apply app_inv_tail in Heq. rewrite Heq in Hdot2. discriminate Hdot2.
    + apply app_inv_tail in Heq. rewrite <- Heq in Hdot1. discriminate Hdot1.
  - destruct x2; cbn [length Nat.eqb]; [reflexivity|]. rewrite existsb_app, Hflat2. reflexivity.
  - destruct x1; cbn [length Nat.eqb]; [reflexivity|]. rewrite existsb_app, Hflat1. reflexivity.
Qed.


(** *** Files on disk across the stages *)

Lemma write_file_Ok path c w u w' :
  write_file path c w = (Ok u, w') ->
  w_files w' = <[path := c]> (w_files w) /\ w_dirs w' = w_dirs w /\ w_calls w' = w_calls w
  /\ is_dir path w = false.
Proof.
  unfold write_file. destruct (is_dir path w).
  - rewrite orb_true_r. discriminate.
  - destruct (_ || false); [discriminate|].
    destruct (_ || _); [|discriminate]. intros [= _ <-]. auto.
Qed.

Lemma write_file_parent path c w u w' :
  write_file path c w = (Ok u, w') ->
  length (os_path_dirname path) = 0%nat \/ is_dir (os_path_dirname path) w = true.
Proof.
  unfold write_file. destruct (_ || is_dir path w); [discriminate|].
  destruct (Nat.eqb (length (os_path_dirname path)) 0) eqn:Hlen.
  - intros _. left. apply Nat.eqb_eq, Hlen.
  - cbn [orb]. destruct (is_dir (os_path_dirname path) w); [auto|discriminate].
Qed.

Lemma is_file_insert path c w w' q :
  w_files w' = <[path := c]> (w_files w) ->
  is_file q w' = bool_decide (q = path) || is_file q w.
Proof.
  unfold is_file. intros ->. destruct (decide (q = path)) as [->|Hne].
  - rewrite lookup_insert_eq, bool_decide_eq_true_2; reflexivity.
  - rewrite lookup_insert_ne, bool_decide_eq_false_2 by congruence. reflexivity.
Qed.

Lemma guardar_path_como_png_Ok v (w_draw h_draw : num) path w r w' :
  guardar_path_como_png v w_draw h_draw path w = (Ok r, w') ->
  r = path /\
  exists fig target,
    figura_png v w_draw h_draw = Ok fig /\ savefig_path path = Ok target /\
    write_file target (CPng fig) w = (Ok tt, w').
Proof.
  unfold guardar_path_como_png, savefig. intros Hrun.
  apply io_bind_Ok in Hrun as (fig & w1 & Hfig & Hrun). apply io_lift_Ok in Hfig as [Hfig ->].
  apply io_bind_Ok in Hrun as ([] & w2 & Hsave & Hrun).
  apply io_bind_Ok in Hsave as (target & w1 & Htarget & Hsave).
  apply io_lift_Ok in Htarget as [Htarget ->].
  injection Hrun as <- <-. split; [reflexivity|]. eauto.
Qed.

(** One turn of the loop that reaches its end: part 2A returned, the SVG
    was written, the figure was built and saved where [savefig] puts it. *)
Lemma turno_Ok svg_folder png_folder comp
    (k : gmap string (pyval num) -> pystr -> pystr -> io num
           (list (gmap string (pyval num)) * list pystr * list pystr))
    w r w' :
  (t ← io_lift (trazar_svg comp);
   let svg_path := os_path_join svg_folder (trazo_svg_fname t) in
   _ ← write_file svg_path (CSvg (trazo_dwg t));
   let png_path := os_path_join png_folder (png_fname_of (trazo_svg_fname t)) in
   _ ← guardar_path_como_png (trazo_path_data t) (trazo_w_draw t) (trazo_h_draw t) png_path;
   k (<["png_path" := PStr png_path]> comp) svg_path png_path) w = (Ok r, w') ->
  exists p target w1 w2,
    dibujar_componente comp = Ok p /\
    write_file (os_path_join svg_folder (plano_svg_fname p)) (CSvg (plano_dwg p)) w = (Ok tt, w1) /\
    savefig_path (os_path_join png_folder (plano_png_fname p)) = Ok target /\
    write_file target (CPng (plano_fig p)) w1 = (Ok tt, w2) /\
    k (<["png_path" := PStr (os_path_join png_folder (plano_png_fname p))]> comp)
      (os_path_join svg_folder (plano_svg_fname p))
      (os_path_join png_folder (plano_png_fname p)) w2 = (Ok r, w').
Proof.
  intros Hrun.
  apply io_bind_Ok in Hrun as (t & w0 & Ht & Hrun). apply io_lift_Ok in Ht as [Ht ->].
  cbv zeta in Hrun.
  apply io_bind_Ok in Hrun as ([] & w1 & Hsvg & Hrun).
  apply io_bind_Ok in Hrun as (out & w2 & Hpng & Hrun).
  apply guardar_path_como_png_Ok in Hpng as (-> & fig & target & Hfig & Htarget & Hpng).
  exists {| plano_svg_fname := trazo_svg_fname t; plano_dwg := trazo_dwg t;
            plano_png_fname := png_fname_of (trazo_svg_fname t); plano_fig := fig |},
         target, w1, w2.
  cbn [plano_svg_fname plano_dwg plano_png_fname plano_fig].
  split; [|auto]. unfold dibujar_componente. rewrite Ht. cbn [mbind result_bind].
  rewrite Hfig. reflexivity.
Qed.

(** One loop of the emitter: every turn succeeded, the lists returned are
    the paths computed, each component got its ['png_path'], and the files
    written are on disk at the end: each SVG at its path, each PNG where
    [savefig] put it. *)
Lemma planos_loop_inv svg_folder png_folder (comps : list (gmap string (pyval num)))
    w comps' svg_files temp_png_files w' :
  planos_loop svg_folder png_folder comps w = (Ok (comps', svg_files, temp_png_files), w') ->
  exists ps,
    Forall2 (fun comp p => dibujar_componente comp = Ok p) comps ps /\
    svg_files = map (fun p => os_path_join svg_folder (plano_svg_fname p)) ps /\
    temp_png_files = map (fun p => os_path_join png_folder (plano_png_fname p)) ps /\
    Forall2 (fun comp' cp =>
               comp' = <["png_path" := PStr (os_path_join png_folder (plano_png_fname cp.2))]> cp.1)
            comps' (zip comps ps) /\
    (forall q, is_file q w = true -> is_file q w' = true) /\
    Forall (fun f => is_file f w' = true) svg_files /\
    Forall (fun f => exists target, savefig_path f = Ok target /\ is_file target w' = true)
           temp_png_files /\
    w_dirs w' = w_dirs w /\ w_calls w' = w_calls w.
Proof.
  revert w comps' svg_files temp_png_files w'.
  induction comps as [|comp rest IH]; intros w comps' svgs pngs w' Hloop.
  - injection Hloop as <- <- <- <-. exists []. cbn. repeat split; auto.
  - cbn [planos_loop] in Hloop.
    apply (turno_Ok svg_folder png_folder comp
             (fun comp' svg_path png_path =>
                '(rest', svg_files, temp_png_files) ← planos_loop svg_folder png_folder rest;
                mret (comp' :: rest', svg_path :: svg_files, png_path :: temp_png_files)))
      in Hloop as (p & target & w2 & w3 & Hp & Hsvg & Htarget & Hpng & Hloop).
    apply io_bind_Ok in Hloop as ([[rest' svgs'] pngs'] & w4 & Hrest & Hloop).
    injection Hloop as <- <- <- <-.
    apply write_file_Ok in Hsvg as (Hf2 & Hd2 & Hc2 & _).
    apply write_file_Ok in Hpng as (Hf3 & Hd3 & Hc3 & _).
    apply IH in Hrest as (ps & Hps & -> & -> & Hcomps & Hkeep & Hsvgs & Hpngs & Hd4 & Hc4).
    exists (p :: ps). cbn [map zip zip_with].
    assert (Hkeep' : forall q, is_file q w = true -> is_file q w4 = true).
    { intros q Hq. apply Hkeep.
      rewrite (is_file_insert _ _ _ _ _ Hf3), (is_file_insert _ _ _ _ _ Hf2), Hq.
      rewrite !orb_true_r. reflexivity. }
    split; [constructor; assumption|].
    split; [reflexivity|]. split; [reflexivity|].
    split; [constructor; [reflexivity|assumption]|].
    split; [exact Hkeep'|].
    split; [|split; [|split; congruence]].
    + constructor; [|exact Hsvgs].
      apply Hkeep. rewrite (is_file_insert _ _ _ _ _ Hf3), (is_file_insert _ _ _ _ _ Hf2).
      rewrite (bool_decide_eq_true_2 (_ = _) eq_refl), orb_true_r. reflexivity.
    + constructor; [|exact Hpngs]. exists target. split; [exact Htarget|].
      apply Hkeep. rewrite (is_file_insert _ _ _ _ _ Hf3).
      rewrite (bool_decide_eq_true_2 (_ = _) eq_refl). reflexivity.
Qed.

Lemma os_path_exists_inv path w (r : result bool) w' :
  os_path_exists path w = (r, w') -> w' = w /\ r = Ok (is_file path w || is_dir path w).
Proof. unfold os_path_exists. intros [= <- <-]. auto. Qed.

Lemma add_picture_Ok path w u w' :
  add_picture path w = (Ok u, w') -> w' = w /\ is_file path w = true.
Proof.
  unfold add_picture, is_file. destruct (w_files w !! path) as [[[|]| | |]|]; intros [= <-]; auto.
Qed.

Lemma shutil_rmtree_Ok d w u w' :
  shutil_rmtree d w = (Ok u, w') ->
  (forall q, path_within d q = false -> is_file q w' = is_file q w) /\
  is_file d w' = false /\ is_dir d w' = false /\
  (forall q, is_file q w' = true -> is_file q w = true) /\
  (forall q, is_dir q w' = true -> is_dir q w = true) /\
  w_calls w' = w_calls w.
Proof.
  unfold shutil_rmtree. destruct (is_dir d w); [|discriminate]. intros [= _ <-].
  assert (Hd : path_within d d = true).
  { unfold path_within. rewrite bool_decide_eq_true_2; reflexivity. }
  unfold is_file, is_dir. cbn [w_files w_dirs w_calls].
  split; [|split; [|split; [|split; [|split]]]].
  - intros q Hq.
    match goal with |- context [filter ?P ?m !! q] => destruct (filter P m !! q) as [c|] eqn:Hc end.
    + apply map_lookup_filter_Some in Hc as [-> _]. reflexivity.
    + apply map_lookup_filter_None in Hc as [->|Hc]; [reflexivity|].
      destruct (w_files w !! q) as [c|] eqn:Hc'; [|reflexivity].
      exfalso. apply (Hc c); [reflexivity|exact Hq].
  - destruct (filter _ (w_files w) !! d) as [c|] eqn:Hc; [|reflexivity].
    apply map_lookup_filter_Some in Hc as [_ Hc]. cbn in Hc. congruence.
  - apply bool_decide_eq_false_2. intros Hin. apply elem_of_filter in Hin as [Hin _]. congruence.
  - intros q. destruct (filter _ (w_files w) !! q) as [c|] eqn:Hc; [|discriminate].
    apply map_lookup_filter_Some in Hc as [-> _]. reflexivity.
  - intros q Hq. apply bool_decide_eq_true in Hq. apply elem_of_filter in Hq as [_ Hq].
    apply bool_decide_eq_true_2, Hq.
  - reflexivity.
Qed.

Lemma os_makedirs_Ok d w u w' :
  os_makedirs d w = (Ok u, w') -> w_files w' = w_files w /\ w_calls w' = w_calls w.
Proof.
  unfold os_makedirs. destruct (existsb _ _); [discriminate|]. intros [= _ <-]. auto.
Qed.

Lemma is_file_files q w w' : w_files w' = w_files w -> is_file q w' = is_file q w.
Proof. unfold is_file. intros ->. reflexivity. Qed.

(** The adapter returns a list whatever the service does, and leaves the disk alone. *)
Lemma analizar_y_generar_desglose_total cfg (svc : ai_service num) data path_render w :
  exists componentes w',
    analizar_y_generar_desglose cfg svc data path_render w = (Ok componentes, w')
    /\ w_files w' = w_files w /\ w_dirs w' = w_dirs w.
Proof.
  unfold analizar_y_generar_desglose, consultar_modelo, borrar_remoto.
  unfold io_finally, io_catch, log_call, io_raise, io_lift.
  unfold mbind, io_mbind, io_bind, mret, io_mret, io_ret.
  destruct (api_key_missing _); [eauto|].
  destruct (svc_client svc); [|eauto].
  destruct (svc_upload svc); [|eauto].
  destruct (user_prompt data) as [prompt|e]; [|destruct (svc_delete svc); eauto].
  destruct (svc_generate svc) as [[componentes|]|]; destruct (svc_delete svc); eauto.
Qed.

(** *** Stage 2 as a whole *)

Lemma generar_planos_inv cfg (comps : list (gmap string (pyval num))) w
    comps' folder svg_files temp_png_files w' :
  generar_planos_vectoriales_svg cfg comps w
    = (Ok (comps', (folder, svg_files, temp_png_files)), w') ->
  exists ps,
    Forall2 (fun comp p => dibujar_componente comp = Ok p) comps ps /\
    svg_files = map (fun p => os_path_join (SVG_FOLDER cfg) (plano_svg_fname p)) ps /\
    temp_png_files = map (fun p => os_path_join (TEMP_FOLDER cfg) (plano_png_fname p)) ps /\
    Forall2 (fun comp' cp =>
               comp' = <["png_path" := PStr (os_path_join (TEMP_FOLDER cfg) (plano_png_fname cp.2))]> cp.1)
            comps' (zip comps ps) /\
    folder = SVG_FOLDER cfg /\
    (forall q, path_within (SVG_FOLDER cfg) q = false -> is_file q w = true -> is_file q w' = true) /\
    Forall (fun f => is_file f w' = true) svg_files /\
    Forall (fun f => exists target, savefig_path f = Ok target /\ is_file target w' = true)
           temp_png_files /\
    w_calls w' = w_calls w.
Proof.
  unfold generar_planos_vectoriales_svg. intros Hrun.
  apply io_bind_Ok in Hrun as (ex & w1 & Hex & Hrun). apply os_path_exists_inv in Hex as [-> _].
  apply io_bind_Ok in Hrun as (u1 & w2 & Hrm & Hrun).
  apply io_bind_Ok in Hrun as (u2 & w3 & Hmk & Hrun).
  apply io_bind_Ok in Hrun as ([[comps1 svgs1] pngs1] & w4 & Hloop & Hrun).
  injection Hrun as <- <- <- <- <-.
  apply os_makedirs_Ok in Hmk as [Hf3 Hc3].
  apply planos_loop_inv in Hloop as (ps & Hps & -> & -> & Hcomps & Hkeep & Hsvgs & Hpngs & _ & Hc4).
  exists ps. repeat (split; [assumption || reflexivity|]). split.
  - intros q Hout Hq. apply Hkeep. rewrite (is_file_files _ _ _ Hf3).
    destruct ex.
    + apply shutil_rmtree_Ok in Hrm as (Hrm & _). rewrite (Hrm q Hout). exact Hq.
    + injection Hrm as _ <-. exact Hq.
  - split; [exact Hsvgs|]. split; [exact Hpngs|]. rewrite Hc4, Hc3. destruct ex.
    + apply shutil_rmtree_Ok in Hrm as (_ & _ & _ & _ & _ & Hc). exact Hc.
    + injection Hrm as _ <-. reflexivity.
Qed.

(** *** What the emitter leaves on disk *)

Lemma shutil_rmtree_lookup d w u w' q :
  shutil_rmtree d w = (Ok u, w') -> path_within d q = false ->
  w_files w' !! q = w_files w !! q.
Proof.
  unfold shutil_rmtree. destruct (is_dir d w); [|discriminate]. intros [= _ <-] Hq.
  cbn [w_files]. destruct (w_files w !! q) as [c|] eqn:Hc.
  - apply map_lookup_filter_Some. split; [exact Hc|exact Hq].
  - apply map_lookup_filter_None. left. exact Hc.
Qed.

Lemma path_within_join (x : pystr) (c : N) (b : pystr) :
  (c =? slash)%N = false -> existsb (N.eqb slash) b = false ->
  path_within (x ++ [c]) (os_path_join (x ++ [c]) b) = true.
Proof.
  intros Hc Hb. rewrite (os_path_join_snoc _ _ _ Hc Hb). unfold path_within.
  apply orb_true_intro. right.
  replace (x ++ [c] ++ [slash] ++ b) with (((x ++ [c]) ++ [slash]) ++ b)
    by (rewrite <- !app_assoc; reflexivity).
  apply starts_with_app.
Qed.

(** No file of the plans folder is a file of the previews folder. *)
Lemma svg_temp_disjoint cfg (f g : pystr) :
  existsb (N.eqb slash) f = false -> existsb (N.eqb slash) g = false ->
  os_path_join (SVG_FOLDER cfg) f <> os_path_join (TEMP_FOLDER cfg) g.
Proof.
  intros Hf Hg. destruct (folders_shape cfg) as (pre & _ & _ & Htemp & Hsvg).
  rewrite Hsvg, Htemp.
  change (lit "outputs/planos_svg") with (lit "outputs/planos_sv" ++ [103%N]).
  change (lit "outputs/temp_images") with (lit "outputs/temp_image" ++ [115%N]).
  rewrite !app_assoc, !os_path_join_snoc by (reflexivity || assumption).
  rewrite <- !app_assoc. intros Heq. apply app_inv_head in Heq. discriminate Heq.
Qed.

Lemma dibujos_unicos (comps : list (gmap string (pyval num))) ps ps' :
  Forall2 (fun comp p => dibujar_componente comp = Ok p) comps ps ->
  Forall2 (fun comp p => dibujar_componente comp = Ok p) comps ps' ->
  ps = ps'.
Proof.
  intros Hps. revert ps'. induction Hps as [|comp p comps ps Hp _ IH]; intros ps' Hps'.
  - apply Forall2_nil_inv_l in Hps'. congruence.
  - apply Forall2_cons_inv_l in Hps' as (p' & ps'' & Hp' & Hps'' & ->).
    rewrite (IH _ Hps''). congruence.
Qed.

Lemma dibujos_In (comps : list (gmap string (pyval num))) ps p :
  Forall2 (fun comp p => dibujar_componente comp = Ok p) comps ps ->
  In p ps -> exists comp, In comp comps /\ dibujar_componente comp = Ok p.
Proof.
  induction 1 as [|comp p' comps ps Hp' _ IH]; [intros []|].
  intros [<-|Hin].
  - exists comp. split; [left; reflexivity|exact Hp'].
  - destruct (IH Hin) as (comp' & Hin' & Hp). exists comp'. split; [right|]; assumption.
Qed.

(** The loop touches no path it does not write. *)
Lemma planos_loop_frame svg_folder png_folder (comps : list (gmap string (pyval num))) ps
    w r w' q :
  Forall2 (fun comp p => dibujar_componente comp = Ok p) comps ps ->
  planos_loop svg_folder png_folder comps w = (Ok r, w') ->
  (forall p, In p ps -> q <> os_path_join svg_folder (plano_svg_fname p)) ->
  (forall p target, In p ps ->
     savefig_path (os_path_join png_folder (plano_png_fname p)) = Ok target -> q <> target) ->
  w_files w' !! q = w_files w !! q.
Proof.
  intros Hps. revert w r w'.
  induction Hps as [|comp p comps ps Hp _ IH]; intros w r w' Hloop Hsvg Hpng.
  - injection Hloop as _ <-. reflexivity.
  - cbn [planos_loop] in Hloop.
    apply (turno_Ok svg_folder png_folder comp
             (fun comp' svg_path png_path =>
                '(rest', svg_files, temp_png_files) ← planos_loop svg_folder png_folder comps;
                mret (comp' :: rest', svg_path :: svg_files, png_path :: temp_png_files)))
      in Hloop as (p0 & target & w2 & w3 & Hp0 & Hwsvg & Htarget & Hwpng & Hloop).
    assert (p0 = p) as -> by congruence.
    apply io_bind_Ok in Hloop as ([[rest' svgs'] pngs'] & w4 & Hrest & Hloop).
  injection Hloop as _ <-.
    apply write_file_Ok in Hwsvg as (Hf2 & _). apply write_file_Ok in Hwpng as (Hf3 & _).
    rewrite (IH _ _ _ Hrest), Hf3, Hf2.
    + rewrite !lookup_insert_ne; [reflexivity| |].
      * intros <-. exact (Hsvg p (or_introl eq_refl) eq_refl).
      * intros <-. exact (Hpng p _ (or_introl eq_refl) Htarget eq_refl).
    + intros p' Hin. apply Hsvg. right. exact Hin.
    + intros p' target' Hin. apply Hpng. right. exact Hin.
Qed.

(** What the loop leaves at the paths it writes.  The drawing of a turn is
    at its SVG path at the end unless a later turn computed the same SVG
    name, and its figure is where [savefig] put it unless a later turn
    computed the same PNG name; in any case the SVG path of a turn holds
    the drawing of a turn of this run with that name. *)
Lemma planos_loop_contenido svg_folder png_folder (comps : list (gmap string (pyval num))) ps
    w r w' :
  (forall f g, existsb (N.eqb slash) f = false -> existsb (N.eqb slash) g = false ->
     os_path_join svg_folder f <> os_path_join png_folder g) ->
  Forall2 (fun comp p => dibujar_componente comp = Ok p) comps ps ->
  planos_loop svg_folder png_folder comps w = (Ok r, w') ->
  forall k p, ps !! k = Some p ->
    ((forall j p', (k < j)%nat -> ps !! j = Some p' ->
        plano_svg_fname p' <> plano_svg_fname p) ->
     w_files w' !! os_path_join svg_folder (plano_svg_fname p) = Some (CSvg (plano_dwg p))) /\
    ((forall j p', (k < j)%nat -> ps !! j = Some p' ->
        plano_png_fname p' <> plano_png_fname p) ->
     exists target,
       savefig_path (os_path_join png_folder (plano_png_fname p)) = Ok target /\
       w_files w' !! target = Some (CPng (plano_fig p))) /\
    (exists p', In p' ps /\ plano_svg_fname p' = plano_svg_fname p /\
       w_files w' !! os_path_join svg_folder (plano_svg_fname p) = Some (CSvg (plano_dwg p'))) /\
    (exists p' target, In p' ps /\ plano_png_fname p' = plano_png_fname p /\
       savefig_path (os_path_join png_folder (plano_png_fname p)) = Ok target /\
       w_files w' !! target = Some (CPng (plano_fig p'))).
Proof.
  intros Hdisj Hps. revert w r w'.
  induction Hps as [|comp p0 comps ps Hp0 Hps IH]; intros w r w' Hloop k p Hk;
    [discriminate Hk|].
  cbn [planos_loop] in Hloop.
  apply (turno_Ok svg_folder png_folder comp
           (fun comp' svg_path png_path =>
              '(rest', svg_files, temp_png_files) ← planos_loop svg_folder png_folder comps;
              mret (comp' :: rest', svg_path :: svg_files, png_path :: temp_png_files)))
    in Hloop as (p1 & target & w2 & w3 & Hp1 & Hwsvg & Htarget & Hwpng & Hloop).
  assert (p1 = p0) as -> by congruence.
  apply io_bind_Ok in Hloop as ([[rest' svgs'] pngs'] & w4 & Hrest & Hloop).
  injection Hloop as _ <-.
  apply write_file_Ok in Hwsvg as (Hf2 & _). apply write_file_Ok in Hwpng as (Hf3 & _).
  destruct (savefig_path_plano png_folder _ _ Hp0) as (nombre0 & name0 & _ & Hname0 & Hflat0 & _).
  assert (Htarget0 : target = os_path_join png_folder name0) by congruence.
  assert (Hne0 : os_path_join svg_folder (plano_svg_fname p0) <> target).
  { rewrite Htarget0. apply Hdisj; [exact (plano_svg_fname_flat _ _ Hp0)|exact Hflat0]. }
  assert (Hsvg_targets : forall q p' target',
            existsb (N.eqb slash) q = false -> In p' ps ->
            savefig_path (os_path_join png_folder (plano_png_fname p')) = Ok target' ->
            os_path_join svg_folder q <> target').
  { intros q p' target' Hq Hin Ht'.
    destruct (dibujos_In _ _ _ Hps Hin) as (comp' & _ & Hp').
    destruct (savefig_path_plano png_folder _ _ Hp') as (nombre' & name' & _ & Hname' & Hflat' & _).
    assert (target' = os_path_join png_folder name') as -> by congruence.
    apply Hdisj; assumption. }
  assert (Hsvg0 : (forall p', In p' ps -> plano_svg_fname p' <> plano_svg_fname p0) ->
            w_files w4 !! os_path_join svg_folder (plano_svg_fname p0)
            = Some (CSvg (plano_dwg p0))).
  { intros Hlater.
    rewrite (planos_loop_frame _ _ _ _ _ _ _ _ Hps Hrest), Hf3, Hf2.
    - rewrite lookup_insert_ne by (intros Heq; exact (Hne0 (eq_sym Heq))).
      apply lookup_insert_eq.
    - intros p' Hin Heq. destruct (dibujos_In _ _ _ Hps Hin) as (comp' & _ & Hp').
      apply os_path_join_inj in Heq;
        [|exact (plano_svg_fname_flat _ _ Hp0)|exact (plano_svg_fname_flat _ _ Hp')].
      exact (Hlater p' Hin (eq_sym Heq)).
    - intros p' target' Hin Ht'.
      exact (Hsvg_targets _ p' target' (plano_svg_fname_flat _ _ Hp0) Hin Ht'). }
  assert (Hpng0 : (forall p', In p' ps -> plano_png_fname p' <> plano_png_fname p0) ->
            w_files w4 !! target = Some (CPng (plano_fig p0))).
  { intros Hlater.
    rewrite (planos_loop_frame _ _ _ _ _ _ _ _ Hps Hrest), Hf3.
    - apply lookup_insert_eq.
    - intros p' Hin Heq. rewrite Htarget0 in Heq.
      destruct (dibujos_In _ _ _ Hps Hin) as (comp' & _ & Hp').
      symmetry in Heq. revert Heq.
      apply Hdisj; [exact (plano_svg_fname_flat _ _ Hp')|exact Hflat0].
    - intros p' target' Hin Ht' Heq. subst target'.
      destruct (dibujos_In _ _ _ Hps Hin) as (comp' & _ & Hp').
      apply (Hlater p' Hin).
      exact (savefig_path_plano_inj png_folder _ _ _ _ _ Hp' Hp0 Ht' Htarget). }
  destruct k as [|k].
  - injection Hk as <-. split; [|split; [|split]].
    + intros Hlater. apply Hsvg0. intros p' Hin.
      apply list_elem_of_In, list_elem_of_lookup in Hin as [j Hj].
      apply (Hlater (S j)); [lia|exact Hj].
    + intros Hlater. exists target. split; [exact Htarget|].
      apply Hpng0. intros p' Hin.
      apply list_elem_of_In, list_elem_of_lookup in Hin as [j Hj].
      apply (Hlater (S j)); [lia|exact Hj].
    + destruct (decide (Exists (fun p' => plano_svg_fname p' = plano_svg_fname p0) ps))
        as [Hex|Hnone].
      * apply Exists_exists in Hex as (p' & Hin & Hsame).
        apply list_elem_of_lookup in Hin as [j Hj].
        destruct (IH _ _ _ Hrest j p' Hj) as (_ & _ & (p'' & Hin'' & Hsame'' & Hfile) & _).
        exists p''. split; [right; exact Hin''|]. split; [congruence|].
        rewrite <- Hsame. exact Hfile.
      * exists p0. split; [left; reflexivity|]. split; [reflexivity|].
        apply Hsvg0. intros p' Hin Hsame. apply Hnone, Exists_exists.
        exists p'. split; [apply list_elem_of_In, Hin|exact Hsame].
    + destruct (decide (Exists (fun p' => plano_png_fname p' = plano_png_fname p0) ps))
        as [Hex|Hnone].
      * apply Exists_exists in Hex as (p' & Hin & Hsame).
        apply list_elem_of_lookup in Hin as [j Hj].
        destruct (IH _ _ _ Hrest j p' Hj)
          as (_ & _ & _ & p'' & target'' & Hin'' & Hsame'' & Htarget'' & Hfile).
        exists p'', target''. split; [right; exact Hin''|]. split; [congruence|].
        rewrite <- Hsame. auto.
      * exists p0, target. split; [left; reflexivity|]. split; [reflexivity|].
        split; [exact Htarget|].
        apply Hpng0. intros p' Hin Hsame. apply Hnone, Exists_exists.
        exists p'. split; [apply list_elem_of_In, Hin|exact Hsame].
  - cbn [lookup list_lookup] in Hk.
    destruct (IH _ _ _ Hrest k p Hk)
      as (Hsvg & Hpng & (p' & Hin' & Hsame' & Hfile) & (p'' & target'' & Hin'' & Hrest'')).
    split; [|split; [|split]].
    + intros Hlater. apply Hsvg. intros j p3 Hj. apply (Hlater (S j)). lia.
    + intros Hlater. apply Hpng. intros j p3 Hj. apply (Hlater (S j)). lia.
    + exists p'. split; [right; exact Hin'|]. auto.
    + exists p'', target''. split; [right; exact Hin''|]. exact Hrest''.
Qed.

(** The emitter changes nothing outside its two folders. *)
Lemma generar_planos_frame cfg (comps : list (gmap string (pyval num))) w r w' q :
  generar_planos_vectoriales_svg cfg comps w = (Ok r, w') ->
  path_within (SVG_FOLDER cfg) q = false -> path_within (TEMP_FOLDER cfg) q = false ->
  w_files w' !! q = w_files w !! q.
Proof.
  intros Hrun Hsvg Htemp. destruct r as [comps' [[folder svgs] pngs]].
  assert (Hinv := Hrun). apply generar_planos_inv in Hinv as (ps & Hps & -> & -> & _).
  unfold generar_planos_vectoriales_svg in Hrun.
  apply io_bind_Ok in Hrun as (ex & w1 & Hex & Hrun). apply os_path_exists_inv in Hex as [-> _].
  apply io_bind_Ok in Hrun as (u1 & w2 & Hrm & Hrun).
  apply io_bind_Ok in Hrun as (u2 & w3 & Hmk & Hrun).
  apply io_bind_Ok in Hrun as ([[comps1 svgs1] pngs1] & w4 & Hloop & Hrun).
  injection Hrun as _ _ _ _ <-.
  apply os_makedirs_Ok in Hmk as [Hf3 _].
  rewrite (planos_loop_frame _ _ _ _ _ _ _ q Hps Hloop), Hf3.
  - destruct ex; [exact (shutil_rmtree_lookup _ _ _ _ _ Hrm Hsvg)|].
    injection Hrm as _ <-. reflexivity.
  - intros p Hin ->. destruct (dibujos_In _ _ _ Hps Hin) as (comp & _ & Hp).
    destruct (svg_folder_snoc cfg) as [x Hx]. rewrite Hx in Hsvg.
    rewrite path_within_join in Hsvg; [discriminate Hsvg|reflexivity|].
    exact (plano_svg_fname_flat _ _ Hp).
  - intros p target Hin Htarget ->. destruct (dibujos_In _ _ _ Hps Hin) as (comp & _ & Hp).
    destruct (savefig_path_plano (TEMP_FOLDER cfg) _ _ Hp)
      as (nombre & name & _ & Hname & Hflat & _).
    assert (target = os_path_join (TEMP_FOLDER cfg) name) as -> by congruence.
    destruct (temp_folder_snoc cfg) as [x Hx]. rewrite Hx in Htemp.
    rewrite path_within_join in Htemp; [discriminate Htemp|reflexivity|exact Hflat].
Qed.

(** The same for a whole run of the emitter, whose folders are apart. *)
Lemma generar_planos_contenido cfg (comps : list (gmap string (pyval num))) ps w r w' :
  Forall2 (fun comp p => dibujar_componente comp = Ok p) comps ps ->
  generar_planos_vectoriales_svg cfg comps w = (Ok r, w') ->
  forall k p, ps !! k = Some p ->
    ((forall j p', (k < j)%nat -> ps !! j = Some p' ->
        plano_svg_fname p' <> plano_svg_fname p) ->
     w_files w' !! os_path_join (SVG_FOLDER cfg) (plano_svg_fname p)
     = Some (CSvg (plano_dwg p))) /\
    ((forall j p', (k < j)%nat -> ps !! j = Some p' ->
        plano_png_fname p' <> plano_png_fname p) ->
     exists target,
       savefig_path (os_path_join (TEMP_FOLDER cfg) (plano_png_fname p)) = Ok target /\
       w_files w' !! target = Some (CPng (plano_fig p))) /\
    (exists p', In p' ps /\ plano_svg_fname p' = plano_svg_fname p /\
       w_files w' !! os_path_join (SVG_FOLDER cfg) (plano_svg_fname p)
       = Some (CSvg (plano_dwg p'))) /\
    (exists p' target, In p' ps /\ plano_png_fname p' = plano_png_fname p /\
       savefig_path (os_path_join (TEMP_FOLDER cfg) (plano_png_fname p)) = Ok target /\
       w_files w' !! target = Some (CPng (plano_fig p'))).
Proof.
  intros Hps Hrun. unfold generar_planos_vectoriales_svg in Hrun.
  apply io_bind_Ok in Hrun as (ex & w1 & Hex & Hrun).
  apply io_bind_Ok in Hrun as (u1 & w2 & Hrm & Hrun).
  apply io_bind_Ok in Hrun as (u2 & w3 & Hmk & Hrun).
  apply io_bind_Ok in Hrun as ([[comps1 svgs1] pngs1] & w4 & Hloop & Hrun).
  injection Hrun as _ <-.
  exact (planos_loop_contenido _ _ _ _ _ _ _ (svg_temp_disjoint cfg) Hps Hloop).
Qed.

(** *** Stage 3: the manual *)

Lemma celda_imagen_inv comp w (o : option pystr) w' :
  celda_imagen comp w = (Ok o, w') ->
  w' = w /\ forall f, o = Some f -> is_file f w = true.
Proof.
  unfold celda_imagen.
  destruct (default PNone (comp !! "png_path")) as [|b|x|png_path|l].
  - cbn. intros [= <- <-]. split; [reflexivity|discriminate].
  - destruct (truthy _); [discriminate|]. intros [= <- <-]. split; [reflexivity|discriminate].
  - destruct (truthy _); [discriminate|]. intros [= <- <-]. split; [reflexivity|discriminate].
  - destruct (truthy _).
    + intros Hc. apply io_bind_Ok in Hc as (ex & w1 & Hex & Hc).
      apply os_path_exists_inv in Hex as [-> _]. destruct ex.
      * apply io_bind_Ok in Hc as (u & w2 & Hpic & Hc).
        apply add_picture_Ok in Hpic as [-> Hfile]. injection Hc as <- <-.
        split; [reflexivity|]. intros f [= <-]. exact Hfile.
      * injection Hc as <- <-. split; [reflexivity|discriminate].
    + intros [= <- <-]. split; [reflexivity|discriminate].
  - destruct (truthy _); [discriminate|]. intros [= <- <-]. split; [reflexivity|discriminate].
Qed.

(** One section of the manual only reads the disk; its file reference is
    built from the component's name. *)
Lemma seccion_de_inv i comp w s w' :
  seccion_de i comp w = (Ok s, w') ->
  w' = w /\
  (exists nombre, comp !! "nombre" = Some (PStr nombre) /\
     pieza_archivo s = [ FLit (lit "Archivo SVG: ");
                         FVal (PStr (secure_filename nombre ++ lit ".svg")) ]) /\
  (forall f, pieza_imagen s = Some f -> is_file f w = true).
Proof.
  unfold seccion_de. intros Hs.
  apply io_bind_Ok in Hs as (nombre & w1 & Hnom & Hs). apply io_lift_Ok in Hnom as [Hnom ->].
  apply subscript_Ok in Hnom.
  apply io_bind_Ok in Hs as (imagen & w1 & Him & Hs). apply celda_imagen_inv in Him as [-> Him].
  apply io_bind_Ok in Hs as (dims & w1 & Hdims & Hs). apply io_lift_Ok in Hdims as [_ ->].
  apply io_bind_Ok in Hs as ([[l a] e] & w1 & Hun & Hs). apply io_lift_Ok in Hun as [_ ->].
  apply io_bind_Ok in Hs as (material & w1 & Hmat & Hs). apply io_lift_Ok in Hmat as [_ ->].
  apply io_bind_Ok in Hs as (cantidad & w1 & Hcant & Hs). apply io_lift_Ok in Hcant as [_ ->].
  apply io_bind_Ok in Hs as (nombre' & w1 & Hnom' & Hs). apply io_lift_Ok in Hnom' as [Hnom' ->].
  destruct nombre as [| | |nombre|]; try discriminate Hnom'. injection Hnom' as <-.
  injection Hs as <- <-. split; [reflexivity|]. split; [eauto|exact Him].
Qed.

Lemma secciones_loop_inv i (comps : list (gmap string (pyval num))) w piezas w' :
  secciones_loop i comps w = (Ok piezas, w') ->
  w' = w /\
  Forall2 (fun comp s =>
             exists nombre, comp !! "nombre" = Some (PStr nombre) /\
               pieza_archivo s = [ FLit (lit "Archivo SVG: ");
                                   FVal (PStr (secure_filename nombre ++ lit ".svg")) ])
          comps piezas /\
  Forall (fun f => is_file f w = true) (imagenes piezas).
Proof.
  revert i piezas w'. induction comps as [|comp rest IH]; intros i piezas w' Hloop.
  - injection Hloop as <- <-. split; [reflexivity|]. split; constructor.
  - cbn [secciones_loop] in Hloop.
    apply io_bind_Ok in Hloop as (s & w1 & Hs & Hloop).
    apply seccion_de_inv in Hs as (-> & Hs & Him).
    apply io_bind_Ok in Hloop as (ss & w1 & Hss & Hloop).
    apply IH in Hss as (-> & Hss & Hims). injection Hloop as <- <-.
    split; [reflexivity|]. split; [constructor; assumption|].
    unfold imagenes. cbn [omap list_omap]. destruct (pieza_imagen s) as [f|] eqn:Hf.
    + constructor; [apply Him; reflexivity|exact Hims].
    + exact Hims.
Qed.

Lemma generar_manual_word_inv cfg (comps : list (gmap string (pyval num))) path_render data
    w doc_path docx_png_files w' :
  generar_manual_word cfg comps path_render data w = (Ok (doc_path, docx_png_files), w') ->
  doc_path = os_path_join (OUTPUT_FOLDER cfg) (lit "Manual_Produccion.docx") /\
  exists doc,
    w_files w' = <[doc_path := CDocx doc]> (w_files w) /\
    w_dirs w' = w_dirs w /\ w_calls w' = w_calls w /\
    is_dir doc_path w = false /\
    Forall2 (fun comp s =>
               exists nombre, comp !! "nombre" = Some (PStr nombre) /\
                 pieza_archivo s = [ FLit (lit "Archivo SVG: ");
                                     FVal (PStr (secure_filename nombre ++ lit ".svg")) ])
            comps (doc_piezas doc) /\
    docx_png_files = imagenes (doc_piezas doc) /\
    Forall (fun f => is_file f w = true) docx_png_files.
Proof.
  unfold generar_manual_word. intros Hdoc.
  apply io_bind_Ok in Hdoc as (proyecto & w1 & Hpr & Hdoc). apply io_lift_Ok in Hpr as [_ ->].
  apply io_bind_Ok in Hdoc as (ex & w1 & Hex & Hdoc). apply os_path_exists_inv in Hex as [-> _].
  apply io_bind_Ok in Hdoc as (render & w1 & Hren & Hdoc).
  assert (w1 = w) as ->.
  { destruct ex.
    - apply io_bind_Ok in Hren as (u & w2 & Hpic & Hren).
      apply add_picture_Ok in Hpic as [-> _]. injection Hren as _ <-. reflexivity.
    - injection Hren as _ <-. reflexivity. }
  apply io_bind_Ok in Hdoc as (frente & w1 & Hfr & Hdoc). apply io_lift_Ok in Hfr as [_ ->].
  apply io_bind_Ok in Hdoc as (fondo & w1 & Hfo & Hdoc). apply io_lift_Ok in Hfo as [_ ->].
  apply io_bind_Ok in Hdoc as (altura & w1 & Hal & Hdoc). apply io_lift_Ok in Hal as [_ ->].
  apply io_bind_Ok in Hdoc as (piezas & w1 & Hpz & Hdoc).
  apply secciones_loop_inv in Hpz as (-> & Hpz & Hims).
  apply io_bind_Ok in Hdoc as (u & w1 & Hwr & Hdoc).
  apply write_file_Ok in Hwr as (Hf & Hd & Hc & Hnd). injection Hdoc as <- <- <-.
  split; [reflexivity|]. eexists. split; [exact Hf|]. cbn [doc_piezas]. auto 10.
Qed.

Lemma celda_imagen_present comp (f : pystr) w o w' :
  comp !! "png_path" = Some (PStr f) -> f <> [] -> is_file f w = true ->
  celda_imagen comp w = (Ok o, w') -> o = Some f.
Proof.
  intros Hpng Hne Hfile. unfold celda_imagen. rewrite Hpng.
  change (default PNone (Some (PStr f))) with (PStr f : pyval num).
  destruct f as [|c f]; [contradiction|]. cbn [truthy length Nat.eqb negb].
  rewrite io_bind_run. unfold os_path_exists. rewrite Hfile. cbn [orb].
  rewrite io_bind_run. destruct (add_picture (c :: f) w) as [[u|e] w1]; [|discriminate].
  intros [= <- _]. reflexivity.
Qed.

Lemma seccion_de_imagen i comp w s w' :
  seccion_de i comp w = (Ok s, w') ->
  exists w1, celda_imagen comp w = (Ok (pieza_imagen s), w1).
Proof.
  unfold seccion_de. intros Hs.
  apply io_bind_Ok in Hs as (nombre & w1 & Hnom & Hs). apply io_lift_Ok in Hnom as [_ ->].
  apply io_bind_Ok in Hs as (imagen & w1 & Him & Hs).
  apply io_bind_Ok in Hs as (dims & w2 & _ & Hs).
  apply io_bind_Ok in Hs as ([[l a] e] & w3 & _ & Hs).
  do 3 (apply io_bind_Ok in Hs as (? & ? & _ & Hs)).
  injection Hs as <- _. eauto.
Qed.

Lemma secciones_loop_imagenes i (comps : list (gmap string (pyval num))) w piezas w' :
  secciones_loop i comps w = (Ok piezas, w') ->
  Forall2 (fun comp s => exists w1, celda_imagen comp w = (Ok (pieza_imagen s), w1))
          comps piezas.
Proof.
  revert i piezas w'. induction comps as [|comp rest IH]; intros i piezas w' Hloop.
  - injection Hloop as <- _. constructor.
  - cbn [secciones_loop] in Hloop.
    apply io_bind_Ok in Hloop as (s & w1 & Hs & Hloop).
    assert (Him := seccion_de_imagen _ _ _ _ _ Hs).
    apply seccion_de_inv in Hs as (-> & _).
    apply io_bind_Ok in Hloop as (ss & w1 & Hss & Hloop). apply IH in Hss.
    injection Hloop as <- _. constructor; assumption.
Qed.

Lemma generar_manual_word_secciones cfg (comps : list (gmap string (pyval num)))
    path_render data w doc_path docx_png_files w' :
  generar_manual_word cfg comps path_render data w = (Ok (doc_path, docx_png_files), w') ->
  exists doc w1,
    w_files w' !! doc_path = Some (CDocx doc) /\
    secciones_loop 0 comps w = (Ok (doc_piezas doc), w1) /\
    docx_png_files = imagenes (doc_piezas doc) /\
    (is_file path_render w = true -> add_picture path_render w = (Ok tt, w)).
Proof.
  unfold generar_manual_word. intros Hdoc.
  apply io_bind_Ok in Hdoc as (proyecto & w1 & Hpr & Hdoc). apply io_lift_Ok in Hpr as [_ ->].
  apply io_bind_Ok in Hdoc as (ex & w1 & Hex & Hdoc). apply os_path_exists_inv in Hex as [-> Hex].
  injection Hex as ->.
  apply io_bind_Ok in Hdoc as (render & w1 & Hren & Hdoc).
  assert (Hpic : w1 = w /\ (is_file path_render w = true ->
                            add_picture path_render w = (Ok tt, w))).
  { destruct (is_file path_render w) eqn:Hfile; cbn [orb] in Hren.
    - apply io_bind_Ok in Hren as ([] & w2 & Hpic & Hren).
      assert (Hw := Hpic). apply add_picture_Ok in Hw as [-> _]. injection Hren as _ <-. auto.
    - split; [|discriminate]. destruct (is_dir path_render w).
      + apply io_bind_Ok in Hren as ([] & w2 & Hpic & Hren).
        apply add_picture_Ok in Hpic as [-> _]. injection Hren as _ <-. reflexivity.
      + injection Hren as _ <-. reflexivity. }
  destruct Hpic as [-> Hpic].
  apply io_bind_Ok in Hdoc as (frente & w1 & Hfr & Hdoc). apply io_lift_Ok in Hfr as [_ ->].
  apply io_bind_Ok in Hdoc as (fondo & w1 & Hfo & Hdoc). apply io_lift_Ok in Hfo as [_ ->].
  apply io_bind_Ok in Hdoc as (altura & w1 & Hal & Hdoc). apply io_lift_Ok in Hal as [_ ->].
  apply io_bind_Ok in Hdoc as (piezas & w1 & Hpz & Hdoc).
  assert (Hloop := Hpz). apply secciones_loop_inv in Hpz as (-> & _).
  apply io_bind_Ok in Hdoc as (u & w1 & Hwr & Hdoc).
  apply write_file_Ok in Hwr as (Hf & _). injection Hdoc as <- <- <-.
  eexists _, w. split; [rewrite Hf; apply lookup_insert_eq|]. cbn [doc_piezas]. auto.
Qed.

(** The picture cell of a component whose ['png_path'] is a non-empty
    [str]: the file is embedded when it is there, and the placeholder is
    used when nothing is at that path. *)
Lemma celda_imagen_disk comp (f : pystr) w o w' :
  comp !! "png_path" = Some (PStr f) -> f <> [] ->
  celda_imagen comp w = (Ok o, w') ->
  (o = Some f /\ is_file f w = true) \/ (o = None /\ absent f w).
Proof.
  intros Hpng Hne. unfold celda_imagen. rewrite Hpng.
  change (default PNone (Some (PStr f))) with (PStr f : pyval num).
  destruct f as [|c f]; [contradiction|]. cbn [truthy length Nat.eqb negb].
  rewrite io_bind_run. unfold os_path_exists.
  destruct (is_file (c :: f) w) eqn:Hfile; cbn [orb].
  - rewrite io_bind_run. destruct (add_picture (c :: f) w) as [[u|e] w1]; [|discriminate].
    intros [= <- _]. left. auto.
  - destruct (is_dir (c :: f) w) eqn:Hdir.
    + rewrite io_bind_run. destruct (add_picture (c :: f) w) as [[u|e] w1] eqn:Hpic;
        [|discriminate].
      apply add_picture_Ok in Hpic as [_ Hpic]. congruence.
    + intros [= <- _]. right. split; [reflexivity|]. split; assumption.
Qed.

(** *** Packaging *)

Lemma zf_write_Ok path arcname w (m : pystr * zip_member) w' :
  zf_write path arcname w = (Ok m, w') ->
  w' = w /\ (is_file path w = true -> m.1 = arcname).
Proof.
  unfold zf_write, is_file. destruct (w_files w !! path) as [c|].
  - intros [= <- <-]. auto.
  - destruct (is_dir path w); [|discriminate]. intros [= <- <-]. split; [reflexivity|discriminate].
Qed.

Lemma zf_write_all_Ok (svg_files : list pystr) w ms w' :
  zf_write_all svg_files w = (Ok ms, w') ->
  w' = w /\
  (Forall (fun f => is_file f w = true) svg_files ->
   map fst ms = map (fun f => lit "Planos_Corte/" ++ os_path_basename f) svg_files).
Proof.
  revert ms w'. induction svg_files as [|svg rest IH]; intros ms w' Hall.
  - injection Hall as <- <-. auto.
  - cbn [zf_write_all] in Hall.
    apply io_bind_Ok in Hall as (m & w1 & Hm & Hall). apply zf_write_Ok in Hm as [-> Hm].
    apply io_bind_Ok in Hall as (ms' & w1 & Hms & Hall). apply IH in Hms as [-> Hms].
    injection Hall as <- <-. split; [reflexivity|].
    intros Hfiles. apply Forall_cons in Hfiles as [Hsvg Hrest].
    cbn [map]. rewrite (Hm Hsvg), (Hms Hrest). reflexivity.
Qed.

(** *** The [try] block of the endpoint, when it reaches its [return] *)

Lemma temp_folder_join_nonempty cfg (name : pystr) :
  existsb (N.eqb slash) name = false -> os_path_join (TEMP_FOLDER cfg) name <> [].
Proof.
  intros Hflat. destruct (temp_folder_snoc cfg) as [x ->].
  rewrite os_path_join_snoc by (reflexivity || exact Hflat). destruct x; discriminate.
Qed.

(** The previews the manual was given: each ['png_path'] the emitter
    stored is a file on the disk the manual read, or nothing at all. *)
Lemma previas_en_disco cfg (comps : list (gmap string (pyval num))) ps comps'
    path_render data w doc_path docx_png_files w' :
  Forall2 (fun comp p => dibujar_componente comp = Ok p) comps ps ->
  Forall2 (fun comp' cp =>
             comp' = <["png_path" := PStr (os_path_join (TEMP_FOLDER cfg) (plano_png_fname cp.2))]> cp.1)
          comps' (zip comps ps) ->
  generar_manual_word cfg comps' path_render data w = (Ok (doc_path, docx_png_files), w') ->
  Forall (fun f => is_file f w = true \/ absent f w)
         (map (fun p => os_path_join (TEMP_FOLDER cfg) (plano_png_fname p)) ps).
Proof.
  intros Hps Hcomps' Hdoc.
  apply generar_manual_word_secciones in Hdoc as (doc & w1 & _ & Hloop & _).
  apply secciones_loop_imagenes in Hloop.
  revert Hloop. generalize (doc_piezas doc). revert comps' Hcomps'.
  induction Hps as [|comp p comps ps Hp _ IH]; intros comps' Hcomps' piezas Hloop.
  - constructor.
  - cbn [zip zip_with] in Hcomps'.
    apply Forall2_cons_inv_r in Hcomps' as (comp' & rest' & Hcomp' & Hrest' & ->).
    apply Forall2_cons_inv_l in Hloop as (s & piezas' & (w4 & Hs) & Hloop' & ->).
    cbn [map]. constructor; [|exact (IH _ Hrest' _ Hloop')].
    cbn [fst snd] in Hcomp'. subst comp'.
    eapply celda_imagen_disk in Hs as [[_ Hfile]|[_ Habs]]; eauto.
    + apply lookup_insert_eq.
    + apply temp_folder_join_nonempty. exact (plano_png_fname_flat _ _ Hp).
Qed.

Lemma generar_manual_try_Ok cfg (svc : ai_service num) req w resp temp_files w' :
  generar_manual_try cfg svc req w = (Ok (resp, temp_files), w') ->
  exists file data comps ps w1 w2 zip,
    req_render req = Some file /\ req_data req = Some (Some data) /\
    analizar_y_generar_desglose cfg svc data
      (os_path_join (UPLOAD_FOLDER cfg) (secure_filename (up_filename file))) w1
      = (Ok comps, w2) /\
    Forall2 (fun comp p => dibujar_componente comp = Ok p) comps ps /\
    resp = SendFile (lit "application/zip") true (lit "Proyecto_Produccion.zip") zip /\
    map fst zip = lit "Manual_Produccion.docx" :: lit "Render_Original.jpg"
                  :: map (fun p => lit "Planos_Corte/" ++ plano_svg_fname p) ps /\
    Forall (fun f => is_file f w' = true \/ absent f w') temp_files.
Proof.
  unfold generar_manual_try. intros Htry.
  apply io_bind_Ok in Htry as (file & w0 & Hfile & Htry). apply io_lift_Ok in Hfile as [Hfile ->].
  destruct (req_render req) as [file'|] eqn:Hreq; [|discriminate]. injection Hfile as ->.
  set (path_render := os_path_join (UPLOAD_FOLDER cfg) (secure_filename (up_filename file))) in *.
  apply io_bind_Ok in Htry as (u & w1 & Hsave & Htry).
  apply write_file_Ok in Hsave as (Hf1 & _).
  apply io_bind_Ok in Htry as (data & w1' & Hdata & Htry). apply io_lift_Ok in Hdata as [Hdata ->].
  destruct (req_data req) as [[data'|]|] eqn:Hreqd; try discriminate. injection Hdata as ->.
  apply io_bind_Ok in Htry as (comps & w2 & Hai & Htry).
  destruct (analizar_y_generar_desglose_total cfg svc data path_render w1)
    as (comps0 & w2' & Hai' & Hf2 & _).
  rewrite Hai in Hai'. injection Hai' as <- <-.
  apply io_bind_Ok in Htry as ([comps' [[folder svgs] pngs]] & w3 & Hplanos & Htry).
  apply generar_planos_inv in Hplanos
    as (ps & Hps & -> & -> & Hcomps' & _ & Hkeep3 & Hsvgs3 & _ & _).
  apply io_bind_Ok in Htry as ([doc_path docx_pngs] & w4 & Hdoc & Htry).
  assert (Hpngs3 := previas_en_disco _ _ _ _ _ _ _ _ _ _ Hps Hcomps' Hdoc).
  apply generar_manual_word_inv in Hdoc as (-> & doc & Hf4 & Hd4 & _ & _ & _ & _ & Hdocx).
  apply io_bind_Ok in Htry as (m_doc & w5 & Hzdoc & Htry). apply zf_write_Ok in Hzdoc as [-> Hzdoc].
  apply io_bind_Ok in Htry as (m_render & w5 & Hzren & Htry). apply zf_write_Ok in Hzren as [-> Hzren].
  apply io_bind_Ok in Htry as (m_svgs & w5 & Hzsvg & Htry). apply zf_write_all_Ok in Hzsvg as [-> Hzsvg].
  injection Htry as <- <- <-.
  assert (Hkeep4 : forall f, is_file f w3 = true -> is_file f w4 = true).
  { intros f Hf. rewrite (is_file_insert _ _ _ _ _ Hf4), Hf. apply orb_true_r. }
  assert (Hdoc4 : is_file (os_path_join (OUTPUT_FOLDER cfg) (lit "Manual_Produccion.docx")) w4
                  = true).
  { rewrite (is_file_insert _ _ _ _ _ Hf4).
    rewrite (bool_decide_eq_true_2 (_ = _) eq_refl). reflexivity. }
  assert (Hren4 : is_file path_render w4 = true).
  { apply Hkeep4, Hkeep3; [apply render_fuera_de_planos, secure_filename_flat|].
    rewrite (is_file_files _ _ _ Hf2), (is_file_insert _ _ _ _ _ Hf1).
    rewrite (bool_decide_eq_true_2 (_ = _) eq_refl). reflexivity. }
  assert (Hsvgs4 : Forall (fun f => is_file f w4 = true)
                     (map (fun p => os_path_join (SVG_FOLDER cfg) (plano_svg_fname p)) ps)).
  { eapply Forall_impl; [exact Hsvgs3|]. exact Hkeep4. }
  assert (Hpngs4 : Forall (fun f => is_file f w4 = true \/ absent f w4)
                     (map (fun p => os_path_join (TEMP_FOLDER cfg) (plano_png_fname p)) ps)).
  { eapply Forall_impl; [exact Hpngs3|]. cbn beta. intros f [Hf|[Hf Hd]].
    - left. exact (Hkeep4 f Hf).
    - destruct (is_file f w4) eqn:Hf'; [left; reflexivity|right].
      split; [exact Hf'|]. unfold is_dir in *. rewrite Hd4. exact Hd. }
  exists file, data, comps, ps, w1, w2. eexists.
  split; [reflexivity|]. split; [reflexivity|]. split; [exact Hai|]. split; [exact Hps|].
  split; [reflexivity|]. split.
  - cbn [map]. f_equal; [exact (Hzdoc Hdoc4)|]. f_equal; [exact (Hzren Hren4)|].
    rewrite Hzsvg by exact Hsvgs4.
    rewrite map_map. clear -Hps. induction Hps as [|comp p comps ps Hp _ IH]; [reflexivity|].
    cbn [map]. rewrite IH, (basename_join _ _ (plano_svg_fname_flat _ _ Hp)). reflexivity.
  - cbn [app]. constructor; [left; exact Hren4|]. constructor; [left; exact Hdoc4|].
    apply Forall_app. split; [eapply Forall_impl; [exact Hsvgs4|]; cbn beta; auto|].
    apply Forall_app. split; [exact Hpngs4|].
    eapply Forall_impl; [exact Hdocx|]. cbn beta. intros f Hf. left. exact (Hkeep4 f Hf).
Qed.

(** *** Outline, scale and file names *)

(** C1. For every component the emitter draws, the outline is irregular
    exactly when the descriptor ['svg_path_d'] is present (not null) and
    its trimmed text is longer than 10 characters, and a rectangle
    otherwise; the SVG drawing and the PNG preview both follow this. *)
Theorem outline_rule comp p :
  dibujar_componente comp = Ok p ->
  let irregular :=
    exists v, comp !! "svg_path_d" = Some v /\ v <> PNone
              /\ (10 < length (strip (py_str v)))%nat in
  (irregular ->
     svg_outlines (plano_dwg p) = [Irregular] /\ png_outlines (plano_fig p) = [Irregular]) /\
  (~ irregular ->
     svg_outlines (plano_dwg p) = [Rectangular] /\ png_outlines (plano_fig p) = [Rectangular]).
Proof.
  intros Hp irregular. apply turno_outlines in Hp as (Hsvg & Hpng & _). cbv zeta in Hsvg, Hpng.
  rewrite Hsvg, Hpng. subst irregular. split; intros Hirr.
  - apply spec_irregular_true in Hirr. rewrite Hirr. split; reflexivity.
  - destruct (spec_irregular (comp !! "svg_path_d")) eqn:Hrule; [|split; reflexivity].
    apply spec_irregular_true in Hrule. contradiction.
Qed.

(** C7. A component of length [l] and height [a] (cm) whose drawing the
    emitter saves is drawn [l * 10] wide and [a * 10] high, on a canvas
    100 units larger each way; an irregular outline gets the transform
    [translate(50,50)] followed by [scale(width / 100, height / 100)], a
    rectangle sits at (50, 50) with the drawn width and height; the box
    of the preview, when the figure is built, has the drawn size too. *)
Theorem drawing_scale comp t :
  trazar_svg comp = Ok t ->
  exists dims vl va ve l a w_draw h_draw,
    comp !! "dimensiones_cm" = Some dims /\ unpack3 dims = Ok (vl, va, ve) /\
    as_num vl = Ok l /\ as_num va = Ok a /\
    num_mul l (num_int 10) = Ok w_draw /\ num_mul a (num_int 10) = Ok h_draw /\
    num_add w_draw (num_int 100) = Ok (dwg_width (trazo_dwg t)) /\
    num_add h_draw (num_int 100) = Ok (dwg_height (trazo_dwg t)) /\
    (if spec_irregular (comp !! "svg_path_d") then
       exists scale_x scale_y,
         num_div w_draw (num_int 100) = Ok scale_x /\
         num_div h_draw (num_int 100) = Ok scale_y /\
         svg_transforms (trazo_dwg t) =
           [ [ FLit (lit "translate(50,50) scale("); FVal (PNum scale_x);
               FLit (lit ", "); FVal (PNum scale_y); FLit (lit ")") ] ]
     else svg_rectangles (trazo_dwg t) = [ (50, 50, w_draw, h_draw) ]) /\
    forall fig,
      figura_png (trazo_path_data t) (trazo_w_draw t) (trazo_h_draw t) = Ok fig ->
      map (fun r => (rect_width r, rect_height r)) (fig_patches fig) = [ (w_draw, h_draw) ].
Proof.
  intros Ht. apply trazar_svg_inv in Ht
    as (dims & vl & va & ve & l & a & nombre & material & caption & w_draw & h_draw & y_caption
        & Hdims & Hun & Hl & Ha & _ & _ & Hw & Hh & Hcw & Hch & _ & _ & Htw & Hth & _
        & shape & Hel & Hshape).
  exists dims, vl, va, ve, l, a, w_draw, h_draw.
  do 8 (split; [assumption|]). split.
  - unfold svg_transforms, svg_rectangles. rewrite Hel.
    destruct (spec_irregular (comp !! "svg_path_d")).
    + destruct Hshape as (scale_x & scale_y & Hsx & Hsy & ->).
      exists scale_x, scale_y. auto.
    + rewrite Hshape. reflexivity.
  - intros fig Hfig. rewrite Htw, Hth in Hfig. exact (proj2 (figura_png_inv _ _ _ _ Hfig)).
Qed.

(** C10. The file reference printed in a component's section of the
    manual is the name of the SVG file the emitter wrote for it: both are
    [secure_filename(nombre) + '.svg'].  Here for a whole run: every path
    in the emitter's [svg_files] is a file on disk when the emitter
    returns, in the plans folder, holding the drawing of a component of
    this run with that file name; and the manual saved after the emitter
    lists, in order, the base names of these files. *)
Theorem manual_references_svg_files cfg (comps : list (gmap string (pyval num))) w
    comps' folder svg_files temp_png_files w1 path_render data w2 doc_path docx_png_files w3 :
  generar_planos_vectoriales_svg cfg comps w
    = (Ok (comps', (folder, svg_files, temp_png_files)), w1) ->
  generar_manual_word cfg comps' path_render data w2 = (Ok (doc_path, docx_png_files), w3) ->
  Forall2 (fun comp f =>
             exists nombre,
               comp !! "nombre" = Some (PStr nombre) /\
               f = os_path_join (SVG_FOLDER cfg) (secure_filename nombre ++ lit ".svg") /\
               os_path_basename f = secure_filename nombre ++ lit ".svg" /\
               exists comp0 p0,
                 In comp0 comps /\ dibujar_componente comp0 = Ok p0 /\
                 plano_svg_fname p0 = secure_filename nombre ++ lit ".svg" /\
                 w_files w1 !! f = Some (CSvg (plano_dwg p0)))
          comps svg_files /\
  exists doc,
    w_files w3 !! doc_path = Some (CDocx doc) /\
    map pieza_archivo (doc_piezas doc)
      = map (fun f => [ FLit (lit "Archivo SVG: "); FVal (PStr (os_path_basename f)) ])
            svg_files.
Proof.
  intros Hplanos Hdoc. assert (Hrun := Hplanos).
  apply generar_planos_inv in Hplanos as (ps & Hps & -> & _ & Hcomps' & _).
  split.
  - apply Forall2_fmap_r. apply Forall2_same_length_lookup.
    split; [exact (Forall2_length _ _ _ Hps)|]. intros k comp p Hk Hpk.
    assert (Hp := Forall2_lookup_lr _ _ _ _ _ _ Hps Hk Hpk). cbn beta in Hp.
    destruct (dibujar_componente_nombre _ _ Hp) as (nombre & Hnom & Hsvg & _).
    exists nombre. split; [exact Hnom|]. rewrite <- Hsvg. split; [reflexivity|].
    split; [apply basename_join, (plano_svg_fname_flat _ _ Hp)|].
    destruct (generar_planos_contenido _ _ _ _ _ _ Hps Hrun k p Hpk)
      as (_ & _ & (p0 & Hin0 & Hsame & Hfile) & _).
    destruct (dibujos_In _ _ _ Hps Hin0) as (comp0 & Hin & Hp0).
    exists comp0, p0. auto.
  - apply generar_manual_word_inv in Hdoc as (_ & doc & Hf & _ & _ & _ & Hpiezas & _).
    exists doc. split; [rewrite Hf; apply lookup_insert_eq|].
    revert Hpiezas. generalize (doc_piezas doc). clear Hf doc Hrun.
    revert comps' Hcomps'.
    induction Hps as [|comp p comps ps Hp _ IH]; intros comps' Hcomps' piezas Hpiezas.
    + apply Forall2_nil_inv_r in Hcomps' as ->. apply Forall2_nil_inv_l in Hpiezas as ->.
      reflexivity.
    + cbn [zip zip_with] in Hcomps'.
      apply Forall2_cons_inv_r in Hcomps' as (comp' & rest' & Hcomp' & Hrest' & ->).
      apply Forall2_cons_inv_l in Hpiezas as (s & piezas' & (nombre & Hnom & Hs) & Hpiezas' & ->).
      cbn [map]. rewrite (IH _ Hrest' _ Hpiezas'), Hs. do 3 f_equal.
      rewrite (basename_join _ _ (plano_svg_fname_flat _ _ Hp)).
      cbn [fst snd] in Hcomp'. subst comp'. rewrite lookup_insert_ne in Hnom by discriminate.
      destruct (dibujar_componente_nombre _ _ Hp) as (nombre' & Hnom' & -> & _). congruence.
Qed.

(** *** Plans and previews on disk *)

(** When the emitter returns, a component's drawing is at its SVG path
    and its figure is in the file [savefig] wrote for it, and the two show
    the same kind of outline, unless a later component of the run was
    given the same PNG name. *)
Theorem written_files_agree cfg (comps : list (gmap string (pyval num))) w
    comps' folder svg_files temp_png_files w' :
  generar_planos_vectoriales_svg cfg comps w
    = (Ok (comps', (folder, svg_files, temp_png_files)), w') ->
  exists ps,
    Forall2 (fun comp p => dibujar_componente comp = Ok p) comps ps /\
    svg_files = map (fun p => os_path_join (SVG_FOLDER cfg) (plano_svg_fname p)) ps /\
    temp_png_files = map (fun p => os_path_join (TEMP_FOLDER cfg) (plano_png_fname p)) ps /\
    forall k comp p, comps !! k = Some comp -> ps !! k = Some p ->
      (forall j p', (k < j)%nat -> ps !! j = Some p' ->
         plano_png_fname p' <> plano_png_fname p) ->
      exists target dwg fig,
        savefig_path (os_path_join (TEMP_FOLDER cfg) (plano_png_fname p)) = Ok target /\
        w_files w' !! os_path_join (SVG_FOLDER cfg) (plano_svg_fname p) = Some (CSvg dwg) /\
        w_files w' !! target = Some (CPng fig) /\
        svg_outlines dwg = [outline_of (spec_irregular (comp !! "svg_path_d"))] /\
        png_outlines fig = [outline_of (spec_irregular (comp !! "svg_path_d"))] /\
        length (svg_transforms dwg)
          = (if spec_irregular (comp !! "svg_path_d") then 1 else 0)%nat /\
        length (svg_rectangles dwg)
          = (if spec_irregular (comp !! "svg_path_d") then 0 else 1)%nat.
Proof.
  intros Hrun. assert (Hinv := Hrun).
  apply generar_planos_inv in Hinv as (ps & Hps & -> & -> & _).
  exists ps. split; [exact Hps|]. split; [reflexivity|]. split; [reflexivity|].
  intros k comp p Hk Hpk Hlater.
  assert (Hp := Forall2_lookup_lr _ _ _ _ _ _ Hps Hk Hpk). cbn beta in Hp.
  destruct (generar_planos_contenido _ _ _ _ _ _ Hps Hrun k p Hpk) as (Hsvg & Hpng & _ & _).
  destruct (Hpng Hlater) as (target & Htarget & Hfig).
  exists target, (plano_dwg p), (plano_fig p). split; [exact Htarget|]. split.
  - apply Hsvg. intros j p' Hj Hpj Hsame. apply (Hlater j p' Hj Hpj).
    assert (Hp' : exists comp', dibujar_componente comp' = Ok p').
    { destruct (Forall2_lookup_r _ _ _ _ _ Hps Hpj) as (comp' & _ & Hp'). eauto. }
    destruct Hp' as [comp' Hp'].
    apply dibujar_componente_inv in Hp as (t & _ & _ & Ht & _ & ->).
    apply dibujar_componente_inv in Hp' as (t' & _ & _ & Ht' & _ & ->).
    congruence.
  - split; [exact Hfig|]. exact (turno_outlines _ _ Hp).
Qed.

(** *** The BOM adapter *)

(** C5. Without an API key the adapter returns exactly one record, the
    configuration-error sentinel with quantity 0, and leaves the world as
    it found it: no call to the service is logged. *)
Theorem missing_key_sentinel cfg (svc : ai_service num) data path_render w :
  api_key_missing (GEMINI_API_KEY cfg) = true ->
  analizar_y_generar_desglose cfg svc data path_render w = (Ok [error_config], w) /\
  error_config (num := num) !! "nombre" = Some (PStr (lit "Error Config")) /\
  error_config (num := num) !! "cantidad_unidades" = Some (PNum (num_int 0)).
Proof.
  intros Hkey. unfold analizar_y_generar_desglose. rewrite Hkey.
  split; [reflexivity|]. split; reflexivity.
Qed.

(** C6. With a key configured, if anything in the [try] block raises (the
    client, the upload, the prompt, the model call or the parsing of its
    answer) the adapter still returns, and returns exactly one record:
    the base-panel fallback with quantity 1. *)
Theorem ai_failure_fallback cfg (svc : ai_service num) data path_render w :
  api_key_missing (GEMINI_API_KEY cfg) = false ->
  svc_client svc = false \/ svc_upload svc = None \/ (exists e, user_prompt data = Raise e)
  \/ svc_generate svc = None \/ svc_generate svc = Some None ->
  (exists w', analizar_y_generar_desglose cfg svc data path_render w
              = (Ok [muro_base_fallback], w')) /\
  muro_base_fallback (num := num) !! "nombre" = Some (PStr (lit "Muro Base (Fallback)")) /\
  muro_base_fallback (num := num) !! "cantidad_unidades" = Some (PNum (num_int 1)).
Proof.
  intros Hkey Hfail. split; [|split; reflexivity].
  unfold analizar_y_generar_desglose, consultar_modelo, borrar_remoto.
  unfold io_finally, io_catch, log_call, io_raise, io_lift.
  unfold mbind, io_mbind, io_bind, mret, io_mret, io_ret. rewrite Hkey.
  destruct (svc_client svc); [|eauto].
  destruct (svc_upload svc); [|eauto].
  destruct (user_prompt data) as [prompt|e]; [|destruct (svc_delete svc); eauto].
  destruct Hfail as [Hf|[Hf|[[e Hf]|[Hf|Hf]]]]; try discriminate Hf;
    rewrite Hf; destruct (svc_delete svc); eauto.
Qed.

(** C8, as the code has it.  The sentinel and the fallback follow one
    field convention: both carry the same six fields, and both carry
    fabrication notes. *)
Theorem sentinel_and_fallback_fields :
  dom (error_config (num := num)) = dom (muro_base_fallback (num := num)) /\
  size (error_config (num := num)) = 6%nat /\
  (exists nota, error_config (num := num) !! "notas_fabricacion" = Some (PStr nota)) /\
  (exists nota, muro_base_fallback (num := num) !! "notas_fabricacion" = Some (PStr nota)).
Proof.
  split; [|split; [|split; eexists; reflexivity]].
  - unfold error_config, muro_base_fallback. rewrite !dom_list_to_map_L. reflexivity.
  - unfold error_config. cbn [list_to_map foldr fst snd uncurry].
    rewrite !map_size_insert_None, map_size_empty; reflexivity.
Qed.

(** *** The 3D generator *)

(** One turn of the loop that returns: the cube is named after the
    component, scaled to its dimensions in metres, has its lower face at
    the [z_offset] it was given, and the next [z_offset] is that plus the
    component's thickness. *)
Lemma cubo_inv i (z_offset : num) comp obj z_offset' :
  cubo i z_offset comp = Ok (obj, z_offset') ->
  comp !! "nombre" = Some (obj_name obj) /\
  escala_m comp = Ok (obj_scale obj) /\
  base_en obj z_offset /\
  exists e, espesor_m comp = Ok e /\ num_add z_offset e = Ok z_offset'.
Proof.
  unfold cubo, escala_m, espesor_m, base_en. intros Hc.
  apply bind_Ok in Hc as (dims & Hdims & Hc). rewrite Hdims. cbn [mbind result_bind].
  apply bind_Ok in Hc as ([[vl va] ve] & Hun & Hc). rewrite Hun. cbn [mbind result_bind].
  apply bind_Ok in Hc as (l & Hl & Hc). rewrite Hl.
  apply bind_Ok in Hc as (sx & Hsx & Hc). cbn [mbind result_bind]. rewrite Hsx.
  apply bind_Ok in Hc as (a & Ha & Hc). cbn [mbind result_bind]. rewrite Ha.
  apply bind_Ok in Hc as (sy & Hsy & Hc). cbn [mbind result_bind]. rewrite Hsy.
  apply bind_Ok in Hc as (e & He & Hc). cbn [mbind result_bind]. rewrite He.
  apply bind_Ok in Hc as (sz & Hsz & Hc). cbn [mbind result_bind]. rewrite Hsz.
  apply bind_Ok in Hc as (half & Hhalf & Hc).
  apply bind_Ok in Hc as (z & Hz & Hc).
  apply bind_Ok in Hc as (z' & Hz' & Hc).
  apply bind_Ok in Hc as (nombre & Hnom & Hc). apply subscript_Ok in Hnom.
  apply bind_Ok in Hc as (material & _ & Hc).
  apply bind_Ok in Hc as (red & _ & Hc).
  apply bind_Ok in Hc as (green & _ & Hc).
  injection Hc as <- <-. cbn [obj_name obj_scale obj_location snd mret result_ret].
  split; [exact Hnom|]. split; [reflexivity|]. split; eauto.
Qed.

(** The loop from any index and any starting height. *)
Lemma cubos_apilados i (z_offset : num) (comps : list (gmap string (pyval num))) objs :
  cubos i z_offset comps = Ok objs ->
  length objs = length comps /\
  forall k comp, comps !! k = Some comp ->
    exists obj b,
      objs !! k = Some obj /\
      comp !! "nombre" = Some (obj_name obj) /\
      escala_m comp = Ok (obj_scale obj) /\
      apilar z_offset (take k comps) = Ok b /\
      base_en obj b.
Proof.
  revert i z_offset objs. induction comps as [|comp rest IH]; intros i z_offset objs Hobjs.
  - injection Hobjs as <-. split; [reflexivity|]. intros k comp Hk. discriminate Hk.
  - cbn [cubos] in Hobjs.
    apply bind_Ok in Hobjs as ([obj z_offset'] & Hobj & Hobjs).
    apply bind_Ok in Hobjs as (objs' & Hrest & Hobjs). injection Hobjs as <-.
    apply cubo_inv in Hobj as (Hnom & Hscale & Hbase & e & He & Hz').
    apply IH in Hrest as [Hlen Hrest].
    split; [cbn [length]; congruence|].
    intros [|k] comp' Hk.
    + injection Hk as <-. exists obj, z_offset. auto.
    + cbn [lookup list_lookup] in Hk.
      destruct (Hrest k comp' Hk) as (obj' & b & Hk' & Hnom' & Hscale' & Hb & Hbase').
      exists obj', b. do 3 (split; [assumption|]). split; [|exact Hbase'].
      cbn [take apilar]. rewrite He. cbn [mbind result_bind]. rewrite Hz'. exact Hb.
Qed.

(** C9. When the generator builds the scene for a JSON list of component
    records, it has one box per component, in input order and under the
    component's name, scaled by each dimension divided by 100, and stacked
    along z: the lower face of each box is at the sum of the thicknesses,
    in metres, of the components before it. *)
Theorem boxes_stacked (comps : list (gmap string (pyval num))) objs :
  generate_3d_model comps = Ok objs ->
  length objs = length comps /\
  forall k comp, comps !! k = Some comp ->
    exists obj b,
      objs !! k = Some obj /\
      comp !! "nombre" = Some (obj_name obj) /\
      escala_m comp = Ok (obj_scale obj) /\
      suma_espesores (take k comps) = Ok b /\
      base_en obj b.
Proof. exact (cubos_apilados 0 (num_int 0) comps objs). Qed.

(** *** The archive *)

(** C4, as the code has it.  A successful response is the attachment
    [Proyecto_Produccion.zip] of type [application/zip]; its members are,
    in order, [Manual_Produccion.docx], the render under the fixed name
    [Render_Original.jpg], and one [Planos_Corte/<name>.svg] per component
    returned by the adapter, [<name>] being [secure_filename] of the
    component's name. *)
Theorem zip_contents cfg (svc : ai_service num) req w mimetype as_attachment download_name zip w' :
  generar_manual cfg svc req w = (Ok (SendFile mimetype as_attachment download_name zip), w') ->
  mimetype = lit "application/zip" /\ as_attachment = true /\
  download_name = lit "Proyecto_Produccion.zip" /\
  exists file data comps w1 w2,
    req_render req = Some file /\ req_data req = Some (Some data) /\
    analizar_y_generar_desglose cfg svc data
      (os_path_join (UPLOAD_FOLDER cfg) (secure_filename (up_filename file))) w1
      = (Ok comps, w2) /\
    exists nombres,
      Forall2 (fun comp nombre => comp !! "nombre" = Some (PStr nombre)) comps nombres /\
      map fst zip
        = lit "Manual_Produccion.docx" :: lit "Render_Original.jpg"
          :: map (fun nombre => lit "Planos_Corte/" ++ secure_filename nombre ++ lit ".svg")
                 nombres.
Proof.
  unfold generar_manual. intros Hrun.
  destruct (generar_manual_try cfg svc req w) as [[[resp temp_files]|e] w0] eqn:Htry.
  - destruct (limpieza cfg temp_files w0) as [[u|e] w1]; [|discriminate Hrun].
    injection Hrun as -> _.
    apply generar_manual_try_Ok in Htry
      as (file & data & comps & ps & w1' & w2 & zip' & Hfile & Hdata & Hai & Hps & Hresp & Hzip & _).
    injection Hresp as -> -> -> ->.
    split; [reflexivity|]. split; [reflexivity|]. split; [reflexivity|].
    exists file, data, comps, w1', w2.
    split; [exact Hfile|]. split; [exact Hdata|]. split; [exact Hai|].
    rewrite Hzip.
    assert (Hnames : exists nombres,
      Forall2 (fun comp nombre => comp !! "nombre" = Some (PStr nombre)) comps nombres /\
      map (fun p => lit "Planos_Corte/" ++ plano_svg_fname p) ps
        = map (fun nombre => lit "Planos_Corte/" ++ secure_filename nombre ++ lit ".svg")
              nombres).
    { clear -Hps. induction Hps as [|comp p comps ps Hp _ (nombres & Hnom & IH)].
      - exists []. split; [constructor|reflexivity].
      - apply dibujar_componente_nombre in Hp as (nombre & Hnombre & Hfname & _).
        exists (nombre :: nombres). split; [constructor; assumption|].
        cbn [map]. rewrite Hfname, IH. reflexivity. }
    destruct Hnames as (nombres & Hnom & ->). exists nombres. split; [exact Hnom|reflexivity].
  - destruct (limpieza cfg [] w0) as [[u|e'] w1]; discriminate Hrun.
Qed.

(** *** Files that survive a computation *)

Lemma keeps_ret {A} q (a : A) : keeps q (mret a : io num A).
Proof. intros w r w' [= _ <-]. auto. Qed.

Lemma keeps_lift {A} q (r : result A) : keeps q (io_lift r : io num A).
Proof. intros w r' w' [= _ <-]. auto. Qed.

Lemma keeps_bind {A B} q (m : io num A) (k : A -> io num B) :
  keeps q m -> (forall a, keeps q (k a)) -> keeps q (m ≫= k).
Proof.
  intros Hm Hk w r w'. unfold mbind, io_mbind, io_bind.
  destruct (m w) as [[a|e] w1] eqn:Hmw.
  - intros Hka Hq. exact (Hk a _ _ _ Hka (Hm _ _ _ Hmw Hq)).
  - intros [= _ <-] Hq. exact (Hm _ _ _ Hmw Hq).
Qed.

Lemma keeps_catch {A} q (m : io num A) (handler : pyexc -> io num A) :
  keeps q m -> (forall e, keeps q (handler e)) -> keeps q (io_catch m handler).
Proof.
  intros Hm Hh w r w'. unfold io_catch. destruct (m w) as [[a|e] w1] eqn:Hmw.
  - intros [= _ <-] Hq. exact (Hm _ _ _ Hmw Hq).
  - intros Hhe Hq. exact (Hh e _ _ _ Hhe (Hm _ _ _ Hmw Hq)).
Qed.

Lemma keeps_finally {A} q (m : io num A) (cleanup : io num unit) :
  keeps q m -> keeps q cleanup -> keeps q (io_finally m cleanup).
Proof.
  intros Hm Hc w r w'. unfold io_finally. destruct (m w) as [r1 w1] eqn:Hmw.
  destruct (cleanup w1) as [[u|e] w2] eqn:Hcw; intros [= _ <-] Hq;
    exact (Hc _ _ _ Hcw (Hm _ _ _ Hmw Hq)).
Qed.

Lemma keeps_foreach {A} q (f : A -> io num unit) (l : list A) :
  (forall x, keeps q (f x)) -> keeps q (io_foreach f l).
Proof.
  intros Hf. induction l as [|x l IH]; cbn [io_foreach].
  - apply (keeps_ret q tt).
  - apply (keeps_bind q (f x) (fun _ => io_foreach f l)); [apply Hf|intros _; exact IH].
Qed.

Lemma keeps_os_path_exists q path : keeps q (os_path_exists path : io num bool).
Proof. intros w r w' [= _ <-]. auto. Qed.

Lemma keeps_log_call q c : keeps q (log_call c : io num unit).
Proof. intros w r w' [= _ <-]. auto. Qed.

Lemma keeps_add_picture q path : keeps q (add_picture path : io num unit).
Proof.
  intros w r w'. unfold add_picture.
  destruct (w_files w !! path) as [[[|]| | |]|]; intros [= _ <-]; auto.
Qed.

Lemma keeps_write_file q path c : keeps q (write_file path c : io num unit).
Proof.
  intros w r w'. unfold write_file.
  destruct (_ || _); [intros [= _ <-]; auto|].
  destruct (_ || _); intros [= _ <-]; [|auto].
  intros Hq. erewrite is_file_insert by reflexivity. rewrite Hq. apply orb_true_r.
Qed.

Lemma keeps_os_makedirs q d : keeps q (os_makedirs d : io num unit).
Proof.
  intros w r w'. unfold os_makedirs. destruct (existsb _ _); intros [= _ <-]; auto.
Qed.

Lemma keeps_shutil_rmtree q d :
  path_within d q = false -> keeps q (shutil_rmtree d : io num unit).
Proof.
  intros Hout w r w' Hrm Hq. destruct r as [u|e].
  - apply shutil_rmtree_Ok in Hrm as (Hrm & _). rewrite (Hrm q Hout). exact Hq.
  - unfold shutil_rmtree in Hrm. destruct (is_dir d w); [discriminate Hrm|].
    injection Hrm as _ <-. exact Hq.
Qed.

Lemma keeps_rmtree_si_existe q d :
  path_within d q = false -> keeps q (rmtree_si_existe d : io num unit).
Proof.
  intros Hout. unfold rmtree_si_existe. apply keeps_bind; [apply keeps_os_path_exists|].
  intros [|]; [apply keeps_shutil_rmtree, Hout|apply (keeps_ret q tt)].
Qed.

Lemma keeps_zf_write q path arcname : keeps q (zf_write path arcname : io num _).
Proof.
  intros w r w'. unfold zf_write. destruct (w_files w !! path); [intros [= _ <-]; auto|].
  destruct (is_dir path w); intros [= _ <-]; auto.
Qed.

Lemma keeps_zf_write_all q (svg_files : list pystr) : keeps q (zf_write_all svg_files : io num _).
Proof.
  induction svg_files as [|svg rest IH]; cbn [zf_write_all].
  - apply keeps_ret.
  - apply keeps_bind; [apply keeps_zf_write|]. intros m.
    apply keeps_bind; [exact IH|]. intros ms. apply keeps_ret.
Qed.

Ltac keeps_auto :=
  repeat first
    [ apply keeps_ret | apply keeps_lift | apply keeps_log_call | apply keeps_os_path_exists
    | apply keeps_add_picture | apply keeps_write_file | apply keeps_os_makedirs
    | apply keeps_zf_write | apply keeps_zf_write_all
    | (apply keeps_shutil_rmtree; assumption)
    | (apply keeps_rmtree_si_existe; assumption)
    | (apply keeps_bind; [|intros ?])
    | (apply keeps_catch; [|intros ?])
    | apply keeps_finally
    | match goal with
      | |- keeps _ (match ?x with _ => _ end) => destruct x
      end ].

Lemma keeps_analizar q cfg (svc : ai_service num) data path_render :
  keeps q (analizar_y_generar_desglose cfg svc data path_render).
Proof.
  unfold analizar_y_generar_desglose, consultar_modelo, borrar_remoto, io_raise. keeps_auto.
Qed.

Lemma keeps_planos_loop q svg_folder png_folder (comps : list (gmap string (pyval num))) :
  keeps q (planos_loop svg_folder png_folder comps).
Proof.
  induction comps as [|comp rest IH]; cbn [planos_loop]; [keeps_auto|].
  apply keeps_bind; [keeps_auto|]. intros p.
  apply keeps_bind; [keeps_auto|]. intros _.
  apply keeps_bind; [keeps_auto|]. intros _.
  apply keeps_bind; [exact IH|]. intros [[rest' svgs] pngs]. keeps_auto.
Qed.

Lemma keeps_generar_planos q cfg (comps : list (gmap string (pyval num))) :
  path_within (SVG_FOLDER cfg) q = false ->
  keeps q (generar_planos_vectoriales_svg cfg comps).
Proof.
  intros Hout. unfold generar_planos_vectoriales_svg.
  apply keeps_bind; [keeps_auto|]. intros ex.
  apply keeps_bind; [keeps_auto|]. intros _.
  apply keeps_bind; [keeps_auto|]. intros _.
  apply keeps_bind; [apply keeps_planos_loop|]. intros [[comps' svgs] pngs]. keeps_auto.
Qed.

Lemma keeps_secciones_loop q i (comps : list (gmap string (pyval num))) :
  keeps q (secciones_loop i comps).
Proof.
  revert i. induction comps as [|comp rest IH]; intros i; cbn [secciones_loop]; [keeps_auto|].
  apply keeps_bind; [unfold seccion_de, celda_imagen, io_raise; keeps_auto|]. intros s.
  apply keeps_bind; [apply IH|]. intros ss. keeps_auto.
Qed.

Lemma keeps_generar_manual_word q cfg (comps : list (gmap string (pyval num))) path_render data :
  keeps q (generar_manual_word cfg comps path_render data).
Proof.
  unfold generar_manual_word.
  do 6 (apply keeps_bind; [keeps_auto|intros ?]).
  apply keeps_bind; [apply keeps_secciones_loop|]. intros piezas. keeps_auto.
Qed.


(** Once [file.save] has written the upload, the rest of the [try] block
    never removes it, however the block ends. *)
Lemma try_block_keeps_upload cfg (svc : ai_service num) req w file w1 r w0 :
  req_render req = Some file ->
  let path_render := os_path_join (UPLOAD_FOLDER cfg) (secure_filename (up_filename file)) in
  write_file path_render (CUpload (up_is_image file)) w = (Ok tt, w1) ->
  generar_manual_try cfg svc req w = (r, w0) ->
  is_file path_render w0 = true.
Proof.
  intros Hreq path_render Hsave. unfold generar_manual_try.
  rewrite io_bind_run, Hreq. unfold io_lift at 1. fold path_render.
  rewrite io_bind_run, Hsave.
  assert (Hout := render_fuera_de_planos cfg _ (secure_filename_flat (up_filename file))).
  fold path_render in Hout.
  match goal with
  | |- ?K w1 = _ -> _ => assert (Hk : keeps path_render K)
  end.
  { apply keeps_bind; [keeps_auto|]. intros data.
    apply keeps_bind; [apply keeps_analizar|]. intros comps.
    apply keeps_bind; [apply keeps_generar_planos, Hout|]. intros [comps' [[folder svgs] pngs]].
    apply keeps_bind; [apply keeps_generar_manual_word|]. intros [doc_path docx_pngs].
    keeps_auto. }
  intros Htry. apply (Hk _ _ _ Htry).
  apply write_file_Ok in Hsave as (Hf & _). rewrite (is_file_insert _ _ _ _ _ Hf).
  rewrite (bool_decide_eq_true_2 (_ = _) eq_refl). reflexivity.
Qed.

(** *** Well-formedness of the disk across a computation *)

Lemma keeps_wf_ret {A} (a : A) : keeps_wf (mret a : io num A).
Proof. intros w r w' [= _ <-]. auto. Qed.

Lemma keeps_wf_lift {A} (r : result A) : keeps_wf (io_lift r : io num A).
Proof. intros w r' w' [= _ <-]. auto. Qed.

Lemma keeps_wf_bind {A B} (m : io num A) (k : A -> io num B) :
  keeps_wf m -> (forall a, keeps_wf (k a)) -> keeps_wf (m ≫= k).
Proof.
  intros Hm Hk w r w'. unfold mbind, io_mbind, io_bind.
  destruct (m w) as [[a|e] w1] eqn:Hmw.
  - intros Hka Hwf. exact (Hk a _ _ _ Hka (Hm _ _ _ Hmw Hwf)).
  - intros [= _ <-] Hwf. exact (Hm _ _ _ Hmw Hwf).
Qed.

Lemma keeps_wf_catch {A} (m : io num A) (handler : pyexc -> io num A) :
  keeps_wf m -> (forall e, keeps_wf (handler e)) -> keeps_wf (io_catch m handler).
Proof.
  intros Hm Hh w r w'. unfold io_catch. destruct (m w) as [[a|e] w1] eqn:Hmw.
  - intros [= _ <-] Hwf. exact (Hm _ _ _ Hmw Hwf).
  - intros Hhe Hwf. exact (Hh e _ _ _ Hhe (Hm _ _ _ Hmw Hwf)).
Qed.

Lemma keeps_wf_finally {A} (m : io num A) (cleanup : io num unit) :
  keeps_wf m -> keeps_wf cleanup -> keeps_wf (io_finally m cleanup).
Proof.
  intros Hm Hc w r w'. unfold io_finally. destruct (m w) as [r1 w1] eqn:Hmw.
  destruct (cleanup w1) as [[u|e] w2] eqn:Hcw; intros [= _ <-] Hwf;
    exact (Hc _ _ _ Hcw (Hm _ _ _ Hmw Hwf)).
Qed.

Lemma keeps_wf_os_path_exists path : keeps_wf (os_path_exists path : io num bool).
Proof. intros w r w' [= _ <-]. auto. Qed.

Lemma keeps_wf_log_call c : keeps_wf (log_call c : io num unit).
Proof. intros w r w' [= _ <-]. auto. Qed.

Lemma keeps_wf_add_picture path : keeps_wf (add_picture path : io num unit).
Proof.
  intros w r w'. unfold add_picture.
  destruct (w_files w !! path) as [[[|]| | |]|]; intros [= _ <-]; auto.
Qed.

Lemma keeps_wf_zf_write path arcname : keeps_wf (zf_write path arcname : io num _).
Proof.
  intros w r w'. unfold zf_write. destruct (w_files w !! path); [intros [= _ <-]; auto|].
  destruct (is_dir path w); intros [= _ <-]; auto.
Qed.

Lemma keeps_wf_write_file path c : keeps_wf (write_file path c : io num unit).
Proof.
  intros w r w' Hwr Hwf. destruct r as [u|e].
  - apply write_file_Ok in Hwr as (Hf & Hd & _ & Hnd). intros q.
    rewrite (is_file_insert _ _ _ _ _ Hf). unfold is_dir in *. rewrite Hd.
    destruct (bool_decide_reflect (q = path)) as [->|_]; [intros _; exact Hnd|apply Hwf].
  - unfold write_file in Hwr. destruct (_ || _); [injection Hwr as _ <-; exact Hwf|].
    destruct (_ || _); [discriminate Hwr|]. injection Hwr as _ <-. exact Hwf.
Qed.

Lemma keeps_wf_os_makedirs d : keeps_wf (os_makedirs d : io num unit).
Proof.
  intros w r w'. unfold os_makedirs.
  destruct (existsb _ _) eqn:Hex; intros [= _ <-] Hwf; [exact Hwf|].
  intros q Hq. unfold is_file, is_dir in *. cbn [w_files w_dirs] in *.
  apply bool_decide_eq_false_2. intros Hin. apply elem_of_union in Hin as [Hin|Hin].
  - apply elem_of_list_to_set in Hin. apply list_elem_of_In in Hin.
    assert (Hfalse : existsb (fun p => is_file p w) (ancestors d ++ [d]) = true).
    { apply existsb_exists. exists q. split; [exact Hin|exact Hq]. }
    unfold is_file in Hfalse. congruence.
  - specialize (Hwf q Hq). apply bool_decide_eq_false in Hwf. contradiction.
Qed.

Lemma keeps_wf_shutil_rmtree d : keeps_wf (shutil_rmtree d : io num unit).
Proof.
  intros w r w' Hrm Hwf. destruct r as [u|e].
  - apply shutil_rmtree_Ok in Hrm as (_ & _ & _ & Hfiles & Hdirs & _). intros q Hq.
    destruct (is_dir q w') eqn:Hd; [|reflexivity].
    specialize (Hdirs q Hd). rewrite (Hwf q (Hfiles q Hq)) in Hdirs. discriminate Hdirs.
  - unfold shutil_rmtree in Hrm. destruct (is_dir d w); [discriminate Hrm|].
    injection Hrm as _ <-. exact Hwf.
Qed.

Ltac keeps_wf_auto :=
  repeat first
    [ apply keeps_wf_ret | apply keeps_wf_lift | apply keeps_wf_log_call
    | apply keeps_wf_os_path_exists | apply keeps_wf_add_picture | apply keeps_wf_write_file
    | apply keeps_wf_os_makedirs | apply keeps_wf_shutil_rmtree | apply keeps_wf_zf_write
    | (apply keeps_wf_bind; [|intros ?])
    | (apply keeps_wf_catch; [|intros ?])
    | apply keeps_wf_finally
    | match goal with
      | |- keeps_wf (match ?x with _ => _ end) => destruct x
      end ].

Lemma keeps_wf_planos_loop svg_folder png_folder (comps : list (gmap string (pyval num))) :
  keeps_wf (planos_loop svg_folder png_folder comps).
Proof.
  induction comps as [|comp rest IH]; cbn [planos_loop]; [keeps_wf_auto|].
  do 3 (apply keeps_wf_bind; [keeps_wf_auto|intros ?]).
  apply keeps_wf_bind; [exact IH|]. intros [[rest' svgs] pngs]. keeps_wf_auto.
Qed.

Lemma keeps_wf_secciones_loop i (comps : list (gmap string (pyval num))) :
  keeps_wf (secciones_loop i comps).
Proof.
  revert i. induction comps as [|comp rest IH]; intros i; cbn [secciones_loop]; [keeps_wf_auto|].
  apply keeps_wf_bind; [unfold seccion_de, celda_imagen, io_raise; keeps_wf_auto|]. intros s.
  apply keeps_wf_bind; [apply IH|]. intros ss. keeps_wf_auto.
Qed.

Lemma keeps_wf_zf_write_all (svg_files : list pystr) :
  keeps_wf (zf_write_all svg_files : io num _).
Proof.
  induction svg_files as [|svg rest IH]; cbn [zf_write_all]; [keeps_wf_auto|].
  apply keeps_wf_bind; [keeps_wf_auto|]. intros m.
  apply keeps_wf_bind; [exact IH|]. intros ms. keeps_wf_auto.
Qed.

(** The [try] block of the endpoint leaves a well-formed disk well-formed. *)
Lemma keeps_wf_generar_manual_try cfg (svc : ai_service num) req :
  keeps_wf (generar_manual_try cfg svc req).
Proof.
  unfold generar_manual_try.
  do 3 (apply keeps_wf_bind; [keeps_wf_auto|intros ?]).
  apply keeps_wf_bind.
  { unfold analizar_y_generar_desglose, consultar_modelo, borrar_remoto, io_raise.
    keeps_wf_auto. }
  intros comps. apply keeps_wf_bind.
  { unfold generar_planos_vectoriales_svg.
    do 3 (apply keeps_wf_bind; [keeps_wf_auto|intros ?]).
    apply keeps_wf_bind; [apply keeps_wf_planos_loop|]. intros [[comps' svgs] pngs].
    keeps_wf_auto. }
  intros [comps' [[folder svgs] pngs]]. apply keeps_wf_bind.
  { unfold generar_manual_word.
    do 6 (apply keeps_wf_bind; [keeps_wf_auto|intros ?]).
    apply keeps_wf_bind; [apply keeps_wf_secciones_loop|]. intros piezas. keeps_wf_auto. }
  intros [doc_path docx_pngs].
  do 2 (apply keeps_wf_bind; [keeps_wf_auto|intros ?]).
  apply keeps_wf_bind; [apply keeps_wf_zf_write_all|]. intros ms. keeps_wf_auto.
Qed.

(** *** The [finally] block *)

Lemma borrar_temporal_run f w (r : result unit) w' :
  borrar_temporal f w = (r, w') ->
  r = Ok tt /\ is_file f w' = false /\
  (forall q, is_file q w' = true -> is_file q w = true) /\ w_dirs w' = w_dirs w.
Proof.
  unfold borrar_temporal. rewrite io_bind_run. unfold os_path_exists.
  destruct (is_file f w || is_dir f w) eqn:Hex.
  - unfold io_catch, os_remove. destruct (is_file f w) eqn:Hf.
    + intros [= <- <-]. unfold is_file. cbn [w_files w_dirs].
      split; [reflexivity|]. split; [rewrite lookup_delete_eq; reflexivity|].
      split; [|reflexivity]. intros q. destruct (decide (f = q)) as [<-|Hne].
      * rewrite lookup_delete_eq. discriminate.
      * rewrite lookup_delete_ne by exact Hne. auto.
    + intros [= <- <-]. auto.
  - apply orb_false_elim in Hex as [Hf _]. intros [= <- <-]. auto.
Qed.

Lemma borrar_temporales_run (temp_files : list pystr) w (r : result unit) w' :
  io_foreach borrar_temporal temp_files w = (r, w') ->
  r = Ok tt /\ Forall (fun f => is_file f w' = false) temp_files /\
  (forall q, is_file q w' = true -> is_file q w = true) /\ w_dirs w' = w_dirs w.
Proof.
  revert w. induction temp_files as [|f rest IH]; intros w; cbn [io_foreach].
  - intros [= <- <-]. auto.
  - unfold io_bind. destruct (borrar_temporal f w) as [r1 w1] eqn:Hf.
    apply borrar_temporal_run in Hf as (-> & Hgone & Hfiles & Hdirs).
    intros Hrest. apply IH in Hrest as (-> & Hall & Hfiles' & Hdirs').
    split; [reflexivity|]. split; [|split; [auto|congruence]].
    constructor; [|exact Hall].
    destruct (is_file f w') eqn:Hf'; [|reflexivity].
    rewrite (Hfiles' f Hf') in Hgone. discriminate Hgone.
Qed.

Lemma rmtree_si_existe_Ok d w u w' :
  rmtree_si_existe d w = (Ok u, w') ->
  absent d w' /\
  (forall q, is_file q w' = true -> is_file q w = true) /\
  (forall q, is_dir q w' = true -> is_dir q w = true).
Proof.
  unfold rmtree_si_existe. rewrite io_bind_run. unfold os_path_exists.
  destruct (is_file d w || is_dir d w) eqn:Hex.
  - intros Hrm. apply shutil_rmtree_Ok in Hrm as (_ & Hf & Hd & Hfiles & Hdirs & _).
    split; [split; assumption|auto].
  - intros [= _ <-]. apply orb_false_elim in Hex. auto.
Qed.

Lemma absent_mono p w w' :
  (forall q, is_file q w' = true -> is_file q w = true) ->
  (forall q, is_dir q w' = true -> is_dir q w = true) ->
  absent p w -> absent p w'.
Proof.
  intros Hfiles Hdirs [Hf Hd]. split.
  - destruct (is_file p w') eqn:E; [|reflexivity]. rewrite (Hfiles p E) in Hf. discriminate.
  - destruct (is_dir p w') eqn:E; [|reflexivity]. rewrite (Hdirs p E) in Hd. discriminate.
Qed.

(** When the [finally] block returns, both scratch folders are gone, no
    listed path is a file any more, and nothing was created. *)
Lemma limpieza_Ok cfg (temp_files : list pystr) w u w' :
  limpieza cfg temp_files w = (Ok u, w') ->
  absent (SVG_FOLDER cfg) w' /\ absent (TEMP_FOLDER cfg) w' /\
  Forall (fun f => is_file f w' = false) temp_files /\
  (forall q, is_dir q w' = true -> is_dir q w = true).
Proof.
  unfold limpieza. rewrite io_bind_run.
  destruct (io_foreach borrar_temporal temp_files w) as [r1 w1] eqn:Hloop.
  apply borrar_temporales_run in Hloop as (-> & Hgone & Hfiles1 & Hdirs1).
  rewrite io_bind_run. destruct (rmtree_si_existe (SVG_FOLDER cfg) w1) as [[u2|e] w2] eqn:Hsvg;
    [|discriminate].
  apply rmtree_si_existe_Ok in Hsvg as (Hasvg & Hfiles2 & Hdirs2).
  intros Htemp. apply rmtree_si_existe_Ok in Htemp as (Hatemp & Hfiles3 & Hdirs3).
  split; [exact (absent_mono _ _ _ Hfiles3 Hdirs3 Hasvg)|]. split; [exact Hatemp|]. split.
  - eapply Forall_impl; [exact Hgone|]. intros f Hf. cbn beta in Hf |- *.
    destruct (is_file f w') eqn:E; [|reflexivity].
    assert (Hf1 := Hfiles2 f (Hfiles3 f E)). congruence.
  - intros q Hq. specialize (Hdirs2 q (Hdirs3 q Hq)). unfold is_dir in *.
    rewrite <- Hdirs1. exact Hdirs2.
Qed.

Lemma keeps_limpieza_nil q cfg :
  path_within (SVG_FOLDER cfg) q = false -> path_within (TEMP_FOLDER cfg) q = false ->
  keeps q (limpieza cfg [] : io num unit).
Proof.
  intros Hsvg Htemp. unfold limpieza. cbn [io_foreach].
  apply keeps_bind; [apply (keeps_ret q tt)|]. intros _.
  apply keeps_bind; [apply keeps_rmtree_si_existe, Hsvg|]. intros _.
  apply keeps_rmtree_si_existe, Htemp.
Qed.

(** *** Cleanup, request by request *)

(** Whenever the endpoint answers (archive or error), the folder of the
    plans and the folder of the previews do not exist afterwards. *)
Theorem scratch_folders_removed cfg (svc : ai_service num) req w resp w' :
  generar_manual cfg svc req w = (Ok resp, w') ->
  absent (SVG_FOLDER cfg) w' /\ absent (TEMP_FOLDER cfg) w'.
Proof.
  unfold generar_manual.
  destruct (generar_manual_try cfg svc req w) as [[[resp0 temp_files]|e] w0].
  - destruct (limpieza cfg temp_files w0) as [[u|e] w1] eqn:Hclean; [|discriminate].
    intros [= _ <-]. apply limpieza_Ok in Hclean as (Hsvg & Htemp & _). auto.
  - destruct (limpieza cfg [] w0) as [[u|e'] w1] eqn:Hclean; [|discriminate].
    intros [= _ <-]. apply limpieza_Ok in Hclean as (Hsvg & Htemp & _). auto.
Qed.

(** After a request answered with the archive, on a disk where no path is
    both file and folder, none of the paths of [temp_files] (render,
    manual, SVG files, PNG previews) is on disk. *)
Theorem temp_files_removed_on_success cfg (svc : ai_service num) req w
    mimetype as_attachment download_name zip w' :
  world_wf w ->
  generar_manual cfg svc req w = (Ok (SendFile mimetype as_attachment download_name zip), w') ->
  Forall (fun f => absent f w') (temp_files_al_final cfg svc req w).
Proof.
  intros Hwf. unfold generar_manual, temp_files_al_final.
  destruct (generar_manual_try cfg svc req w) as [[[resp0 temp_files]|e] w0] eqn:Htry.
  - assert (Hwf0 := keeps_wf_generar_manual_try cfg svc req _ _ _ Htry Hwf).
    apply generar_manual_try_Ok in Htry as (_ & _ & _ & _ & _ & _ & _ & _ & _ & _ & _ & _ & _ & Hfiles).
    destruct (limpieza cfg temp_files w0) as [[u|e] w1] eqn:Hclean; [|discriminate].
    intros [= _ <-]. apply limpieza_Ok in Hclean as (_ & _ & Hgone & Hdirs).
    apply Forall_forall. intros f Hin. split.
    + exact (proj1 (Forall_forall _ _) Hgone f Hin).
    + destruct (is_dir f w1) eqn:Hd; [|reflexivity].
      specialize (Hdirs f Hd).
      destruct (proj1 (Forall_forall _ _) Hfiles f Hin) as [Hfile|[_ Hnodir]].
      * rewrite (Hwf0 f Hfile) in Hdirs. discriminate Hdirs.
      * rewrite Hnodir in Hdirs. discriminate Hdirs.
  - destruct (limpieza cfg [] w0) as [[u|e'] w1]; discriminate.
Qed.

(** After a request answered with the error, [temp_files] was still empty
    when the [finally] block ran, and an upload that [file.save] had
    written is still on disk. *)
Theorem failed_request_leaves_upload cfg (svc : ai_service num) req w file w1 status e w' :
  req_render req = Some file ->
  let path_render := os_path_join (UPLOAD_FOLDER cfg) (secure_filename (up_filename file)) in
  write_file path_render (CUpload (up_is_image file)) w = (Ok tt, w1) ->
  generar_manual cfg svc req w = (Ok (JsonError status e), w') ->
  temp_files_al_final cfg svc req w = [] /\ is_file path_render w' = true.
Proof.
  intros Hreq path_render Hsave. unfold generar_manual, temp_files_al_final.
  destruct (generar_manual_try cfg svc req w) as [[[resp0 temp_files]|e0] w0] eqn:Htry.
  - apply generar_manual_try_Ok in Htry
      as (_ & _ & _ & _ & _ & _ & zip & _ & _ & _ & _ & -> & _).
    destruct (limpieza cfg temp_files w0) as [[u|e1] w2]; discriminate.
  - assert (Hfile := try_block_keeps_upload cfg svc req w file w1 _ _ Hreq Hsave Htry).
    destruct (limpieza cfg [] w0) as [r w2] eqn:Hclean. intros Hrun.
    split; [reflexivity|]. replace w' with w2 by (destruct r; congruence).
    refine (keeps_limpieza_nil _ cfg _ _ _ _ _ Hclean Hfile).
    + apply render_fuera_de_planos, secure_filename_flat.
    + apply render_fuera_de_temp, secure_filename_flat.
Qed.

(** *** The previews folder is a precondition of the emitter *)


Lemma os_makedirs_dirs d w u w' q :
  os_makedirs d w = (Ok u, w') ->
  is_dir q w' = true -> In q (ancestors d ++ [d]) \/ is_dir q w = true.
Proof.
  unfold os_makedirs. destruct (existsb _ _); [discriminate|]. intros [= _ <-].
  unfold is_dir. cbn [w_dirs]. intros Hq. apply bool_decide_eq_true in Hq.
  apply elem_of_union in Hq as [Hq|Hq].
  - left. apply elem_of_list_to_set in Hq. apply list_elem_of_In in Hq. exact Hq.
  - right. apply bool_decide_eq_true_2, Hq.
Qed.


(** [os.makedirs] of the plans folder does not create the previews folder. *)
Lemma makedirs_svg_not_temp cfg :
  ~ In (TEMP_FOLDER cfg) (ancestors (SVG_FOLDER cfg) ++ [SVG_FOLDER cfg]).
Proof.
  intros Hin. apply makedirs_created_prefix in Hin.
  destruct (folders_shape cfg) as (pre & _ & _ & Htemp & Hsvg).
  rewrite Htemp, Hsvg, starts_with_app_same in Hin. discriminate Hin.
Qed.

(** Without the previews folder the emitter cannot write the first PNG:
    it returns only for an empty list of components. *)
Lemma generar_planos_needs_temp cfg (comps : list (gmap string (pyval num))) w r w' :
  is_dir (TEMP_FOLDER cfg) w = false ->
  generar_planos_vectoriales_svg cfg comps w = (Ok r, w') ->
  comps = [].
Proof.
  intros Htemp. unfold generar_planos_vectoriales_svg. intros Hrun.
  apply io_bind_Ok in Hrun as (ex & w1 & Hex & Hrun). apply os_path_exists_inv in Hex as [-> _].
  apply io_bind_Ok in Hrun as (u1 & w2 & Hrm & Hrun).
  apply io_bind_Ok in Hrun as (u2 & w3 & Hmk & Hrun).
  apply io_bind_Ok in Hrun as (r3 & w4 & Hloop & _).
  assert (Htemp2 : is_dir (TEMP_FOLDER cfg) w2 = false).
  { destruct ex.
    - apply shutil_rmtree_Ok in Hrm as (_ & _ & _ & _ & Hdirs & _).
      destruct (is_dir (TEMP_FOLDER cfg) w2) eqn:E; [|reflexivity].
      rewrite (Hdirs _ E) in Htemp. discriminate Htemp.
    - injection Hrm as _ <-. exact Htemp. }
  assert (Htemp3 : is_dir (TEMP_FOLDER cfg) w3 = false).
  { destruct (is_dir (TEMP_FOLDER cfg) w3) eqn:E; [|reflexivity].
    destruct (os_makedirs_dirs _ _ _ _ _ Hmk E) as [Hin|Hdir].
    - destruct (makedirs_svg_not_temp cfg Hin).
    - rewrite Hdir in Htemp2. discriminate Htemp2. }
  destruct comps as [|comp rest]; [reflexivity|]. exfalso.
  cbn [planos_loop] in Hloop. destruct r3 as [[comps' svgs] pngs].
  apply (turno_Ok (SVG_FOLDER cfg) (TEMP_FOLDER cfg) comp
           (fun comp' svg_path png_path =>
              '(rest', svg_files, temp_png_files) ←
                planos_loop (SVG_FOLDER cfg) (TEMP_FOLDER cfg) rest;
              mret (comp' :: rest', svg_path :: svg_files, png_path :: temp_png_files)))
    in Hloop as (p & target & w6 & w7 & Hp & Hsvg & Htarget & Hpng & _).
  apply write_file_Ok in Hsvg as (_ & Hd6 & _).
  apply write_file_parent in Hpng.
  destruct (savefig_path_plano (TEMP_FOLDER cfg) _ _ Hp) as (nombre & name & _ & Hname & Hflat & _).
  assert (target = os_path_join (TEMP_FOLDER cfg) name) as -> by congruence.
  destruct (temp_folder_snoc cfg) as [x Hx]. rewrite Hx in Hpng.
  rewrite dirname_join_snoc in Hpng by (reflexivity || exact Hflat).
  rewrite <- Hx in Hpng. destruct Hpng as [Hlen|Hdir].
  - rewrite Hx, length_app in Hlen. cbn [length] in Hlen. lia.
  - unfold is_dir in *. rewrite Hd6 in Hdir. congruence.
Qed.

(** When the [try] block of the endpoint returns on a disk without the
    previews folder, the archive has two members. *)
Lemma generar_manual_try_sin_temp cfg (svc : ai_service num) req w resp temp_files w' :
  is_dir (TEMP_FOLDER cfg) w = false ->
  generar_manual_try cfg svc req w = (Ok (resp, temp_files), w') ->
  length (zip_names resp) = 2%nat.
Proof.
  intros Htemp. unfold generar_manual_try. intros Htry.
  apply io_bind_Ok in Htry as (file & w0 & Hfile & Htry). apply io_lift_Ok in Hfile as [_ ->].
  apply io_bind_Ok in Htry as (u & w1 & Hsave & Htry).
  apply write_file_Ok in Hsave as (_ & Hd1 & _).
  apply io_bind_Ok in Htry as (data & w1' & Hdata & Htry). apply io_lift_Ok in Hdata as [_ ->].
  apply io_bind_Ok in Htry as (comps & w2 & Hai & Htry).
  destruct (analizar_y_generar_desglose_total cfg svc data
              (os_path_join (UPLOAD_FOLDER cfg) (secure_filename (up_filename file))) w1)
    as (comps0 & w2' & Hai' & _ & Hd2).
  rewrite Hai in Hai'. injection Hai' as <- <-.
  apply io_bind_Ok in Htry as ([comps' [[folder svgs] pngs]] & w3 & Hplanos & Htry).
  assert (Hempty : comps = []).
  { eapply generar_planos_needs_temp; [|exact Hplanos].
    unfold is_dir in *. rewrite Hd2, Hd1. exact Htemp. }
  subst comps. unfold generar_planos_vectoriales_svg in Hplanos.
  apply io_bind_Ok in Hplanos as (ex & w4 & _ & Hplanos).
  apply io_bind_Ok in Hplanos as (u4 & w5 & _ & Hplanos).
  apply io_bind_Ok in Hplanos as (u5 & w6 & _ & Hplanos).
  cbn [planos_loop] in Hplanos. injection Hplanos as <- _ <- _ _.
  apply io_bind_Ok in Htry as ([doc_path docx_pngs] & w7 & _ & Htry).
  apply io_bind_Ok in Htry as (m_doc & w8 & _ & Htry).
  apply io_bind_Ok in Htry as (m_render & w9 & _ & Htry).
  cbn [zf_write_all] in Htry. injection Htry as <- _ _. reflexivity.
Qed.

Lemma generar_manual_sin_temp cfg (svc : ai_service num) req w
    mimetype as_attachment download_name zip w' :
  is_dir (TEMP_FOLDER cfg) w = false ->
  generar_manual cfg svc req w = (Ok (SendFile mimetype as_attachment download_name zip), w') ->
  exists file data w1 w2,
    req_render req = Some file /\ req_data req = Some (Some data) /\
    analizar_y_generar_desglose cfg svc data
      (os_path_join (UPLOAD_FOLDER cfg) (secure_filename (up_filename file))) w1 = (Ok [], w2) /\
    map fst zip = [ lit "Manual_Produccion.docx"; lit "Render_Original.jpg" ].
Proof.
  intros Htemp. unfold generar_manual.
  destruct (generar_manual_try cfg svc req w) as [[[resp temp_files]|e] w0] eqn:Htry.
  - destruct (limpieza cfg temp_files w0) as [[u|e] w1]; [|discriminate].
    intros [= -> _].
    assert (Hlen := generar_manual_try_sin_temp _ _ _ _ _ _ _ Htemp Htry).
    apply generar_manual_try_Ok in Htry
      as (file & data & comps & ps & w1' & w2 & zip' & Hfile & Hdata & Hai & Hps & Hresp & Hzip & _).
    injection Hresp as _ _ _ <-. cbn [zip_names] in Hlen. rewrite Hzip in *.
    destruct ps as [|p ps]; [|cbn [map length] in Hlen; lia].
    apply Forall2_nil_inv_r in Hps as ->. exists file, data, w1', w2. auto.
  - destruct (limpieza cfg [] w0) as [[u|e'] w1]; discriminate.
Qed.

(** The previews folder is created when the module is imported and removed
    by every cleanup, and nothing creates it again.  On a disk without it
    the endpoint returns the archive only when the adapter returned no
    component: the archive then holds the manual and the render, and no
    plan. *)
Theorem no_plans_without_previews_folder cfg (svc : ai_service num) req w
    mimetype as_attachment download_name zip w' :
  is_dir (TEMP_FOLDER cfg) w = false ->
  generar_manual cfg svc req w = (Ok (SendFile mimetype as_attachment download_name zip), w') ->
  map fst zip = [ lit "Manual_Produccion.docx"; lit "Render_Original.jpg" ].
Proof.
  intros Htemp Hrun.
  destruct (generar_manual_sin_temp _ _ _ _ _ _ _ _ _ Htemp Hrun) as (_ & _ & _ & _ & _ & _ & _ & Hzip).
  exact Hzip.
Qed.

(** A response is the archive or the 500 error. *)
Lemma generar_manual_response cfg (svc : ai_service num) req w resp w' :
  generar_manual cfg svc req w = (Ok resp, w') ->
  (exists zip, resp = SendFile (lit "application/zip") true (lit "Proyecto_Produccion.zip") zip)
  \/ (exists e, resp = JsonError 500 e).
Proof.
  unfold generar_manual.
  destruct (generar_manual_try cfg svc req w) as [[[resp0 temp_files]|e] w0] eqn:Htry.
  - destruct (limpieza cfg temp_files w0) as [[u|e] w1]; [|discriminate]. intros [= <- _].
    apply generar_manual_try_Ok in Htry as (_ & _ & _ & _ & _ & _ & zip & _ & _ & _ & _ & -> & _).
    left. eauto.
  - destruct (limpieza cfg [] w0) as [[u|e'] w1]; [|discriminate]. intros [= <- _].
    right. eauto.
Qed.

Lemma generar_manual_removes_temp cfg (svc : ai_service num) req w resp w' :
  generar_manual cfg svc req w = (Ok resp, w') -> is_dir (TEMP_FOLDER cfg) w' = false.
Proof.
  unfold generar_manual.
  destruct (generar_manual_try cfg svc req w) as [[[resp0 temp_files]|e] w0].
  - destruct (limpieza cfg temp_files w0) as [[u|e] w1] eqn:Hclean; [|discriminate].
    intros [= _ <-]. apply limpieza_Ok in Hclean as (_ & [_ Htemp] & _). exact Htemp.
  - destruct (limpieza cfg [] w0) as [[u|e'] w1] eqn:Hclean; [|discriminate].
    intros [= _ <-]. apply limpieza_Ok in Hclean as (_ & [_ Htemp] & _). exact Htemp.
Qed.

(** With no API key configured, once the endpoint has answered one
    request, every later request it answers gets the 500 error: the
    sentinel component needs a preview, and the previews folder is gone. *)
Theorem later_requests_fail_without_key cfg (svc1 svc2 : ai_service num) req1 req2
    w resp1 w1 resp2 w2 :
  api_key_missing (GEMINI_API_KEY cfg) = true ->
  generar_manual cfg svc1 req1 w = (Ok resp1, w1) ->
  generar_manual cfg svc2 req2 w1 = (Ok resp2, w2) ->
  exists e, resp2 = JsonError 500 e.
Proof.
  intros Hkey Hfirst Hsecond.
  destruct (generar_manual_response _ _ _ _ _ _ Hsecond) as [[zip ->]|Herr]; [|exact Herr].
  exfalso. apply generar_manual_removes_temp in Hfirst.
  destruct (generar_manual_sin_temp _ _ _ _ _ _ _ _ _ Hfirst Hsecond)
    as (file & data & w3 & w4 & _ & _ & Hai & _).
  unfold analizar_y_generar_desglose in Hai. rewrite Hkey in Hai. discriminate Hai.
Qed.

(** *** The stages of a request that reaches its [return] *)

Lemma generar_manual_try_stages cfg (svc : ai_service num) req w resp temp_files w' :
  generar_manual_try cfg svc req w = (Ok (resp, temp_files), w') ->
  exists file data comps comps' folder svg_files temp_png_files doc_path docx_png_files
         w1 w2 w3,
    let path_render := os_path_join (UPLOAD_FOLDER cfg) (secure_filename (up_filename file)) in
    req_render req = Some file /\ req_data req = Some (Some data) /\
    write_file path_render (CUpload (up_is_image file)) w = (Ok tt, w1) /\
    analizar_y_generar_desglose cfg svc data path_render w1 = (Ok comps, w2) /\
    generar_planos_vectoriales_svg cfg comps w2
      = (Ok (comps', (folder, svg_files, temp_png_files)), w3) /\
    generar_manual_word cfg comps' path_render data w3 = (Ok (doc_path, docx_png_files), w') /\
    temp_files = [path_render; doc_path] ++ svg_files ++ temp_png_files ++ docx_png_files.
Proof.
  unfold generar_manual_try. intros Htry.
  apply io_bind_Ok in Htry as (file & w0 & Hfile & Htry). apply io_lift_Ok in Hfile as [Hfile ->].
  destruct (req_render req) as [file'|] eqn:Hreq; [|discriminate]. injection Hfile as ->.
  apply io_bind_Ok in Htry as ([] & w1 & Hsave & Htry).
  apply io_bind_Ok in Htry as (data & w1' & Hdata & Htry). apply io_lift_Ok in Hdata as [Hdata ->].
  destruct (req_data req) as [[data'|]|] eqn:Hreqd; try discriminate. injection Hdata as ->.
  apply io_bind_Ok in Htry as (comps & w2 & Hai & Htry).
  apply io_bind_Ok in Htry as ([comps' [[folder svgs] pngs]] & w3 & Hplanos & Htry).
  apply io_bind_Ok in Htry as ([doc_path docx_pngs] & w4 & Hdoc & Htry).
  apply io_bind_Ok in Htry as (m_doc & w5 & Hzdoc & Htry). apply zf_write_Ok in Hzdoc as [-> _].
  apply io_bind_Ok in Htry as (m_render & w5 & Hzren & Htry). apply zf_write_Ok in Hzren as [-> _].
  apply io_bind_Ok in Htry as (m_svgs & w5 & Hzsvg & Htry). apply zf_write_all_Ok in Hzsvg as [-> _].
  injection Htry as _ <- <-.
  exists file, data, comps, comps', folder, svgs, pngs, doc_path, docx_pngs, w1, w2, w3.
  cbv zeta. auto 10.
Qed.

(** *** Previews in the manual *)


(** In a run of the pipeline the section of every component whose name
    [secure_filename] does not empty embeds the PNG at the component's
    ['png_path'], and that file holds the figure of a component of this
    run with the same PNG name: the component's own, unless a later
    component was given the same PNG name. *)
Theorem every_section_shows_its_preview cfg (comps : list (gmap string (pyval num))) w
    comps' folder svg_files temp_png_files w1 path_render data doc_path docx_png_files w2 :
  generar_planos_vectoriales_svg cfg comps w
    = (Ok (comps', (folder, svg_files, temp_png_files)), w1) ->
  generar_manual_word cfg comps' path_render data w1 = (Ok (doc_path, docx_png_files), w2) ->
  exists ps doc,
    Forall2 (fun comp p => dibujar_componente comp = Ok p) comps ps /\
    w_files w2 !! doc_path = Some (CDocx doc) /\
    length (doc_piezas doc) = length comps /\
    forall k comp p nombre,
      comps !! k = Some comp -> ps !! k = Some p ->
      comp !! "nombre" = Some (PStr nombre) -> secure_filename nombre <> [] ->
      let png_path := os_path_join (TEMP_FOLDER cfg) (plano_png_fname p) in
      exists s p',
        doc_piezas doc !! k = Some s /\
        pieza_imagen s = Some png_path /\
        In p' ps /\ plano_png_fname p' = plano_png_fname p /\
        w_files w1 !! png_path = Some (CPng (plano_fig p')) /\
        ((forall j p'', (k < j)%nat -> ps !! j = Some p'' ->
            plano_png_fname p'' <> plano_png_fname p) ->
         w_files w1 !! png_path = Some (CPng (plano_fig p))).
Proof.
  intros Hplanos Hdoc. assert (Hrun := Hplanos).
  apply generar_planos_inv in Hplanos as (ps & Hps & _ & _ & Hcomps' & _).
  apply generar_manual_word_secciones in Hdoc as (doc & w3 & Hlookup & Hloop & _ & _).
  apply secciones_loop_imagenes in Hloop.
  exists ps, doc. split; [exact Hps|]. split; [exact Hlookup|].
  assert (Hlen : length comps' = length comps).
  { rewrite (Forall2_length _ _ _ Hcomps'), length_zip_with, <- (Forall2_length _ _ _ Hps). lia. }
  split; [rewrite <- (Forall2_length _ _ _ Hloop); exact Hlen|].
  intros k comp p nombre Hk Hpk Hnom Hname png_path.
  assert (Hp := Forall2_lookup_lr _ _ _ _ _ _ Hps Hk Hpk). cbn beta in Hp.
  assert (Hzip : zip comps ps !! k = Some (comp, p)).
  { rewrite lookup_zip_with, Hk. cbn. rewrite Hpk. reflexivity. }
  destruct (Forall2_lookup_r _ _ _ _ _ Hcomps' Hzip) as (comp' & Hk' & Hcomp').
  cbn [fst snd] in Hcomp'.
  destruct (Forall2_lookup_l _ _ _ _ _ Hloop Hk') as (s & Hs & w4 & Hcelda).
  destruct (savefig_path_plano (TEMP_FOLDER cfg) _ _ Hp)
    as (nombre0 & name & Hnom0 & Htarget & _ & Hname0).
  assert (nombre0 = nombre) as -> by congruence.
  assert (name = plano_png_fname p) as ->.
  { rewrite Hname0. destruct (secure_filename nombre); [contradiction|reflexivity]. }
  destruct (generar_planos_contenido _ _ _ _ _ _ Hps Hrun k p Hpk)
    as (_ & Hown & _ & p' & target & Hin' & Hsame & Htarget' & Hfile).
  assert (target = png_path) as -> by (unfold png_path; congruence).
  exists s, p'. split; [exact Hs|]. split.
  - refine (celda_imagen_present _ _ _ _ _ _ _ _ Hcelda).
    + rewrite Hcomp'. apply lookup_insert_eq.
    + apply temp_folder_join_nonempty, (plano_png_fname_flat _ _ Hp).
    + unfold is_file. rewrite Hfile. reflexivity.
  - do 3 (split; [assumption|]). intros Hlater.
    destruct (Hown Hlater) as (target & Htarget'' & Hfig).
    assert (target = png_path) as -> by (unfold png_path; congruence). exact Hfig.
Qed.

(** *** What the emitter leaves untouched *)

Lemma add_picture_content path w u w' :
  add_picture path w = (Ok u, w') ->
  w_files w !! path = Some (CUpload true) \/ exists f, w_files w !! path = Some (CPng f).
Proof.
  unfold add_picture. destruct (w_files w !! path) as [[[|]| |f|]|]; try discriminate; eauto.
Qed.

(** The endpoint returns the archive only for an upload that is a readable
    image: the manual embeds the render, and python-docx refuses bytes
    that are no image. *)
Theorem archive_needs_image cfg (svc : ai_service num) req w
    mimetype as_attachment download_name zip w' :
  generar_manual cfg svc req w = (Ok (SendFile mimetype as_attachment download_name zip), w') ->
  exists file, req_render req = Some file /\ up_is_image file = true.
Proof.
  unfold generar_manual.
  destruct (generar_manual_try cfg svc req w) as [[[resp temp_files]|e] w0] eqn:Htry.
  - intros _.
    apply generar_manual_try_stages in Htry
      as (file & data & comps & comps' & folder & svgs & pngs & doc_path & docx & w1 & w2 & w3
          & Hstages).
    cbv zeta in Hstages. destruct Hstages as (Hreq & _ & Hsave & Hai & Hplanos & Hdoc & _).
    exists file. split; [exact Hreq|].
    set (path_render := os_path_join (UPLOAD_FOLDER cfg) (secure_filename (up_filename file))) in *.
    apply write_file_Ok in Hsave as (Hf1 & _).
    destruct (analizar_y_generar_desglose_total cfg svc data path_render w1)
      as (comps0 & w2' & Hai' & Hf2 & _).
    rewrite Hai in Hai'. injection Hai' as <- <-.
    assert (Hcontent : w_files w3 !! path_render = Some (CUpload (up_is_image file))).
    { rewrite (generar_planos_frame _ _ _ _ _ path_render Hplanos).
      - rewrite Hf2, Hf1. apply lookup_insert_eq.
      - apply render_fuera_de_planos, secure_filename_flat.
      - apply render_fuera_de_temp, secure_filename_flat. }
    apply generar_manual_word_secciones in Hdoc as (doc & w4 & _ & _ & _ & Hpic).
    assert (Hfile : is_file path_render w3 = true) by (unfold is_file; rewrite Hcontent; reflexivity).
    apply Hpic, add_picture_content in Hfile as [Himg|[f Himg]]; congruence.
  - destruct (limpieza cfg [] w0) as [[u|e'] w1]; discriminate.
Qed.

(** *** The adapter and the AI service *)

Ltac run_adapter :=
  unfold analizar_y_generar_desglose, consultar_modelo, borrar_remoto;
  unfold io_finally, io_catch, log_call, io_raise, io_lift;
  unfold mbind, io_mbind, io_bind, mret, io_mret, io_ret.

(** Once the render has been uploaded to the AI service, the adapter asks
    for its deletion before it returns, whether the model answered, failed
    or was never queried; and it returns even if the deletion fails. *)
Theorem remote_file_always_deleted cfg (svc : ai_service num) data path_render w uploaded_file :
  api_key_missing (GEMINI_API_KEY cfg) = false ->
  svc_client svc = true ->
  svc_upload svc = Some uploaded_file ->
  exists comps consulta w',
    analizar_y_generar_desglose cfg svc data path_render w = (Ok comps, w') /\
    llamadas_nuevas w w'
      ([CallClient; CallUpload path_render] ++ consulta ++ [CallClient; CallDelete]) /\
    (consulta = [] \/ exists prompt, consulta = [CallGenerate prompt]).
Proof.
  intros Hkey Hclient Hupload. unfold llamadas_nuevas. run_adapter.
  rewrite Hkey, Hclient, Hupload. cbn [w_calls].
  destruct (user_prompt data) as [prompt|e].
  - destruct (svc_generate svc) as [[l|]|]; destruct (svc_delete svc);
      eexists _, [CallGenerate prompt], _; cbn [w_calls];
      (split; [reflexivity|]); rewrite <- !app_assoc; eauto.
  - destruct (svc_delete svc); eexists _, [], _; cbn [w_calls];
      (split; [reflexivity|]); rewrite <- !app_assoc; eauto.
Qed.

Lemma user_prompt_missing (data : gmap string (pyval num)) :
  data !! "frente" = None \/ data !! "fondo" = None \/ data !! "altura" = None
  \/ data !! "prompt" = None ->
  user_prompt data = Raise KeyError.
Proof.
  unfold user_prompt, subscript.
  destruct (data !! "frente"); [|reflexivity].
  destruct (data !! "fondo"); [|reflexivity].
  destruct (data !! "altura"); [|reflexivity].
  destruct (data !! "prompt"); [|reflexivity].
  intros [?|[?|[?|?]]]; discriminate.
Qed.

(** When the request data lacks one of [frente], [fondo], [altura] or
    [prompt], the render is uploaded to the AI service and deleted again
    without the model ever being queried, and the adapter returns the
    fallback record. *)
Theorem model_not_queried_without_dimensions cfg (svc : ai_service num) data path_render w
    uploaded_file :
  api_key_missing (GEMINI_API_KEY cfg) = false ->
  svc_client svc = true ->
  svc_upload svc = Some uploaded_file ->
  data !! "frente" = None \/ data !! "fondo" = None \/ data !! "altura" = None
  \/ data !! "prompt" = None ->
  exists w',
    analizar_y_generar_desglose cfg svc data path_render w = (Ok [muro_base_fallback], w') /\
    llamadas_nuevas w w' [CallClient; CallUpload path_render; CallClient; CallDelete].
Proof.
  intros Hkey Hclient Hupload Hdata. unfold llamadas_nuevas. run_adapter.
  rewrite Hkey, Hclient, Hupload, (user_prompt_missing _ Hdata). cbn [w_calls].
  destruct (svc_delete svc); eexists; cbn [w_calls];
    (split; [reflexivity|]); rewrite <- !app_assoc; reflexivity.
Qed.

(** When the service answers, the adapter returns the list parsed from the
    model's answer as it is; the service saw exactly one upload, one
    query and one deletion. *)
Theorem model_answer_returned_unchanged cfg (svc : ai_service num) data path_render w
    uploaded_file prompt componentes :
  api_key_missing (GEMINI_API_KEY cfg) = false ->
  svc_client svc = true ->
  svc_upload svc = Some uploaded_file ->
  user_prompt data = Ok prompt ->
  svc_generate svc = Some (Some componentes) ->
  exists w',
    analizar_y_generar_desglose cfg svc data path_render w = (Ok componentes, w') /\
    llamadas_nuevas w w'
      [CallClient; CallUpload path_render; CallGenerate prompt; CallClient; CallDelete].
Proof.
  intros Hkey Hclient Hupload Hprompt Hgen. unfold llamadas_nuevas. run_adapter.
  rewrite Hkey, Hclient, Hupload, Hprompt, Hgen. cbn [w_calls].
  destruct (svc_delete svc); eexists; cbn [w_calls];
    (split; [reflexivity|]); rewrite <- !app_assoc; reflexivity.
Qed.

(** *** What the manual shows *)

Lemma seccion_de_muestra i comp w s w' :
  seccion_de i comp w = (Ok s, w') -> seccion_muestra i comp s.
Proof.
  unfold seccion_de. intros Hs.
  apply io_bind_Ok in Hs as (nombre & w1 & Hnom & Hs). apply io_lift_Ok in Hnom as [Hnom ->].
  apply subscript_Ok in Hnom.
  apply io_bind_Ok in Hs as (imagen & w1 & Him & Hs). apply celda_imagen_inv in Him as [-> Him].
  apply io_bind_Ok in Hs as (dims & w1 & Hdims & Hs). apply io_lift_Ok in Hdims as [Hdims ->].
  apply subscript_Ok in Hdims.
  apply io_bind_Ok in Hs as ([[l a] e] & w1 & Hun & Hs). apply io_lift_Ok in Hun as [Hun ->].
  apply io_bind_Ok in Hs as (material & w1 & Hmat & Hs). apply io_lift_Ok in Hmat as [Hmat ->].
  apply subscript_Ok in Hmat.
  apply io_bind_Ok in Hs as (cantidad & w1 & Hcant & Hs). apply io_lift_Ok in Hcant as [Hcant ->].
  apply subscript_Ok in Hcant.
  apply io_bind_Ok in Hs as (nombre' & w1 & Hnom' & Hs). apply io_lift_Ok in Hnom' as [Hnom' ->].
  injection Hs as <- _.
  exists nombre, material, cantidad, dims, l, a, e. cbn. auto 10.
Qed.

Lemma secciones_loop_muestra i (comps : list (gmap string (pyval num))) w piezas w' :
  secciones_loop i comps w = (Ok piezas, w') ->
  length piezas = length comps /\
  forall k comp, comps !! k = Some comp ->
    exists s, piezas !! k = Some s /\ seccion_muestra (i + k) comp s.
Proof.
  revert i piezas w'. induction comps as [|comp rest IH]; intros i piezas w' Hloop.
  - injection Hloop as <- _. split; [reflexivity|]. intros k comp Hk. discriminate Hk.
  - cbn [secciones_loop] in Hloop.
    apply io_bind_Ok in Hloop as (s & w1 & Hs & Hloop).
    assert (Hshow := seccion_de_muestra _ _ _ _ _ Hs).
    apply seccion_de_inv in Hs as (-> & _).
    apply io_bind_Ok in Hloop as (ss & w1 & Hss & Hloop). apply IH in Hss as [Hlen Hss].
    injection Hloop as <- _. split; [cbn [length]; congruence|].
    intros [|k] comp' Hk.
    + injection Hk as <-. exists s. rewrite Nat.add_0_r. auto.
    + destruct (Hss k comp' Hk) as (s' & Hs' & Hshow').
      exists s'. split; [exact Hs'|]. rewrite Nat.add_succ_r. exact Hshow'.
Qed.

Lemma generar_manual_word_muestra cfg (comps : list (gmap string (pyval num)))
    path_render data w doc_path docx_png_files w' :
  generar_manual_word cfg comps path_render data w = (Ok (doc_path, docx_png_files), w') ->
  exists doc,
    w_files w' !! doc_path = Some (CDocx doc) /\
    data !! "frente" = Some (doc_frente doc) /\ data !! "fondo" = Some (doc_fondo doc) /\
    data !! "altura" = Some (doc_altura doc) /\
    length (doc_piezas doc) = length comps /\
    forall k comp, comps !! k = Some comp ->
      exists s, doc_piezas doc !! k = Some s /\ seccion_muestra k comp s.
Proof.
  unfold generar_manual_word. intros Hdoc.
  apply io_bind_Ok in Hdoc as (proyecto & w1 & Hpr & Hdoc). apply io_lift_Ok in Hpr as [_ ->].
  apply io_bind_Ok in Hdoc as (ex & w1 & Hex & Hdoc). apply os_path_exists_inv in Hex as [-> _].
  apply io_bind_Ok in Hdoc as (render & w1 & _ & Hdoc).
  apply io_bind_Ok in Hdoc as (frente & w2 & Hfr & Hdoc). apply io_lift_Ok in Hfr as [Hfr ->].
  apply io_bind_Ok in Hdoc as (fondo & w2 & Hfo & Hdoc). apply io_lift_Ok in Hfo as [Hfo ->].
  apply io_bind_Ok in Hdoc as (altura & w2 & Hal & Hdoc). apply io_lift_Ok in Hal as [Hal ->].
  apply subscript_Ok in Hfr, Hfo, Hal.
  apply io_bind_Ok in Hdoc as (piezas & w2 & Hpz & Hdoc).
  apply secciones_loop_muestra in Hpz as [Hlen Hpz].
  apply io_bind_Ok in Hdoc as (u & w3 & Hwr & Hdoc).
  apply write_file_Ok in Hwr as (Hf & _). injection Hdoc as <- <- <-.
  eexists. split; [rewrite Hf; apply lookup_insert_eq|]. cbn. auto 10.
Qed.

(** When the manual builder returns, the manual on disk has exactly one
    section per component, in the order of the list; section [k] is
    titled [Pieza k+1: <nombre>] and shows that component's material,
    measures and quantity, and the header shows the stand's three
    dimensions from the request. *)
Theorem manual_sections_follow_components cfg (comps : list (gmap string (pyval num)))
    path_render data w doc_path docx_png_files w' :
  generar_manual_word cfg comps path_render data w = (Ok (doc_path, docx_png_files), w') ->
  exists doc,
    w_files w' !! doc_path = Some (CDocx doc) /\
    data !! "frente" = Some (doc_frente doc) /\ data !! "fondo" = Some (doc_fondo doc) /\
    data !! "altura" = Some (doc_altura doc) /\
    length (doc_piezas doc) = length comps /\
    forall k comp, comps !! k = Some comp ->
      exists s, doc_piezas doc !! k = Some s /\ seccion_muestra k comp s.
Proof. apply generar_manual_word_muestra. Qed.

(** *** What a request must carry *)

Lemma dibujar_componente_dibujable (comp : gmap string (pyval num)) p :
  dibujar_componente comp = Ok p -> componente_dibujable comp.
Proof.
  intros Hp. apply dibujar_componente_inv in Hp as (t & Ht & _).
  apply trazar_svg_inv in Ht
    as (dims & vl & va & ve & l & a & nombre & material & caption & w_draw & h_draw & y_caption
        & Hdims & Hun & Hl & Ha & Hnom & Hmat & _).
  exists dims, vl, va, ve, l, a, nombre, material. auto 10.
Qed.

(** The endpoint answers with the archive only if the request data carry
    [frente], [fondo] and [altura] and every record the adapter returned
    is one the emitter accepts and carries [cantidad_unidades]: the list
    from the model is not validated, so a record short of a field ends in
    the 500 error. *)
Theorem archive_needs_complete_records cfg (svc : ai_service num) req w
    mimetype as_attachment download_name zip w' :
  generar_manual cfg svc req w = (Ok (SendFile mimetype as_attachment download_name zip), w') ->
  exists file data comps w1 w2,
    req_render req = Some file /\ req_data req = Some (Some data) /\
    analizar_y_generar_desglose cfg svc data
      (os_path_join (UPLOAD_FOLDER cfg) (secure_filename (up_filename file))) w1
      = (Ok comps, w2) /\
    Forall (fun comp => componente_dibujable comp /\ is_Some (comp !! "cantidad_unidades"))
           comps /\
    is_Some (data !! "frente") /\ is_Some (data !! "fondo") /\ is_Some (data !! "altura").
Proof.
  unfold generar_manual.
  destruct (generar_manual_try cfg svc req w) as [[[resp temp_files]|e] w0] eqn:Htry.
  - intros _.
    apply generar_manual_try_stages in Htry
      as (file & data & comps & comps' & folder & svgs & pngs & doc_path & docx & w1 & w2 & w3
          & Hstages).
    cbv zeta in Hstages. destruct Hstages as (Hreq & Hdata & _ & Hai & Hplanos & Hdoc & _).
    exists file, data, comps, w1, w2. split; [exact Hreq|]. split; [exact Hdata|].
    split; [exact Hai|].
    apply generar_planos_inv in Hplanos as (ps & Hps & _ & _ & Hcomps' & _).
    apply generar_manual_word_muestra in Hdoc
      as (doc & _ & Hfr & Hfo & Hal & _ & Hsecs).
    split; [|rewrite Hfr, Hfo, Hal; eauto].
    apply Forall_lookup_2. intros k comp Hk.
    destruct (Forall2_lookup_l _ _ _ _ _ Hps Hk) as (p & Hp & Hdraw).
    split; [exact (dibujar_componente_dibujable _ _ Hdraw)|].
    assert (Hzip : zip_with pair comps ps !! k = Some (comp, p)).
    { rewrite lookup_zip_with, Hk. cbn. rewrite Hp. reflexivity. }
    destruct (Forall2_lookup_r _ _ _ _ _ Hcomps' Hzip) as (comp' & Hk' & Hcomp').
    destruct (Hsecs k comp' Hk') as (s & _ & nombre & material & cantidad & dims & vl & va & ve & _ & _ & Hcant & _).
    cbn [fst snd] in Hcomp'. subst comp'.
    rewrite lookup_insert_ne in Hcant by discriminate. eauto.
  - destruct (limpieza cfg [] w0) as [[u|e'] w1]; discriminate.
Qed.

Lemma borrar_temporal_calls f (w : world num) r w' :
  borrar_temporal f w = (r, w') -> w_calls w' = w_calls w.
Proof.
  unfold borrar_temporal, os_path_exists, io_catch, os_remove, mbind, io_mbind, io_bind.
  destruct (is_file f w || is_dir f w); [destruct (is_file f w)|]; intros [= _ <-]; reflexivity.
Qed.

Lemma borrar_temporales_calls (temp_files : list pystr) (w : world num) r w' :
  io_foreach borrar_temporal temp_files w = (r, w') -> w_calls w' = w_calls w.
Proof.
  revert w. induction temp_files as [|f rest IH]; intros w.
  - intros [= _ <-]. reflexivity.
  - cbn [io_foreach]. unfold io_bind at 1.
    destruct (borrar_temporal f w) as [[u|e] w1] eqn:Hf; apply borrar_temporal_calls in Hf.
    + intros Hrest. apply IH in Hrest. congruence.
    + intros [= _ <-]. exact Hf.
Qed.

Lemma rmtree_si_existe_calls d (w : world num) r w' :
  rmtree_si_existe d w = (r, w') -> w_calls w' = w_calls w.
Proof.
  unfold rmtree_si_existe, os_path_exists, shutil_rmtree, mbind, io_mbind, io_bind.
  destruct (is_file d w || is_dir d w); [destruct (is_dir d w)|]; intros [= _ <-]; reflexivity.
Qed.

Lemma limpieza_calls cfg (temp_files : list pystr) (w : world num) r w' :
  limpieza cfg temp_files w = (r, w') -> w_calls w' = w_calls w.
Proof.
  unfold limpieza, mbind, io_mbind. unfold io_bind at 1.
  destruct (io_foreach borrar_temporal temp_files w) as [[u|e] w1] eqn:Hfiles.
  - apply borrar_temporales_calls in Hfiles. unfold io_bind.
    destruct (rmtree_si_existe (SVG_FOLDER cfg) w1) as [[u1|e1] w2] eqn:Hsvg.
    + intros Htemp. apply rmtree_si_existe_calls in Hsvg, Htemp. congruence.
    + intros [= _ <-]. apply rmtree_si_existe_calls in Hsvg. congruence.
  - intros [= _ <-]. exact (borrar_temporales_calls _ _ _ _ Hfiles).
Qed.

(** A request without the render, without the data field, or whose data
    is no JSON, is answered with the 500 error and the AI service is never
    contacted. *)
Theorem malformed_request_never_reaches_model cfg (svc : ai_service num) req w resp w' :
  req_render req = None \/ req_data req = None \/ req_data req = Some None ->
  generar_manual cfg svc req w = (Ok resp, w') ->
  (exists e, resp = JsonError 500 e) /\ w_calls w' = w_calls w.
Proof.
  intros Hreq. unfold generar_manual.
  assert (Htry : exists e w0, generar_manual_try cfg svc req w = (Raise e, w0) /\
                              w_calls w0 = w_calls w).
  { unfold generar_manual_try, mbind, io_mbind, io_bind, io_lift.
    destruct (req_render req) as [file|]; [|eauto].
    destruct (write_file _ _ w) as [[u|e] w0] eqn:Hsave.
    - apply write_file_Ok in Hsave as (_ & _ & Hcalls & _).
      destruct Hreq as [Hreq|[Hreq|Hreq]]; [discriminate Hreq| |]; rewrite Hreq; eauto.
    - exists e, w0. split; [reflexivity|]. revert Hsave. unfold write_file.
      repeat match goal with |- context [if ?b then _ else _] => destruct b end;
        intros [= _ <-]; reflexivity. }
  destruct Htry as (e & w0 & -> & Hcalls).
  destruct (limpieza cfg [] w0) as [[u|e'] w1] eqn:Hclean; [|discriminate].
  intros [= <- <-]. apply limpieza_calls in Hclean. split; [eauto|congruence].
Qed.

End Properties.


(** ** The properties on the sample job *)

(** C1 on Panel B, whose descriptor has 32 characters: both files show an
    irregular outline. *)
Lemma outline_rule_panel_b :
  match dibujar_componente panel_b with
  | Ok p => svg_outlines (plano_dwg p) = [Irregular] /\ png_outlines (plano_fig p) = [Irregular]
  | Raise _ => False
  end.
Proof.
  destruct (dibujar_componente panel_b) as [p|e] eqn:Hp.
  - apply (outline_rule panel_b p Hp).
    exists (PStr (lit "M 0 0 L 100 0 L 100 100 L 0 50 Z")).
    split; [reflexivity|]. split; [discriminate|]. vm_compute. lia.
  - vm_compute in Hp. discriminate Hp.
Defined.

(** C2 fails on the two pieces whose PNG names coincide.  When the
    emitter returns, the SVG file of the first piece has a path with a
    transform, and the PNG at the first piece's ['png_path'] has the solid
    box: the preview of the second piece has overwritten it. *)
Lemma previews_disagree_after_name_clash :
  match generar_planos_vectoriales_svg cfg_con_clave [pieza_x_svg_y; pieza_x_png_y]
          disco_inicial with
  | (Ok (comps', (_, svg_files, temp_png_files)), w') =>
    exists svg png dwg fig,
      svg_files !! 0%nat = Some svg /\ temp_png_files !! 0%nat = Some png /\
      (comps' !! 0%nat ≫= lookup "png_path") = Some (PStr png) /\
      w_files w' !! svg = Some (CSvg dwg) /\ w_files w' !! png = Some (CPng fig) /\
      svg_outlines dwg = [Irregular] /\ length (svg_transforms dwg) = 1%nat /\
      png_outlines fig = [Rectangular]
  | (Raise _, _) => False
  end.
Proof. vm_compute. do 4 eexists. repeat split; reflexivity. Qed.

(** On the two-panel job, whose PNG names differ, the files of both
    panels are on disk and agree. *)
Lemma written_files_agree_two_panels :
  match generar_planos_vectoriales_svg cfg_con_clave [panel_a; panel_b] disco_inicial with
  | (Ok (_, (_, svg_files, temp_png_files)), w') =>
    exists ps,
      Forall2 (fun comp p => dibujar_componente comp = Ok p) [panel_a; panel_b] ps /\
      svg_files = map (fun p => os_path_join (SVG_FOLDER cfg_con_clave) (plano_svg_fname p)) ps /\
      temp_png_files
        = map (fun p => os_path_join (TEMP_FOLDER cfg_con_clave) (plano_png_fname p)) ps /\
      forall k comp p, [panel_a; panel_b] !! k = Some comp -> ps !! k = Some p ->
        (forall j p', (k < j)%nat -> ps !! j = Some p' ->
           plano_png_fname p' <> plano_png_fname p) ->
        exists target dwg fig,
          savefig_path (os_path_join (TEMP_FOLDER cfg_con_clave) (plano_png_fname p))
            = Ok target /\
          w_files w' !! os_path_join (SVG_FOLDER cfg_con_clave) (plano_svg_fname p)
            = Some (CSvg dwg) /\
          w_files w' !! target = Some (CPng fig) /\
          svg_outlines dwg = [outline_of (spec_irregular (comp !! "svg_path_d"))] /\
          png_outlines fig = [outline_of (spec_irregular (comp !! "svg_path_d"))] /\
          length (svg_transforms dwg)
            = (if spec_irregular (comp !! "svg_path_d") then 1 else 0)%nat /\
          length (svg_rectangles dwg)
            = (if spec_irregular (comp !! "svg_path_d") then 0 else 1)%nat
  | (Raise _, _) => False
  end.
Proof.
  assert (Hret : returned (generar_planos_vectoriales_svg cfg_con_clave [panel_a; panel_b]
                             disco_inicial) = true) by (vm_compute; reflexivity).
  destruct (generar_planos_vectoriales_svg cfg_con_clave [panel_a; panel_b] disco_inicial)
    as [[[comps' [[folder svg_files] temp_png_files]]|e] w'] eqn:Hrun; [|discriminate Hret].
  exact (written_files_agree _ _ _ _ _ _ _ _ Hrun).
Defined.

(** C7 on Panel B, 60 cm by 40 cm: drawn 600 by 400 on a canvas of 700 by
    500, with [scale(6, 4)]. *)
Lemma drawing_scale_panel_b :
  exists t,
    trazar_svg panel_b = Ok t /\
    dwg_width (trazo_dwg t) = 700 # 1 /\
    dwg_height (trazo_dwg t) = 500 # 1 /\
    svg_transforms (trazo_dwg t)
      = [ [ FLit (lit "translate(50,50) scale("); FVal (PNum (6 # 1)); FLit (lit ", ");
            FVal (PNum (4 # 1)); FLit (lit ")") ] ].
Proof.
  destruct (trazar_svg panel_b) as [t|e] eqn:Ht; [|vm_compute in Ht; discriminate Ht].
  exists t. split; [reflexivity|].
  destruct (drawing_scale panel_b t Ht)
    as (dims & vl & va & ve & l & a & w_draw & h_draw
        & Hdims & Hun & Hl & Ha & Hw & Hh & Hcw & Hch & Hshape & _).
  vm_compute in Hdims. injection Hdims as <-.
  injection Hun as <- <- <-. injection Hl as <-. injection Ha as <-.
  vm_compute in Hw, Hh. injection Hw as <-. injection Hh as <-.
  change (num_add (600 # 1) (num_int 100)) with (Ok (700 # 1) : result Q) in Hcw.
  change (num_add (400 # 1) (num_int 100)) with (Ok (500 # 1) : result Q) in Hch.
  injection Hcw as <-. injection Hch as <-.
  change (spec_irregular (panel_b !! "svg_path_d")) with true in Hshape.
  destruct Hshape as (scale_x & scale_y & Hsx & Hsy & ->).
  vm_compute in Hsx, Hsy. injection Hsx as <-. injection Hsy as <-.
  repeat split; reflexivity.
Defined.

(** C10 on the two-panel job: the emitter leaves [Panel_A.svg] and
    [Panel_B.svg] on disk, and the manual written after it names them. *)
Lemma manual_references_two_panels :
  match generar_planos_vectoriales_svg cfg_con_clave [panel_a; panel_b] disco_inicial with
  | (Ok (comps', (_, svg_files, _)), w1) =>
    match generar_manual_word cfg_con_clave comps' (lit "/app/uploads/render.png") datos w1 with
    | (Ok (doc_path, _), w3) =>
      Forall2 (fun comp f =>
                 exists nombre,
                   comp !! "nombre" = Some (PStr nombre) /\
                   f = os_path_join (SVG_FOLDER cfg_con_clave)
                         (secure_filename nombre ++ lit ".svg") /\
                   os_path_basename f = secure_filename nombre ++ lit ".svg" /\
                   exists comp0 p0,
                     In comp0 [panel_a; panel_b] /\ dibujar_componente comp0 = Ok p0 /\
                     plano_svg_fname p0 = secure_filename nombre ++ lit ".svg" /\
                     w_files w1 !! f = Some (CSvg (plano_dwg p0)))
              [panel_a; panel_b] svg_files /\
      exists doc,
        w_files w3 !! doc_path = Some (CDocx doc) /\
        map pieza_archivo (doc_piezas doc)
          = map (fun f => [ FLit (lit "Archivo SVG: "); FVal (PStr (os_path_basename f)) ])
                svg_files
    | (Raise _, _) => False
    end
  | (Raise _, _) => False
  end.
Proof.
  assert (Hret :
    match generar_planos_vectoriales_svg cfg_con_clave [panel_a; panel_b] disco_inicial with
    | (Ok (comps', _), w1) =>
      returned (generar_manual_word cfg_con_clave comps' (lit "/app/uploads/render.png") datos w1)
    | (Raise _, _) => false
    end = true) by (vm_compute; reflexivity).
  destruct (generar_planos_vectoriales_svg cfg_con_clave [panel_a; panel_b] disco_inicial)
    as [[[comps' [[folder svg_files] temp_png_files]]|e] w1] eqn:Hplanos; [|discriminate Hret].
  destruct (generar_manual_word cfg_con_clave comps' (lit "/app/uploads/render.png") datos w1)
    as [[[doc_path docx_png_files]|e] w3] eqn:Hdoc; [|discriminate Hret].
  exact (manual_references_svg_files _ _ _ _ _ _ _ _ _ _ _ _ _ _ Hplanos Hdoc).
Defined.

(** C5 with no key in the environment. *)
Lemma missing_key_sentinel_no_key :
  analizar_y_generar_desglose cfg_sin_clave svc_ok datos (lit "/app/uploads/render.png")
    disco_inicial = (Ok [error_config], disco_inicial) /\
  error_config (num := Q) !! "nombre" = Some (PStr (lit "Error Config")) /\
  error_config (num := Q) !! "cantidad_unidades" = Some (PNum (0 # 1)).
Proof.
  exact (missing_key_sentinel cfg_sin_clave svc_ok datos (lit "/app/uploads/render.png")
           disco_inicial eq_refl).
Defined.

(** C6 with a service whose [generate_content] raises. *)
Lemma ai_failure_fallback_service_down :
  (exists w', analizar_y_generar_desglose cfg_con_clave svc_caido datos
                (lit "/app/uploads/render.png") disco_inicial
              = (Ok [muro_base_fallback], w')) /\
  muro_base_fallback (num := Q) !! "nombre" = Some (PStr (lit "Muro Base (Fallback)")) /\
  muro_base_fallback (num := Q) !! "cantidad_unidades" = Some (PNum (1 # 1)).
Proof.
  refine (ai_failure_fallback cfg_con_clave svc_caido datos (lit "/app/uploads/render.png")
            disco_inicial eq_refl _).
  right. right. right. left. reflexivity.
Defined.

(** C8 as the specification words it, refuted: it is not the case that
    exactly one of the two records lacks the fabrication-notes field. *)
Lemma not_exactly_one_lacks_notes :
  ~ ((sin_notas (error_config (num := Q)) /\ ~ sin_notas (muro_base_fallback (num := Q)))
     \/ (~ sin_notas (error_config (num := Q)) /\ sin_notas (muro_base_fallback (num := Q)))).
Proof.
  unfold sin_notas. intros [[Hsin _]|[_ Hsin]]; vm_compute in Hsin; discriminate Hsin.
Qed.

(** C9 on the two-panel job: two boxes, Panel A on the ground and Panel B
    on top of it. *)
Lemma boxes_stacked_two_panels :
  exists objs,
    generate_3d_model [panel_a; panel_b] = Ok objs /\
    length objs = length [panel_a; panel_b] /\
    forall k comp, [panel_a; panel_b] !! k = Some comp ->
      exists obj b,
        objs !! k = Some obj /\
        comp !! "nombre" = Some (obj_name obj) /\
        escala_m comp = Ok (obj_scale obj) /\
        suma_espesores (take k [panel_a; panel_b]) = Ok b /\
        base_en obj b.
Proof.
  destruct (generate_3d_model [panel_a; panel_b]) as [objs|e] eqn:Hrun;
    [|vm_compute in Hrun; discriminate Hrun].
  exists objs. split; [reflexivity|]. exact (boxes_stacked _ _ Hrun).
Defined.

(** C4 on a request that uploads [render.png]: the response is the archive. *)
Lemma zip_contents_render_png :
  match generar_manual cfg_con_clave svc_ok req_png disco_inicial with
  | (Ok (SendFile mimetype as_attachment download_name zip), _) =>
    mimetype = lit "application/zip" /\ as_attachment = true /\
    download_name = lit "Proyecto_Produccion.zip" /\
    exists file data comps w1 w2,
      req_render req_png = Some file /\ req_data req_png = Some (Some data) /\
      analizar_y_generar_desglose cfg_con_clave svc_ok data
        (os_path_join (UPLOAD_FOLDER cfg_con_clave) (secure_filename (up_filename file))) w1
        = (Ok comps, w2) /\
      exists nombres,
        Forall2 (fun comp nombre => comp !! "nombre" = Some (PStr nombre)) comps nombres /\
        map fst zip
          = lit "Manual_Produccion.docx" :: lit "Render_Original.jpg"
            :: map (fun nombre => lit "Planos_Corte/" ++ secure_filename nombre ++ lit ".svg")
                   nombres
  | _ => False
  end.
Proof.
  destruct (generar_manual cfg_con_clave svc_ok req_png disco_inicial)
    as [[[mimetype as_attachment download_name zip|status e]|e] w'] eqn:Hrun.
  - exact (zip_contents _ _ _ _ _ _ _ _ _ Hrun).
  - vm_compute in Hrun. discriminate Hrun.
  - vm_compute in Hrun. discriminate Hrun.
Defined.

(** C4 as the specification words it, refuted: the upload is [render.png],
    yet the archive has no [Render_Original.png]; the render is stored as
    [Render_Original.jpg]. *)
Lemma render_png_stored_as_jpg :
  match generar_manual cfg_con_clave svc_ok req_png disco_inicial with
  | (Ok resp, _) =>
    zip_names resp = [ lit "Manual_Produccion.docx"; lit "Render_Original.jpg";
                       lit "Planos_Corte/Panel_A.svg"; lit "Planos_Corte/Panel_B.svg" ] /\
    ~ In (lit "Render_Original.png") (zip_names resp)
  | (Raise _, _) => False
  end.
Proof.
  vm_compute. split; [reflexivity|]. intros [Hin|[Hin|[Hin|[Hin|[]]]]]; discriminate Hin.
Qed.

(** C3 at a failing request: the upload is no image, the manual stage
    raises, the response is the 500 error; [temp_files] is still empty
    when the [finally] block runs, and the uploaded render stays on disk. *)
Lemma render_left_after_failed_request :
  match generar_manual cfg_sin_clave svc_ok req_corrupto disco_inicial with
  | (r, w') =>
    r = Ok (JsonError 500 LibraryError) /\
    temp_files_al_final cfg_sin_clave svc_ok req_corrupto disco_inicial = [] /\
    is_file (lit "/app/uploads/render.png") w' = true /\
    is_dir (SVG_FOLDER cfg_sin_clave) w' = false /\
    is_dir (TEMP_FOLDER cfg_sin_clave) w' = false
  end.
Proof. vm_compute. repeat split. Qed.

Lemma disco_inicial_wf : world_wf disco_inicial.
Proof. intros p Hp. vm_compute in Hp. discriminate Hp. Defined.

(** The scratch folders after the failing request. *)
Lemma scratch_folders_removed_after_failure :
  match generar_manual cfg_sin_clave svc_ok req_corrupto disco_inicial with
  | (Ok _, w') => absent (SVG_FOLDER cfg_sin_clave) w' /\ absent (TEMP_FOLDER cfg_sin_clave) w'
  | (Raise _, _) => False
  end.
Proof.
  destruct (generar_manual cfg_sin_clave svc_ok req_corrupto disco_inicial)
    as [[resp|e] w'] eqn:Hrun.
  - exact (scratch_folders_removed _ _ _ _ _ _ Hrun).
  - vm_compute in Hrun. discriminate Hrun.
Defined.

(** The temporary files after the successful request. *)
Lemma temp_files_removed_render_png :
  match generar_manual cfg_con_clave svc_ok req_png disco_inicial with
  | (Ok (SendFile _ _ _ _), w') =>
    Forall (fun f => absent f w') (temp_files_al_final cfg_con_clave svc_ok req_png disco_inicial)
  | _ => False
  end.
Proof.
  destruct (generar_manual cfg_con_clave svc_ok req_png disco_inicial)
    as [[[mimetype as_attachment download_name zip|status e]|e] w'] eqn:Hrun.
  - exact (temp_files_removed_on_success _ _ _ _ _ _ _ _ _ disco_inicial_wf Hrun).
  - vm_compute in Hrun. discriminate Hrun.
  - vm_compute in Hrun. discriminate Hrun.
Defined.

(** The upload after the failing request. *)
Lemma failed_request_leaves_render_png :
  match generar_manual cfg_sin_clave svc_ok req_corrupto disco_inicial with
  | (Ok (JsonError _ _), w') =>
    temp_files_al_final cfg_sin_clave svc_ok req_corrupto disco_inicial = [] /\
    is_file (os_path_join (UPLOAD_FOLDER cfg_sin_clave) (secure_filename (lit "render.png"))) w'
      = true
  | _ => False
  end.
Proof.
  destruct (generar_manual cfg_sin_clave svc_ok req_corrupto disco_inicial)
    as [[[mimetype as_attachment download_name zip|status e]|e] w'] eqn:Hrun.
  - vm_compute in Hrun. discriminate Hrun.
  - refine (failed_request_leaves_upload cfg_sin_clave svc_ok req_corrupto disco_inicial
              {| up_filename := lit "render.png"; up_is_image := false |}
              (snd (write_file (lit "/app/uploads/render.png") (CUpload false) disco_inicial))
              status e w' eq_refl _ Hrun).
    vm_compute. reflexivity.
  - vm_compute in Hrun. discriminate Hrun.
Defined.

(** [run_as H t] evaluates the closed run [t] and records its outcome as [H]. *)
Ltac run_as H t :=
  let v := eval vm_compute in t in
  assert (H : t = v) by (vm_compute; reflexivity).

(** A second upload on the disk left by a first one finds no previews
    folder; with a model that returns no component the archive holds the
    manual and the render only. *)
Lemma no_plans_after_first_request :
  match generar_manual cfg_con_clave svc_vacio req_png disco_sin_previas with
  | (Ok (SendFile _ _ _ zip), _) =>
    map fst zip = [ lit "Manual_Produccion.docx"; lit "Render_Original.jpg" ]
  | _ => False
  end.
Proof.
  run_as Hrun (generar_manual cfg_con_clave svc_vacio req_png disco_sin_previas).
  rewrite Hrun. cbv beta iota.
  refine (no_plans_without_previews_folder _ _ _ _ _ _ _ _ _ _ Hrun).
  vm_compute. reflexivity.
Defined.

(** Two uploads in a row without an API key: the second is refused. *)
Lemma second_upload_refused_without_key :
  match generar_manual cfg_sin_clave svc_ok req_png disco_inicial with
  | (Ok _, w1) =>
    match generar_manual cfg_sin_clave svc_ok req_png w1 with
    | (Ok resp2, _) => exists e, resp2 = JsonError 500 e
    | (Raise _, _) => False
    end
  | (Raise _, _) => False
  end.
Proof.
  run_as Hrun1 (generar_manual cfg_sin_clave svc_ok req_png disco_inicial).
  rewrite Hrun1. cbv beta iota.
  match goal with
  | |- context [generar_manual ?cfg ?svc ?req ?w1] => run_as Hrun2 (generar_manual cfg svc req w1)
  end.
  rewrite Hrun2. cbv beta iota.
  exact (later_requests_fail_without_key cfg_sin_clave svc_ok svc_ok req_png req_png
           disco_inicial _ _ _ _ eq_refl Hrun1 Hrun2).
Defined.

(** The manual of the two-panel job shows the previews the emitter wrote. *)
Lemma two_panel_manual_shows_previews :
  match generar_planos_vectoriales_svg cfg_con_clave [panel_a; panel_b] disco_inicial with
  | (Ok (comps', _), w1) =>
    match generar_manual_word cfg_con_clave comps' (lit "/app/uploads/render.png") datos w1 with
    | (Ok (doc_path, _), w2) =>
      exists ps doc,
        Forall2 (fun comp p => dibujar_componente comp = Ok p) [panel_a; panel_b] ps /\
        w_files w2 !! doc_path = Some (CDocx doc) /\
        length (doc_piezas doc) = length [panel_a; panel_b] /\
        forall k comp p nombre,
          [panel_a; panel_b] !! k = Some comp -> ps !! k = Some p ->
          comp !! "nombre" = Some (PStr nombre) -> secure_filename nombre <> [] ->
          let png_path := os_path_join (TEMP_FOLDER cfg_con_clave) (plano_png_fname p) in
          exists s p',
            doc_piezas doc !! k = Some s /\
            pieza_imagen s = Some png_path /\
            In p' ps /\ plano_png_fname p' = plano_png_fname p /\
            w_files w1 !! png_path = Some (CPng (plano_fig p')) /\
            ((forall j p'', (k < j)%nat -> ps !! j = Some p'' ->
                plano_png_fname p'' <> plano_png_fname p) ->
             w_files w1 !! png_path = Some (CPng (plano_fig p)))
    | (Raise _, _) => False
    end
  | (Raise _, _) => False
  end.
Proof.
  assert (Hboth :
    match generar_planos_vectoriales_svg cfg_con_clave [panel_a; panel_b] disco_inicial with
    | (Ok (comps', _), w1) =>
      returned (generar_manual_word cfg_con_clave comps' (lit "/app/uploads/render.png") datos w1)
    | (Raise _, _) => false
    end = true) by (vm_compute; reflexivity).
  destruct (generar_planos_vectoriales_svg cfg_con_clave [panel_a; panel_b] disco_inicial)
    as [[[comps' [[folder svg_files] temp_png_files]]|e1] w1] eqn:Hplanos; [|discriminate Hboth].
  destruct (generar_manual_word cfg_con_clave comps' (lit "/app/uploads/render.png") datos w1)
    as [[[doc_path docx_png_files]|e2] w2] eqn:Hmanual; [|discriminate Hboth].
  exact (every_section_shows_its_preview _ _ _ _ _ _ _ _ _ _ _ _ _ Hplanos Hmanual).
Defined.

(** The archive of the PNG upload was made from an image. *)
Lemma archive_of_render_png_from_image :
  match generar_manual cfg_con_clave svc_ok req_png disco_inicial with
  | (Ok (SendFile _ _ _ _), _) =>
    exists file, req_render req_png = Some file /\ up_is_image file = true
  | _ => False
  end.
Proof.
  run_as Hrun (generar_manual cfg_con_clave svc_ok req_png disco_inicial).
  rewrite Hrun. cbv beta iota.
  exact (archive_needs_image _ _ _ _ _ _ _ _ _ Hrun).
Defined.

(** The uploaded render is deleted from a service whose model is down and
    from one on which the deletion itself fails. *)
Lemma remote_file_deleted_service_down :
  exists comps consulta w',
    analizar_y_generar_desglose cfg_con_clave svc_caido datos (lit "/app/uploads/render.png")
      disco_inicial = (Ok comps, w') /\
    llamadas_nuevas disco_inicial w'
      ([CallClient; CallUpload (lit "/app/uploads/render.png")] ++ consulta
       ++ [CallClient; CallDelete]) /\
    (consulta = [] \/ exists prompt, consulta = [CallGenerate prompt]).
Proof.
  exact (remote_file_always_deleted cfg_con_clave svc_caido datos (lit "/app/uploads/render.png")
           disco_inicial (lit "files/abc") eq_refl eq_refl eq_refl).
Defined.

(** Form data without a description: the model is not queried. *)
Lemma model_not_queried_without_prompt :
  exists w',
    analizar_y_generar_desglose cfg_con_clave svc_ok datos_sin_prompt
      (lit "/app/uploads/render.png") disco_inicial = (Ok [muro_base_fallback], w') /\
    llamadas_nuevas disco_inicial w'
      [CallClient; CallUpload (lit "/app/uploads/render.png"); CallClient; CallDelete].
Proof.
  refine (model_not_queried_without_dimensions cfg_con_clave svc_ok datos_sin_prompt
            (lit "/app/uploads/render.png") disco_inicial (lit "files/abc")
            eq_refl eq_refl eq_refl _).
  right. right. right. vm_compute. reflexivity.
Defined.

(** The two panels of a healthy service come back as the model gave them,
    also when the deletion of the upload fails. *)
Lemma two_panels_returned_unchanged :
  exists prompt w',
    user_prompt datos = Ok prompt /\
    analizar_y_generar_desglose cfg_con_clave svc_sin_borrado datos
      (lit "/app/uploads/render.png") disco_inicial = (Ok [panel_a; panel_b], w') /\
    llamadas_nuevas disco_inicial w'
      [CallClient; CallUpload (lit "/app/uploads/render.png"); CallGenerate prompt;
       CallClient; CallDelete].
Proof.
  destruct (user_prompt datos) as [prompt|e] eqn:Hprompt.
  - exists prompt.
    destruct (model_answer_returned_unchanged cfg_con_clave svc_sin_borrado datos
                (lit "/app/uploads/render.png") disco_inicial (lit "files/abc") prompt
                [panel_a; panel_b] eq_refl eq_refl eq_refl Hprompt eq_refl) as (w' & Hrun & Hcalls).
    exists w'. split; [reflexivity|]. split; assumption.
  - vm_compute in Hprompt. discriminate Hprompt.
Defined.

(** The manual of the two panels, built without previews: two sections,
    [Pieza 1] and [Pieza 2]. *)
Lemma manual_sections_two_panels :
  match generar_manual_word cfg_con_clave [panel_a; panel_b] (lit "/app/uploads/render.png")
          datos disco_inicial with
  | (Ok (doc_path, _), w') =>
    exists doc,
      w_files w' !! doc_path = Some (CDocx doc) /\
      datos !! "frente" = Some (doc_frente doc) /\ datos !! "fondo" = Some (doc_fondo doc) /\
      datos !! "altura" = Some (doc_altura doc) /\
      length (doc_piezas doc) = length [panel_a; panel_b] /\
      forall k comp, [panel_a; panel_b] !! k = Some comp ->
        exists s, doc_piezas doc !! k = Some s /\ seccion_muestra k comp s
  | (Raise _, _) => False
  end.
Proof.
  assert (Hret : returned (generar_manual_word cfg_con_clave [panel_a; panel_b]
                             (lit "/app/uploads/render.png") datos disco_inicial) = true)
    by (vm_compute; reflexivity).
  destruct (generar_manual_word cfg_con_clave [panel_a; panel_b] (lit "/app/uploads/render.png")
              datos disco_inicial) as [[[doc_path docx_png_files]|e] w'] eqn:Hrun;
    [|discriminate Hret].
  exact (manual_sections_follow_components _ _ _ _ _ _ _ _ Hrun).
Defined.

(** The archive of the PNG upload was made from complete records. *)
Lemma archive_of_render_png_complete :
  match generar_manual cfg_con_clave svc_ok req_png disco_inicial with
  | (Ok (SendFile _ _ _ _), _) =>
    exists file data comps w1 w2,
      req_render req_png = Some file /\ req_data req_png = Some (Some data) /\
      analizar_y_generar_desglose cfg_con_clave svc_ok data
        (os_path_join (UPLOAD_FOLDER cfg_con_clave) (secure_filename (up_filename file))) w1
        = (Ok comps, w2) /\
      Forall (fun comp => componente_dibujable comp /\ is_Some (comp !! "cantidad_unidades"))
             comps /\
      is_Some (data !! "frente") /\ is_Some (data !! "fondo") /\ is_Some (data !! "altura")
  | _ => False
  end.
Proof.
  run_as Hrun (generar_manual cfg_con_clave svc_ok req_png disco_inicial).
  rewrite Hrun. cbv beta iota.
  exact (archive_needs_complete_records _ _ _ _ _ _ _ _ _ Hrun).
Defined.

(** A request without the render is refused before the service is called. *)
Lemma request_without_render_refused :
  match generar_manual cfg_con_clave svc_ok req_sin_render disco_inicial with
  | (Ok resp, w') => (exists e, resp = JsonError 500 e) /\ w_calls w' = w_calls disco_inicial
  | (Raise _, _) => False
  end.
Proof.
  run_as Hrun (generar_manual cfg_con_clave svc_ok req_sin_render disco_inicial).
  rewrite Hrun. cbv beta iota.
  refine (malformed_request_never_reaches_model cfg_con_clave svc_ok req_sin_render
            disco_inicial _ _ _ Hrun).
  left. reflexivity.
Defined.
